(** * Prospector scanner status screen: a shallow embedding of
    [custom_status_screen.c] and the properties of its display engine.

    Conventions.  C integers are values of [Z]; every conversion to a
    fixed-width type is written out with [to_uint8], [to_int16], ... .
    Integer division and remainder are C's (truncating): [Z.quot], [Z.rem].
    A widget pointer is [option obj] ([None] is NULL).  Calls into the
    rendering, logging and driver collaborators are recorded, oldest
    first, in a list of [call]s; calls that only set a font, a padding, a
    radius, a border, a shadow, a flag, a pivot or a background opacity
    are not recorded. *)

From stdpp Require Import base list.
From Stdlib Require Import ZArith Lia Bool String Ascii SpecFloat.
Import ListNotations.

Local Open Scope string_scope.
Local Open Scope list_scope.
Local Open Scope stdpp_scope.
Local Open Scope Z_scope.

(** String concatenation ([++] is kept for lists). *)
Local Infix "+++" := String.append (at level 60, right associativity).

(** ** Machine integers *)

Definition wrap_unsigned (w z : Z) : Z := z mod 2 ^ w.
Definition wrap_signed (w z : Z) : Z := (z + 2 ^ (w - 1)) mod 2 ^ w - 2 ^ (w - 1).

Definition to_uint8 : Z -> Z := wrap_unsigned 8.
Definition to_uint16 : Z -> Z := wrap_unsigned 16.
Definition to_uint32 : Z -> Z := wrap_unsigned 32.
Definition to_int8 : Z -> Z := wrap_signed 8.
Definition to_int16 : Z -> Z := wrap_signed 16.
Definition to_int : Z -> Z := wrap_signed 32.

Arguments wrap_unsigned : simpl never.
Arguments wrap_signed : simpl never.
Arguments to_uint8 : simpl never.
Arguments to_uint16 : simpl never.
Arguments to_uint32 : simpl never.
Arguments to_int8 : simpl never.
Arguments to_int16 : simpl never.
Arguments to_int : simpl never.

Definition INT_MIN : Z := - 2147483648.
Definition INT_MAX : Z := 2147483647.

(** ** Text: [%d] and [snprintf] *)

Definition digit_char (d : Z) : ascii := ascii_of_nat (48 + Z.to_nat d).

(** The decimal digits of [n >= 0], placed in front of [acc]; [fuel]
    bounds the number of digits after the last one. *)
Fixpoint fmt_u (fuel : nat) (n : Z) (acc : string) : string :=
  let acc := String (digit_char (n mod 10)) acc in
  match fuel with
  | O => acc
  | S fuel => if n <? 10 then acc else fmt_u fuel (n / 10) acc
  end.

(** [%d] of printf, for the values of a C integer (at most 20 digits). *)
Definition fmt_d (z : Z) : string :=
  if z <? 0 then String "-" (fmt_u 19 (- z) "") else fmt_u 19 z "".

(** [snprintf(buf, size, ...)] keeps at most [size - 1] characters. *)
Definition snprintf (size : nat) (s : string) : string :=
  substring 0 (size - 1) s.

(** ** Collaborator calls *)

Definition obj := nat.
Definition timer := nat.
Definition color := Z.

Definition lv_color_hex (c : Z) : color := c.
Definition lv_color_make (r g b : Z) : color :=
  Z.lor (Z.shiftl r 16) (Z.lor (Z.shiftl g 8) b).
Definition lv_color_black : color := lv_color_hex 0.
Definition lv_color_white : color := lv_color_hex 16777215.

Definition LV_OPA_TRANSP : Z := 0.
Definition LV_OPA_20 : Z := 51.
Definition LV_OPA_40 : Z := 102.
Definition LV_OPA_70 : Z := 178.
Definition LV_OPA_COVER : Z := 255.
Definition LV_PART_MAIN : Z := 0.
Definition LV_PART_INDICATOR : Z := 131072.
Definition LV_STATE_DEFAULT : Z := 0.

Inductive lv_align := LV_ALIGN_BOTTOM_MID | LV_ALIGN_TOP_MID.

(** [enum screen_state] *)
Inductive screen_state :=
| SCREEN_MAIN
| SCREEN_DISPLAY_SETTINGS
| SCREEN_SYSTEM_SETTINGS
| SCREEN_KEYBOARD_SELECT
| SCREEN_PONG_WARS.

(** Modelled from the spec: [enum swipe_direction] is declared in
    [events/swipe_gesture_event.h], which is not part of the sources at
    hand; the spec's PendingGesture is one of none, up, down, left, right. *)
Inductive swipe_direction :=
| SWIPE_DIRECTION_NONE
| SWIPE_DIRECTION_UP
| SWIPE_DIRECTION_DOWN
| SWIPE_DIRECTION_LEFT
| SWIPE_DIRECTION_RIGHT.

Definition screen_state_eqb (a b : screen_state) : bool :=
  match a, b with
  | SCREEN_MAIN, SCREEN_MAIN
  | SCREEN_DISPLAY_SETTINGS, SCREEN_DISPLAY_SETTINGS
  | SCREEN_SYSTEM_SETTINGS, SCREEN_SYSTEM_SETTINGS
  | SCREEN_KEYBOARD_SELECT, SCREEN_KEYBOARD_SELECT
  | SCREEN_PONG_WARS, SCREEN_PONG_WARS => true
  | _, _ => false
  end.

Inductive anim_cb :=
| layer_pulse_anim_cb
| slide_scroll_anim_cb.

Inductive call :=
| LOG_INF (msg : string)
| LOG_WRN (msg : string)
| LOG_DBG (msg : string)
| LOG_ERR (msg : string)
| led_set_brightness (led value : Z)
| lv_label_set_text (o : obj) (text : string)
| lv_obj_set_style_text_color (o : obj) (c : color) (sel : Z)
| lv_obj_set_style_text_opa (o : obj) (opa : Z) (sel : Z)
| lv_obj_set_style_bg_color (o : obj) (c : color) (sel : Z)
| lv_obj_set_style_opa (o : obj) (opa : Z) (sel : Z)
| lv_obj_set_pos (o : obj) (px py : Z)
| lv_obj_set_size (o : obj) (w h : Z)
| lv_obj_align (o : obj) (a : lv_align) (ox oy : Z)
| lv_obj_invalidate (o : obj)
| lv_obj_move_foreground (o : obj)
| lv_bar_set_value (o : obj) (v : Z)
| lv_anim_del (o : obj) (cb : option anim_cb)
| lv_anim_start (o : obj) (cb : anim_cb) (v_from v_to time : Z)
| lv_obj_create (parent : option obj) (result : option obj)
| lv_label_create (parent : option obj) (result : option obj)
| lv_obj_del (o : obj)
| lv_obj_clean (o : option obj)
| lv_timer_create (period : Z) (result : option timer)
| lv_timer_del (t : timer)
| touch_handler_register_lvgl_indev (ret : Z)
(* functions of this file that build and tear down whole widget sets *)
| destroy_screen_widgets (sc : screen_state)
| create_screen_widgets (sc : screen_state)
| ks_close_channel_popup
| ks_update_channel_display
| ks_update_entries.

(** Run [f] on a widget when the pointer is not NULL. *)
Definition when_obj (o : option obj) (f : obj -> list call) : list call :=
  match o with
  | Some w => f w
  | None => []
  end.

(** What a trace of calls leaves on widget [o]: the text and the text
    opacity of the last call that set them. *)
Definition text_set (o : obj) (c : call) : option string :=
  match c with
  | lv_label_set_text o' t => if Nat.eqb o' o then Some t else None
  | _ => None
  end.

Definition text_opa_set (o : obj) (c : call) : option Z :=
  match c with
  | lv_obj_set_style_text_opa o' a _ => if Nat.eqb o' o then Some a else None
  | _ => None
  end.

Definition rendered_text (o : obj) (cs : list call) : option string :=
  last (omap (text_set o) cs).

Definition rendered_text_opa (o : obj) (cs : list call) : option Z :=
  last (omap (text_opa_set o) cs).

(** ** PWM backlight *)

Module Backlight.

(** [backlight_dev] and what [device_is_ready] answers for it. *)
Record device := { device_is_ready : bool }.

(** [set_pwm_brightness]: the calls made for a request of [brightness]
    percent.  [ret] is the driver's return value. *)
Definition set_pwm_brightness (backlight_dev : option device) (ret : Z)
    (brightness : Z) : list call :=
  match backlight_dev with
  | None => [LOG_WRN "Backlight device not ready"]
  | Some dev =>
      if negb (device_is_ready dev) then [LOG_WRN "Backlight device not ready"]
      else
        let brightness := if brightness <? 1 then 1 else brightness in
        let pwm_value := to_uint8 (100 - brightness) in
        led_set_brightness 0 pwm_value ::
        (if ret <? 0
         then [LOG_ERR ("Failed to set brightness: " +++ fmt_d ret)]
         else [LOG_INF ("Backlight: user=" +++ fmt_d brightness +++ "% -> PWM="
                        +++ fmt_d pwm_value +++ "%")])
  end.

(** The duty values handed to the LED driver by a list of calls. *)
Fixpoint driver_values (cs : list call) : list Z :=
  match cs with
  | [] => []
  | led_set_brightness _ v :: cs => v :: driver_values cs
  | _ :: cs => driver_values cs
  end.

End Backlight.

(** ** binary32 arithmetic

    C's [float], from the Standard Library's executable specification of
    IEEE 754 ([SpecFloat]) at precision 24 and maximal exponent 128. *)

Module F32.

Definition float := spec_float.
Definition prec : Z := 24.
Definition emax : Z := 128.
Definition mul : float -> float -> float := SFmul prec emax.
Definition add : float -> float -> float := SFadd prec emax.
Definition sub : float -> float -> float := SFsub prec emax.
Definition div : float -> float -> float := SFdiv prec emax.
Definition ltb : float -> float -> bool := SFltb.
Definition eqb : float -> float -> bool := SFeqb.

Definition is_nan (f : float) : bool :=
  match f with S754_nan => true | _ => false end.

(** [(float)z] *)
Definition of_int (z : Z) : float := binary_normalize prec emax z 0 false.

(** [(int)f]: truncation toward zero (undefined in C for NaN and
    infinities; 0 here). *)
Definition to_int (f : float) : Z :=
  match f with
  | S754_finite s m e =>
      let mag := if 0 <=? e then Z.pos m * 2 ^ e else Z.pos m / 2 ^ (- e) in
      if s then - mag else mag
  | _ => 0
  end.

(** The literals [0.0f], [0.4f], [0.5f], [1.0f], [10.0f], [60.0f],
    [100.0f], [999.9f]. *)
Definition f_0 : float := S754_zero false.
Definition f_0_4 : float := S754_finite false 13421773 (-25).
Definition f_0_5 : float := S754_finite false 8388608 (-24).
Definition f_1 : float := S754_finite false 8388608 (-23).
Definition f_10 : float := S754_finite false 10485760 (-20).
Definition f_60 : float := S754_finite false 15728640 (-18).
Definition f_100 : float := S754_finite false 13107200 (-17).
Definition f_999_9 : float := S754_finite false 16382362 (-14).

End F32.

(** ** Signal rate text *)

Module Signal.

(** The text written to [rate_label] by [pending_update_timer_cb] from
    the integer payload [scanner_signal_rate_x100]. *)
Definition rate_x100_text (sig_rate_x100 : Z) : string :=
  if sig_rate_x100 <? 0 then snprintf 16 "-.--Hz"
  else
    let whole := Z.quot sig_rate_x100 100 in
    let frac := Z.quot (Z.rem sig_rate_x100 100) 10 in
    snprintf 16 (fmt_d whole +++ "." +++ fmt_d frac +++ "Hz").

(** The text written to [rate_label] by [display_update_signal]. *)
Definition rate_text (rate : F32.float) : string * list call :=
  if F32.ltb rate F32.f_0 then (snprintf 16 "-.--Hz", [])
  else if F32.ltb F32.f_999_9 rate || negb (F32.eqb rate rate) then
    (snprintf 16 "-.--Hz", [LOG_WRN "Invalid rate value, displaying as -.--"])
  else
    let rate_int := F32.to_int (F32.add (F32.mul rate F32.f_10) F32.f_0_5) in
    let rate_int := if 9999 <? rate_int then 9999 else rate_int in
    (snprintf 16 (fmt_d (Z.quot rate_int 10) +++ "." +++ fmt_d (Z.rem rate_int 10) +++ "Hz"), []).

Definition rssi_to_bars (rssi_val : Z) : Z :=
  if -50 <=? rssi_val then 5
  else if -60 <=? rssi_val then 4
  else if -70 <=? rssi_val then 3
  else if -80 <=? rssi_val then 2
  else if -90 <=? rssi_val then 1
  else 0.

Definition get_rssi_color (bars : Z) : color :=
  match bars with
  | 5 => lv_color_make 192 192 192
  | 4 => lv_color_make 160 160 160
  | 3 => lv_color_make 128 128 128
  | 2 => lv_color_make 96 96 96
  | 1 => lv_color_make 64 64 64
  | _ => lv_color_make 32 32 32
  end.

(** The cached signal values and the widgets that show them. *)
Record signal_state := {
  rssi : Z;
  rate_hz : F32.float;
  rssi_bar : option obj;
  rssi_label : option obj;
  rate_label : option obj
}.

Definition set_signal (r : Z) (rate : F32.float) (s : signal_state) : signal_state :=
  {| rssi := r; rate_hz := rate; rssi_bar := rssi_bar s;
     rssi_label := rssi_label s; rate_label := rate_label s |}.

Definition show_rssi (rssi_val : Z) (s : signal_state) : list call :=
  let bars := rssi_to_bars rssi_val in
  when_obj (rssi_bar s) (fun o =>
    [lv_bar_set_value o bars;
     lv_obj_set_style_bg_color o (get_rssi_color bars) LV_PART_INDICATOR])
  ++ when_obj (rssi_label s) (fun o =>
    [lv_label_set_text o (snprintf 16 (fmt_d rssi_val +++ "dBm"))]).

(** The signal block of [pending_update_timer_cb], run when
    [scanner_is_signal_pending] answers true, on the values read from
    [scanner_signal_rssi] and [scanner_signal_rate_x100]. *)
Definition pending_signal_update (sig_rssi sig_rate_x100 : Z) (s : signal_state)
    : signal_state * list call :=
  let s := set_signal sig_rssi (F32.div (F32.of_int sig_rate_x100) F32.f_100) s in
  (s, show_rssi sig_rssi s
      ++ when_obj (rate_label s) (fun o =>
           [lv_label_set_text o (rate_x100_text sig_rate_x100)])).

(** [display_update_signal] *)
Definition display_update_signal (rssi_val : Z) (rate : F32.float) (s : signal_state)
    : signal_state * list call :=
  let s := set_signal rssi_val rate s in
  (s, show_rssi rssi_val s
      ++ when_obj (rate_label s) (fun o =>
           let '(text, log) := rate_text rate in
           log ++ [lv_label_set_text o text])).

End Signal.

(** ** Layer display: slide ("dial") mode *)

Module Layer.

Definition SLIDE_VISIBLE_COUNT : nat := 9.
Definition SLIDE_LARGE_ZONE_START : Z := 2.
Definition SLIDE_LARGE_ZONE_END : Z := 6.
Definition SLIDE_SLOT_SPACING : Z := 34.
Definition SLIDE_LABEL_WIDTH_SMALL : Z := 22.
Definition SLIDE_LABEL_WIDTH_MEDIUM : Z := 28.
Definition SLIDE_LABEL_WIDTH_LARGE : Z := 34.

Definition get_slide_slot_opa (slot : Z) : Z :=
  if (slot =? 0) || (slot =? 8) then LV_OPA_20
  else if (slot =? 1) || (slot =? 7) then LV_OPA_40
  else LV_OPA_70.

Definition get_slide_slot_y_adj (slot : Z) : Z :=
  if (slot =? 0) || (slot =? 8) then 6
  else if (slot =? 1) || (slot =? 7) then 4
  else 0.

Definition get_slide_slot_x_offset (slot : Z) : Z :=
  if slot =? 0 then 4 else if slot =? 8 then -4 else 0.

Definition get_slide_label_width (slot : Z) : Z :=
  if (slot =? 0) || (slot =? 8) then SLIDE_LABEL_WIDTH_SMALL
  else if (slot =? 1) || (slot =? 7) then SLIDE_LABEL_WIDTH_MEDIUM
  else SLIDE_LABEL_WIDTH_LARGE.

(** [get_slide_layer_color]: hue spread evenly over [max_layer], pastel
    saturation, full brightness, converted to RGB in binary32. *)
Definition get_slide_layer_color (layer max_layer : Z) : color :=
  let max_layer := if max_layer <=? 0 then 1 else max_layer in
  let hue := Z.quot (to_int (layer * 360)) max_layer in
  let hue := Z.rem hue 360 in
  let s := F32.f_0_4 in
  let v := F32.f_1 in
  let h := F32.div (F32.of_int hue) F32.f_60 in
  let i := F32.to_int h in
  let f := F32.sub h (F32.of_int i) in
  let p := F32.mul v (F32.sub F32.f_1 s) in
  let q := F32.mul v (F32.sub F32.f_1 (F32.mul s f)) in
  let t := F32.mul v (F32.sub F32.f_1 (F32.mul s (F32.sub F32.f_1 f))) in
  let '(r, g, b) :=
    match Z.rem i 6 with
    | 0 => (v, t, p)
    | 1 => (q, v, p)
    | 2 => (p, v, t)
    | 3 => (p, q, v)
    | 4 => (t, p, v)
    | _ => (v, p, q)
    end in
  let byte c := to_uint8 (F32.to_int (F32.mul c (F32.of_int 255))) in
  lv_color_make (byte r) (byte g) (byte b).

(** The globals read and written by the layer display. *)
Record layer_state := {
  current_screen : screen_state;
  active_layer : Z;
  last_active_layer : Z;
  ds_layer_slide_mode : bool;
  ds_layer_slide_max : Z;
  layer_slide_window_start : Z;
  layer_slide_labels : list (option obj)
}.

Definition set_active_layer (v : Z) (s : layer_state) : layer_state :=
  {| current_screen := current_screen s; active_layer := v;
     last_active_layer := last_active_layer s;
     ds_layer_slide_mode := ds_layer_slide_mode s;
     ds_layer_slide_max := ds_layer_slide_max s;
     layer_slide_window_start := layer_slide_window_start s;
     layer_slide_labels := layer_slide_labels s |}.

Definition set_last_active_layer (v : Z) (s : layer_state) : layer_state :=
  {| current_screen := current_screen s; active_layer := active_layer s;
     last_active_layer := v;
     ds_layer_slide_mode := ds_layer_slide_mode s;
     ds_layer_slide_max := ds_layer_slide_max s;
     layer_slide_window_start := layer_slide_window_start s;
     layer_slide_labels := layer_slide_labels s |}.

Definition set_ds_layer_slide_max (v : Z) (s : layer_state) : layer_state :=
  {| current_screen := current_screen s; active_layer := active_layer s;
     last_active_layer := last_active_layer s;
     ds_layer_slide_mode := ds_layer_slide_mode s;
     ds_layer_slide_max := v;
     layer_slide_window_start := layer_slide_window_start s;
     layer_slide_labels := layer_slide_labels s |}.

Definition set_layer_slide_window_start (v : Z) (s : layer_state) : layer_state :=
  {| current_screen := current_screen s; active_layer := active_layer s;
     last_active_layer := last_active_layer s;
     ds_layer_slide_mode := ds_layer_slide_mode s;
     ds_layer_slide_max := ds_layer_slide_max s;
     layer_slide_window_start := v;
     layer_slide_labels := layer_slide_labels s |}.

Definition set_layer_slide_labels (v : list (option obj)) (s : layer_state)
    : layer_state :=
  {| current_screen := current_screen s; active_layer := active_layer s;
     last_active_layer := last_active_layer s;
     ds_layer_slide_mode := ds_layer_slide_mode s;
     ds_layer_slide_max := ds_layer_slide_max s;
     layer_slide_window_start := layer_slide_window_start s;
     layer_slide_labels := v |}.

(** [layer_slide_labels[i]] *)
Definition slide_label (s : layer_state) (i : nat) : option obj :=
  default None (layer_slide_labels s !! i).

Definition start_pulse_anim (o : obj) : list call :=
  [lv_anim_start o layer_pulse_anim_cb 100 125 100].

(** The position given to slot [i], at height [y]. *)
Definition slide_slot_pos (i : Z) (o : obj) (y : Z) : call :=
  let total_width := (Z.of_nat SLIDE_VISIBLE_COUNT - 1) * SLIDE_SLOT_SPACING in
  let start_x := 140 - Z.quot total_width 2 in
  let label_width := get_slide_label_width i in
  let y_adj := get_slide_slot_y_adj i in
  let x_offset := get_slide_slot_x_offset i in
  let x_pos := start_x + i * SLIDE_SLOT_SPACING - Z.quot label_width 2 + x_offset in
  lv_obj_set_pos o x_pos (y + y_adj).

Definition slide_reset_positions (s : layer_state) : list call :=
  flat_map (fun i => when_obj (slide_label s i)
                       (fun o => [slide_slot_pos (Z.of_nat i) o 105]))
           (seq 0 SLIDE_VISIBLE_COUNT).

(** Text and styling of one slot: the body of the label loop of
    [update_layer_slide_display]. *)
Definition slide_label_update (layer : Z) (animate : bool) (s : layer_state)
    (i : nat) (o : obj) : list call :=
  let layer_num := to_int (layer_slide_window_start s + Z.of_nat i) in
  let is_active := (layer_num =? layer) && (0 <=? layer_num) in
  let text := if 0 <=? layer_num then snprintf 8 (fmt_d layer_num) else "" in
  lv_label_set_text o text ::
  (if layer_num <? 0 then
     [lv_obj_set_style_text_opa o LV_OPA_TRANSP 0]
   else if is_active then
     [lv_obj_set_style_text_color o
        (get_slide_layer_color layer_num (ds_layer_slide_max s)) 0;
      lv_obj_set_style_text_opa o LV_OPA_COVER 0]
     ++ (if animate then start_pulse_anim o else [])
   else
     [lv_obj_set_style_text_color o (lv_color_make 80 80 80) 0;
      lv_obj_set_style_text_opa o (get_slide_slot_opa (Z.of_nat i)) 0]).

(** [update_layer_slide_display] *)
Definition update_layer_slide_display (layer : Z) (animate : bool)
    (s : layer_state) : layer_state * list call :=
  let '(s, c_max) :=
    if ds_layer_slide_max s <=? layer then
      let m := to_uint8 (to_int (layer + 1)) in
      (set_ds_layer_slide_max m s, [LOG_INF ("Slide max expanded to " +++ fmt_d m)])
    else (s, []) in
  let current_slot := to_int (layer - layer_slide_window_start s) in
  let '(need_scroll, new_window_start) :=
    if current_slot <? SLIDE_LARGE_ZONE_START then
      (true, to_int (layer - SLIDE_LARGE_ZONE_START))
    else if SLIDE_LARGE_ZONE_END <? current_slot then
      (true, to_int (layer - SLIDE_LARGE_ZONE_END))
    else (false, layer_slide_window_start s) in
  let scroll_slots :=
    if need_scroll then to_int (new_window_start - layer_slide_window_start s)
    else 0 in
  let s := if need_scroll then set_layer_slide_window_start new_window_start s
           else s in
  let c_labels :=
    flat_map (fun i => when_obj (slide_label s i) (slide_label_update layer animate s i))
             (seq 0 SLIDE_VISIBLE_COUNT) in
  let c_pos := slide_reset_positions s in
  let c_scroll :=
    if need_scroll && animate && negb (scroll_slots =? 0) then
      let scroll_offset := to_int (scroll_slots * SLIDE_SLOT_SPACING) in
      flat_map (fun i => when_obj (slide_label s i)
                  (fun o => [lv_anim_del o (Some slide_scroll_anim_cb);
                             lv_anim_start o slide_scroll_anim_cb scroll_offset 0 150]))
               (seq 0 SLIDE_VISIBLE_COUNT)
    else [] in
  (s, c_max ++ c_labels ++ c_pos ++ c_scroll ++ [LOG_DBG "Slide update"]).

(** Colour, opacity, text and position given to a new slot by
    [create_layer_slide_widgets]. *)
Definition slide_label_create (s : layer_state) (y_offset : Z) (i : nat) (o : obj)
    : list call :=
  let layer_num := to_int (layer_slide_window_start s + Z.of_nat i) in
  let is_active := (layer_num =? active_layer s) && (0 <=? layer_num) in
  let text := if 0 <=? layer_num then snprintf 12 (fmt_d layer_num) else "" in
  (if layer_num <? 0 then
     [lv_obj_set_style_text_opa o LV_OPA_TRANSP 0]
   else if is_active then
     [lv_obj_set_style_text_color o
        (get_slide_layer_color layer_num (ds_layer_slide_max s)) 0;
      lv_obj_set_style_text_opa o LV_OPA_COVER 0]
   else
     [lv_obj_set_style_text_color o (lv_color_make 80 80 80) 0;
      lv_obj_set_style_text_opa o (get_slide_slot_opa (Z.of_nat i)) 0])
  ++ [lv_label_set_text o text; slide_slot_pos (Z.of_nat i) o y_offset].

(** [create_layer_slide_widgets]; [created] are the labels returned by
    the nine [lv_label_create] calls. *)
Definition create_layer_slide_widgets (parent : obj) (y_offset : Z)
    (created : list obj) (s : layer_state) : layer_state * list call :=
  let s := set_layer_slide_window_start
             (to_int (active_layer s - SLIDE_LARGE_ZONE_START)) s in
  let s := set_layer_slide_labels
             (map (fun i => created !! i) (seq 0 SLIDE_VISIBLE_COUNT)) s in
  (s,
   flat_map (fun i => when_obj (slide_label s i)
               (fun o => lv_label_create (Some parent) (Some o)
                         :: slide_label_create s y_offset i o))
            (seq 0 SLIDE_VISIBLE_COUNT)
   ++ [LOG_INF "Slide mode widgets created"]).

Section DisplayUpdateLayer.

(** The fixed-mode branch of [display_update_layer] (list of numerals
    and the over-max numeral, with their slide animations) works on
    widgets of its own; it is a parameter here.  It receives the
    previous and the new layer. *)
Variable fixed_mode_update : Z -> Z -> layer_state -> layer_state * list call.

(** [display_update_layer] *)
Definition display_update_layer (layer : Z) (s : layer_state)
    : layer_state * list call :=
  if (layer <? 0) || (255 <? layer) then (s, [])
  else
    let prev_layer := active_layer s in
    let s := set_active_layer layer s in
    if negb (screen_state_eqb (current_screen s) SCREEN_MAIN) then (s, [])
    else if ds_layer_slide_mode s then
      let animate := negb (prev_layer =? layer) in
      let '(s, c) := update_layer_slide_display layer animate s in
      (set_last_active_layer layer s, c)
    else
      let '(s, c) := fixed_mode_update prev_layer layer s in
      (set_last_active_layer layer s, c).

End DisplayUpdateLayer.

(** The widget a call acts on. *)
Definition call_target (c : call) : option obj :=
  match c with
  | lv_label_set_text o _ | lv_obj_set_style_text_color o _ _
  | lv_obj_set_style_text_opa o _ _ | lv_obj_set_style_bg_color o _ _
  | lv_obj_set_style_opa o _ _ | lv_obj_set_pos o _ _ | lv_obj_set_size o _ _
  | lv_obj_align o _ _ _ | lv_obj_invalidate o | lv_obj_move_foreground o
  | lv_bar_set_value o _ | lv_anim_del o _ | lv_anim_start o _ _ _ _
  | lv_obj_del o => Some o
  | _ => None
  end.

(** A list of calls that sets no text and no text opacity. *)
Definition textless (cs : list call) : Prop :=
  forall o, omap (text_set o) cs = [] /\ omap (text_opa_set o) cs = [].

(** Distinct slots hold distinct widgets. *)
Definition labels_distinct (l : list (option obj)) : Prop :=
  forall (i j : nat) (o : obj),
    l !! i = Some (Some o) -> l !! j = Some (Some o) -> i = j.

End Layer.

(** ** Keyboard battery bars *)

Module Battery.

Definition MAX_KB_BATTERIES : nat := 4.

Definition battery_names_2 : list (option string) := [Some "L"; Some "R"; None; None].
Definition battery_names_3 : list (option string) := [Some "L"; Some "R"; Some "Aux"; None].
Definition battery_names_4 : list (option string) := [Some "L"; Some "R"; Some "A1"; Some "A2"].

Definition kb_x_offsets_1 : list Z := [0; 0; 0; 0].
Definition kb_x_offsets_2 : list Z := [-70; 70; 0; 0].
Definition kb_x_offsets_3 : list Z := [-90; 0; 90; 0].
Definition kb_x_offsets_4 : list Z := [-100; -35; 35; 100].

Definition KB_BAR_Y_OFFSET_R : Z := -33.
Definition KB_PCT_Y_OFFSET_R : Z := -42.
Definition KB_NAME_X_OFFSET_R : Z := 0.

Record battery_state := {
  battery_values : list Z;
  active_battery_count : Z;
  kb_bat_bar : list (option obj);
  kb_bat_pct : list (option obj);
  kb_bat_name : list (option obj);
  kb_bat_nc_bar : list (option obj);
  kb_bat_nc_label : list (option obj)
}.

Definition set_battery_values (v : list Z) (s : battery_state) : battery_state :=
  {| battery_values := v; active_battery_count := active_battery_count s;
     kb_bat_bar := kb_bat_bar s; kb_bat_pct := kb_bat_pct s;
     kb_bat_name := kb_bat_name s; kb_bat_nc_bar := kb_bat_nc_bar s;
     kb_bat_nc_label := kb_bat_nc_label s |}.

Definition set_active_battery_count (v : Z) (s : battery_state) : battery_state :=
  {| battery_values := battery_values s; active_battery_count := v;
     kb_bat_bar := kb_bat_bar s; kb_bat_pct := kb_bat_pct s;
     kb_bat_name := kb_bat_name s; kb_bat_nc_bar := kb_bat_nc_bar s;
     kb_bat_nc_label := kb_bat_nc_label s |}.

(** [a[i]] for an array of widget pointers. *)
Definition widget_at (a : list (option obj)) (i : nat) : option obj :=
  default None (a !! i).

Definition get_keyboard_battery_color (level : Z) : color :=
  if 80 <=? level then lv_color_hex 52326
  else if 60 <=? level then lv_color_hex 6736896
  else if 40 <=? level then lv_color_hex 16763904
  else if 20 <=? level then lv_color_hex 16746496
  else lv_color_hex 16724787.

(** The count after the two clamps at the head of
    [reposition_battery_widgets]. *)
Definition clamp_count (count : Z) : Z :=
  let count := if count <? 1 then 1 else count in
  if Z.of_nat MAX_KB_BATTERIES <? count then Z.of_nat MAX_KB_BATTERIES else count.

(** The [switch (count)]: x-offset table and bar width. *)
Definition select_layout (count : Z) : list Z * Z :=
  match count with
  | 1 => (kb_x_offsets_1, 165)
  | 2 => (kb_x_offsets_2, 110)
  | 3 => (kb_x_offsets_3, 70)
  | _ => (kb_x_offsets_4, 52)
  end.

(** [names]: [None] is the NULL table. *)
Definition select_names (count : Z) : option (list (option string)) :=
  if count =? 2 then Some battery_names_2
  else if count =? 3 then Some battery_names_3
  else if count =? 4 then Some battery_names_4
  else None.

(** The text given to name label [i]. *)
Definition name_text (count : Z) (i : nat) : string :=
  let visible := Z.of_nat i <? count in
  match select_names count with
  | Some names =>
      match default None (names !! i) with
      | Some n => if visible then n else ""
      | None => ""
      end
  | None => ""
  end.

Definition battery_repositioned (count : Z) : call :=
  LOG_INF ("Battery widgets repositioned for count=" +++ fmt_d count).

(** One round of the loop of [reposition_battery_widgets]. *)
Definition reposition_slot (count : Z) (s : battery_state) (i : nat) : list call :=
  let '(x_offsets, bar_width) := select_layout count in
  let visible := Z.of_nat i <? count in
  let x_off := default 0 (x_offsets !! i) in
  when_obj (widget_at (kb_bat_bar s) i) (fun o =>
    [lv_obj_set_size o bar_width 4;
     lv_obj_align o LV_ALIGN_BOTTOM_MID x_off KB_BAR_Y_OFFSET_R])
  ++ when_obj (widget_at (kb_bat_pct s) i) (fun o =>
    [lv_obj_align o LV_ALIGN_BOTTOM_MID x_off KB_PCT_Y_OFFSET_R])
  ++ when_obj (widget_at (kb_bat_name s) i) (fun o =>
    [lv_obj_align o LV_ALIGN_BOTTOM_MID
       (x_off - Z.quot bar_width 2 + KB_NAME_X_OFFSET_R) KB_PCT_Y_OFFSET_R;
     lv_label_set_text o (name_text count i)])
  ++ when_obj (widget_at (kb_bat_nc_bar s) i) (fun o =>
    [lv_obj_set_size o bar_width 4;
     lv_obj_align o LV_ALIGN_BOTTOM_MID x_off KB_BAR_Y_OFFSET_R]
    ++ (if negb visible then [lv_obj_set_style_opa o 0 0] else [])
    ++ [lv_obj_invalidate o])
  ++ when_obj (widget_at (kb_bat_nc_label s) i) (fun o =>
    [lv_obj_align o LV_ALIGN_BOTTOM_MID x_off KB_PCT_Y_OFFSET_R]
    ++ (if negb visible then [lv_obj_set_style_opa o 0 0] else [])
    ++ [lv_obj_invalidate o])
  ++ when_obj (widget_at (kb_bat_bar s) i) (fun o => [lv_obj_invalidate o])
  ++ when_obj (widget_at (kb_bat_pct s) i) (fun o => [lv_obj_invalidate o])
  ++ when_obj (widget_at (kb_bat_name s) i) (fun o => [lv_obj_invalidate o]).

(** [reposition_battery_widgets] *)
Definition reposition_battery_widgets (count : Z) (s : battery_state) : list call :=
  let count := clamp_count count in
  flat_map (reposition_slot count s) (seq 0 MAX_KB_BATTERIES)
  ++ [battery_repositioned count].

(** One round of the second loop of [display_update_keyboard_battery_4]. *)
Definition update_slot (count : Z) (values : list Z) (s : battery_state) (i : nat)
    : list call :=
  let slot_visible := (0 <? count) && (Z.of_nat i <? count) in
  let val := default 0 (values !! i) in
  if slot_visible && (0 <? val) then
    when_obj (widget_at (kb_bat_nc_bar s) i) (fun o => [lv_obj_set_style_opa o 0 0])
    ++ when_obj (widget_at (kb_bat_nc_label s) i) (fun o => [lv_obj_set_style_opa o 0 0])
    ++ when_obj (widget_at (kb_bat_bar s) i) (fun o =>
         [lv_obj_set_style_opa o 255 LV_PART_MAIN;
          lv_obj_set_style_opa o 255 LV_PART_INDICATOR;
          lv_bar_set_value o val;
          lv_obj_set_style_bg_color o (get_keyboard_battery_color val) LV_PART_INDICATOR])
    ++ when_obj (widget_at (kb_bat_pct s) i) (fun o =>
         [lv_obj_set_style_opa o 255 0;
          lv_label_set_text o (snprintf 16 (fmt_d val));
          lv_obj_set_style_text_color o (get_keyboard_battery_color val) 0])
    ++ when_obj (widget_at (kb_bat_name s) i) (fun o => [lv_obj_set_style_opa o 255 0])
  else if slot_visible then
    when_obj (widget_at (kb_bat_bar s) i) (fun o =>
         [lv_obj_set_style_opa o 0 LV_PART_MAIN;
          lv_obj_set_style_opa o 0 LV_PART_INDICATOR])
    ++ when_obj (widget_at (kb_bat_pct s) i) (fun o => [lv_obj_set_style_opa o 0 0])
    ++ when_obj (widget_at (kb_bat_name s) i) (fun o => [lv_obj_set_style_opa o 255 0])
    ++ when_obj (widget_at (kb_bat_nc_bar s) i) (fun o => [lv_obj_set_style_opa o 255 0])
    ++ when_obj (widget_at (kb_bat_nc_label s) i) (fun o => [lv_obj_set_style_opa o 255 0])
  else
    when_obj (widget_at (kb_bat_bar s) i) (fun o =>
         [lv_obj_set_style_opa o 0 LV_PART_MAIN;
          lv_obj_set_style_opa o 0 LV_PART_INDICATOR])
    ++ when_obj (widget_at (kb_bat_pct s) i) (fun o => [lv_obj_set_style_opa o 0 0])
    ++ when_obj (widget_at (kb_bat_name s) i) (fun o => [lv_obj_set_style_opa o 0 0])
    ++ when_obj (widget_at (kb_bat_nc_bar s) i) (fun o => [lv_obj_set_style_opa o 0 0])
    ++ when_obj (widget_at (kb_bat_nc_label s) i) (fun o => [lv_obj_set_style_opa o 0 0]).

(** The number of values above zero: the first loop of
    [display_update_keyboard_battery_4]. *)
Definition count_active (values : list Z) : Z :=
  fold_left (fun count v => if 0 <? v then count + 1 else count) values 0.

(** [display_update_keyboard_battery_4] *)
Definition display_update_keyboard_battery_4 (bat0 bat1 bat2 bat3 : Z)
    (s : battery_state) : battery_state * list call :=
  let values := [bat0; bat1; bat2; bat3] in
  let count := count_active values in
  let s := set_battery_values values s in
  let '(s, c_repos) :=
    if negb (count =? active_battery_count s) then
      let s := set_active_battery_count count s in
      (s, if 0 <? count then reposition_battery_widgets count s else [])
    else (s, []) in
  (s, c_repos ++ flat_map (update_slot count values s) (seq 0 MAX_KB_BATTERIES)).



End Battery.

(** ** Pong Wars *)

Module PongWars.

Definition PW_CELL_SIZE : Z := 20.
Definition PW_GRID_W : nat := 12.
Definition PW_GRID_H : nat := 9.
Definition PW_NUM_CELLS : nat := PW_GRID_W * PW_GRID_H.
Definition PW_NUM_BALLS : nat := 2.
Definition PW_BALL_RADIUS : Z := 6.
Definition PW_ARENA_W : Z := 240.
Definition PW_ARENA_H : Z := 180.
Definition PW_OFFSET_X : Z := 20.
Definition PW_OFFSET_Y : Z := 30.

(** [pw_color_palettes]: team1_bg, team2_bg, team1_ball, team2_ball. *)
Definition pw_color_palettes : list (Z * Z * Z * Z) :=
  [ (16758248, 11919103, 16731501, 2985215);
    (16768693, 11927513, 16747586, 3066993);
    (15250943, 16776629, 10181046, 15844367);
    (11927528, 16758213, 1752220, 15158332);
    (14005759, 11923711, 9323693, 3447003);
    (16770485, 12976053, 15105570, 2600544) ].
Definition PW_NUM_PALETTES : Z := Z.of_nat (List.length pw_color_palettes).

(** [struct pw_ball] *)
Record pw_ball := { x : Z; y : Z; dx : Z; dy : Z; team : Z }.

Definition set_x (v : Z) (s : pw_ball) : pw_ball :=
  {| x := v; y := y s; dx := dx s; dy := dy s; team := team s |}.

Definition set_y (v : Z) (s : pw_ball) : pw_ball :=
  {| x := x s; y := v; dx := dx s; dy := dy s; team := team s |}.

Definition set_dx (v : Z) (s : pw_ball) : pw_ball :=
  {| x := x s; y := y s; dx := v; dy := dy s; team := team s |}.

Definition set_dy (v : Z) (s : pw_ball) : pw_ball :=
  {| x := x s; y := y s; dx := dx s; dy := v; team := team s |}.

Definition set_team (v : Z) (s : pw_ball) : pw_ball :=
  {| x := x s; y := y s; dx := dx s; dy := dy s; team := v |}.

(** The simulation's globals, and the calls made so far. *)
Record pw_state := {
  pw_color_team1 : Z;
  pw_color_team2 : Z;
  pw_color_ball1 : Z;
  pw_color_ball2 : Z;
  pw_timer : option timer;
  pw_grid : list Z;
  pw_cell_objs : list (option obj);
  pw_arena_container : option obj;
  pw_ball_objs : list (option obj);
  pw_score_label1 : option obj;
  pw_score_label2 : option obj;
  pw_initialized : bool;
  pw_rand_seed : Z;
  pw_base_speed : Z;
  pw_balls : list pw_ball;
  pw_score1 : Z;
  pw_score2 : Z;
  frame_count : Z;
  pong_wars_active : bool;
  trace : list call
}.

Definition set_pw_color_team1 (v : Z) (s : pw_state) : pw_state :=
  {| pw_color_team1 := v; pw_color_team2 := pw_color_team2 s;
     pw_color_ball1 := pw_color_ball1 s;
     pw_color_ball2 := pw_color_ball2 s; pw_timer := pw_timer s;
     pw_grid := pw_grid s; pw_cell_objs := pw_cell_objs s;
     pw_arena_container := pw_arena_container s;
     pw_ball_objs := pw_ball_objs s; pw_score_label1 := pw_score_label1 s;
     pw_score_label2 := pw_score_label2 s;
     pw_initialized := pw_initialized s; pw_rand_seed := pw_rand_seed s;
     pw_base_speed := pw_base_speed s; pw_balls := pw_balls s;
     pw_score1 := pw_score1 s; pw_score2 := pw_score2 s;
     frame_count := frame_count s; pong_wars_active := pong_wars_active s;
     trace := trace s |}.

Definition set_pw_color_team2 (v : Z) (s : pw_state) : pw_state :=
  {| pw_color_team1 := pw_color_team1 s; pw_color_team2 := v;
     pw_color_ball1 := pw_color_ball1 s;
     pw_color_ball2 := pw_color_ball2 s; pw_timer := pw_timer s;
     pw_grid := pw_grid s; pw_cell_objs := pw_cell_objs s;
     pw_arena_container := pw_arena_container s;
     pw_ball_objs := pw_ball_objs s; pw_score_label1 := pw_score_label1 s;
     pw_score_label2 := pw_score_label2 s;
     pw_initialized := pw_initialized s; pw_rand_seed := pw_rand_seed s;
     pw_base_speed := pw_base_speed s; pw_balls := pw_balls s;
     pw_score1 := pw_score1 s; pw_score2 := pw_score2 s;
     frame_count := frame_count s; pong_wars_active := pong_wars_active s;
     trace := trace s |}.

Definition set_pw_color_ball1 (v : Z) (s : pw_state) : pw_state :=
  {| pw_color_team1 := pw_color_team1 s;
     pw_color_team2 := pw_color_team2 s; pw_color_ball1 := v;
     pw_color_ball2 := pw_color_ball2 s; pw_timer := pw_timer s;
     pw_grid := pw_grid s; pw_cell_objs := pw_cell_objs s;
     pw_arena_container := pw_arena_container s;
     pw_ball_objs := pw_ball_objs s; pw_score_label1 := pw_score_label1 s;
     pw_score_label2 := pw_score_label2 s;
     pw_initialized := pw_initialized s; pw_rand_seed := pw_rand_seed s;
     pw_base_speed := pw_base_speed s; pw_balls := pw_balls s;
     pw_score1 := pw_score1 s; pw_score2 := pw_score2 s;
     frame_count := frame_count s; pong_wars_active := pong_wars_active s;
     trace := trace s |}.

Definition set_pw_color_ball2 (v : Z) (s : pw_state) : pw_state :=
  {| pw_color_team1 := pw_color_team1 s;
     pw_color_team2 := pw_color_team2 s;
     pw_color_ball1 := pw_color_ball1 s; pw_color_ball2 := v;
     pw_timer := pw_timer s; pw_grid := pw_grid s;
     pw_cell_objs := pw_cell_objs s;
     pw_arena_container := pw_arena_container s;
     pw_ball_objs := pw_ball_objs s; pw_score_label1 := pw_score_label1 s;
     pw_score_label2 := pw_score_label2 s;
     pw_initialized := pw_initialized s; pw_rand_seed := pw_rand_seed s;
     pw_base_speed := pw_base_speed s; pw_balls := pw_balls s;
     pw_score1 := pw_score1 s; pw_score2 := pw_score2 s;
     frame_count := frame_count s; pong_wars_active := pong_wars_active s;
     trace := trace s |}.

Definition set_pw_timer (v : option timer) (s : pw_state) : pw_state :=
  {| pw_color_team1 := pw_color_team1 s;
     pw_color_team2 := pw_color_team2 s;
     pw_color_ball1 := pw_color_ball1 s;
     pw_color_ball2 := pw_color_ball2 s; pw_timer := v;
     pw_grid := pw_grid s; pw_cell_objs := pw_cell_objs s;
     pw_arena_container := pw_arena_container s;
     pw_ball_objs := pw_ball_objs s; pw_score_label1 := pw_score_label1 s;
     pw_score_label2 := pw_score_label2 s;
     pw_initialized := pw_initialized s; pw_rand_seed := pw_rand_seed s;
     pw_base_speed := pw_base_speed s; pw_balls := pw_balls s;
     pw_score1 := pw_score1 s; pw_score2 := pw_score2 s;
     frame_count := frame_count s; pong_wars_active := pong_wars_active s;
     trace := trace s |}.

Definition set_pw_grid (v : list Z) (s : pw_state) : pw_state :=
  {| pw_color_team1 := pw_color_team1 s;
     pw_color_team2 := pw_color_team2 s;
     pw_color_ball1 := pw_color_ball1 s;
     pw_color_ball2 := pw_color_ball2 s; pw_timer := pw_timer s;
     pw_grid := v; pw_cell_objs := pw_cell_objs s;
     pw_arena_container := pw_arena_container s;
     pw_ball_objs := pw_ball_objs s; pw_score_label1 := pw_score_label1 s;
     pw_score_label2 := pw_score_label2 s;
     pw_initialized := pw_initialized s; pw_rand_seed := pw_rand_seed s;
     pw_base_speed := pw_base_speed s; pw_balls := pw_balls s;
     pw_score1 := pw_score1 s; pw_score2 := pw_score2 s;
     frame_count := frame_count s; pong_wars_active := pong_wars_active s;
     trace := trace s |}.

Definition set_pw_cell_objs (v : list (option obj)) (s : pw_state) : pw_state :=
  {| pw_color_team1 := pw_color_team1 s;
     pw_color_team2 := pw_color_team2 s;
     pw_color_ball1 := pw_color_ball1 s;
     pw_color_ball2 := pw_color_ball2 s; pw_timer := pw_timer s;
     pw_grid := pw_grid s; pw_cell_objs := v;
     pw_arena_container := pw_arena_container s;
     pw_ball_objs := pw_ball_objs s; pw_score_label1 := pw_score_label1 s;
     pw_score_label2 := pw_score_label2 s;
     pw_initialized := pw_initialized s; pw_rand_seed := pw_rand_seed s;
     pw_base_speed := pw_base_speed s; pw_balls := pw_balls s;
     pw_score1 := pw_score1 s; pw_score2 := pw_score2 s;
     frame_count := frame_count s; pong_wars_active := pong_wars_active s;
     trace := trace s |}.

Definition set_pw_arena_container (v : option obj) (s : pw_state) : pw_state :=
  {| pw_color_team1 := pw_color_team1 s;
     pw_color_team2 := pw_color_team2 s;
     pw_color_ball1 := pw_color_ball1 s;
     pw_color_ball2 := pw_color_ball2 s; pw_timer := pw_timer s;
     pw_grid := pw_grid s; pw_cell_objs := pw_cell_objs s;
     pw_arena_container := v; pw_ball_objs := pw_ball_objs s;
     pw_score_label1 := pw_score_label1 s;
     pw_score_label2 := pw_score_label2 s;
     pw_initialized := pw_initialized s; pw_rand_seed := pw_rand_seed s;
     pw_base_speed := pw_base_speed s; pw_balls := pw_balls s;
     pw_score1 := pw_score1 s; pw_score2 := pw_score2 s;
     frame_count := frame_count s; pong_wars_active := pong_wars_active s;
     trace := trace s |}.

Definition set_pw_ball_objs (v : list (option obj)) (s : pw_state) : pw_state :=
  {| pw_color_team1 := pw_color_team1 s;
     pw_color_team2 := pw_color_team2 s;
     pw_color_ball1 := pw_color_ball1 s;
     pw_color_ball2 := pw_color_ball2 s; pw_timer := pw_timer s;
     pw_grid := pw_grid s; pw_cell_objs := pw_cell_objs s;
     pw_arena_container := pw_arena_container s; pw_ball_objs := v;
     pw_score_label1 := pw_score_label1 s;
     pw_score_label2 := pw_score_label2 s;
     pw_initialized := pw_initialized s; pw_rand_seed := pw_rand_seed s;
     pw_base_speed := pw_base_speed s; pw_balls := pw_balls s;
     pw_score1 := pw_score1 s; pw_score2 := pw_score2 s;
     frame_count := frame_count s; pong_wars_active := pong_wars_active s;
     trace := trace s |}.

Definition set_pw_score_label1 (v : option obj) (s : pw_state) : pw_state :=
  {| pw_color_team1 := pw_color_team1 s;
     pw_color_team2 := pw_color_team2 s;
     pw_color_ball1 := pw_color_ball1 s;
     pw_color_ball2 := pw_color_ball2 s; pw_timer := pw_timer s;
     pw_grid := pw_grid s; pw_cell_objs := pw_cell_objs s;
     pw_arena_container := pw_arena_container s;
     pw_ball_objs := pw_ball_objs s; pw_score_label1 := v;
     pw_score_label2 := pw_score_label2 s;
     pw_initialized := pw_initialized s; pw_rand_seed := pw_rand_seed s;
     pw_base_speed := pw_base_speed s; pw_balls := pw_balls s;
     pw_score1 := pw_score1 s; pw_score2 := pw_score2 s;
     frame_count := frame_count s; pong_wars_active := pong_wars_active s;
     trace := trace s |}.

Definition set_pw_score_label2 (v : option obj) (s : pw_state) : pw_state :=
  {| pw_color_team1 := pw_color_team1 s;
     pw_color_team2 := pw_color_team2 s;
     pw_color_ball1 := pw_color_ball1 s;
     pw_color_ball2 := pw_color_ball2 s; pw_timer := pw_timer s;
     pw_grid := pw_grid s; pw_cell_objs := pw_cell_objs s;
     pw_arena_container := pw_arena_container s;
     pw_ball_objs := pw_ball_objs s; pw_score_label1 := pw_score_label1 s;
     pw_score_label2 := v; pw_initialized := pw_initialized s;
     pw_rand_seed := pw_rand_seed s; pw_base_speed := pw_base_speed s;
     pw_balls := pw_balls s; pw_score1 := pw_score1 s;
     pw_score2 := pw_score2 s; frame_count := frame_count s;
     pong_wars_active := pong_wars_active s; trace := trace s |}.

Definition set_pw_initialized (v : bool) (s : pw_state) : pw_state :=
  {| pw_color_team1 := pw_color_team1 s;
     pw_color_team2 := pw_color_team2 s;
     pw_color_ball1 := pw_color_ball1 s;
     pw_color_ball2 := pw_color_ball2 s; pw_timer := pw_timer s;
     pw_grid := pw_grid s; pw_cell_objs := pw_cell_objs s;
     pw_arena_container := pw_arena_container s;
     pw_ball_objs := pw_ball_objs s; pw_score_label1 := pw_score_label1 s;
     pw_score_label2 := pw_score_label2 s; pw_initialized := v;
     pw_rand_seed := pw_rand_seed s; pw_base_speed := pw_base_speed s;
     pw_balls := pw_balls s; pw_score1 := pw_score1 s;
     pw_score2 := pw_score2 s; frame_count := frame_count s;
     pong_wars_active := pong_wars_active s; trace := trace s |}.

Definition set_pw_rand_seed (v : Z) (s : pw_state) : pw_state :=
  {| pw_color_team1 := pw_color_team1 s;
     pw_color_team2 := pw_color_team2 s;
     pw_color_ball1 := pw_color_ball1 s;
     pw_color_ball2 := pw_color_ball2 s; pw_timer := pw_timer s;
     pw_grid := pw_grid s; pw_cell_objs := pw_cell_objs s;
     pw_arena_container := pw_arena_container s;
     pw_ball_objs := pw_ball_objs s; pw_score_label1 := pw_score_label1 s;
     pw_score_label2 := pw_score_label2 s;
     pw_initialized := pw_initialized s; pw_rand_seed := v;
     pw_base_speed := pw_base_speed s; pw_balls := pw_balls s;
     pw_score1 := pw_score1 s; pw_score2 := pw_score2 s;
     frame_count := frame_count s; pong_wars_active := pong_wars_active s;
     trace := trace s |}.

Definition set_pw_base_speed (v : Z) (s : pw_state) : pw_state :=
  {| pw_color_team1 := pw_color_team1 s;
     pw_color_team2 := pw_color_team2 s;
     pw_color_ball1 := pw_color_ball1 s;
     pw_color_ball2 := pw_color_ball2 s; pw_timer := pw_timer s;
     pw_grid := pw_grid s; pw_cell_objs := pw_cell_objs s;
     pw_arena_container := pw_arena_container s;
     pw_ball_objs := pw_ball_objs s; pw_score_label1 := pw_score_label1 s;
     pw_score_label2 := pw_score_label2 s;
     pw_initialized := pw_initialized s; pw_rand_seed := pw_rand_seed s;
     pw_base_speed := v; pw_balls := pw_balls s; pw_score1 := pw_score1 s;
     pw_score2 := pw_score2 s; frame_count := frame_count s;
     pong_wars_active := pong_wars_active s; trace := trace s |}.

Definition set_pw_balls (v : list pw_ball) (s : pw_state) : pw_state :=
  {| pw_color_team1 := pw_color_team1 s;
     pw_color_team2 := pw_color_team2 s;
     pw_color_ball1 := pw_color_ball1 s;
     pw_color_ball2 := pw_color_ball2 s; pw_timer := pw_timer s;
     pw_grid := pw_grid s; pw_cell_objs := pw_cell_objs s;
     pw_arena_container := pw_arena_container s;
     pw_ball_objs := pw_ball_objs s; pw_score_label1 := pw_score_label1 s;
     pw_score_label2 := pw_score_label2 s;
     pw_initialized := pw_initialized s; pw_rand_seed := pw_rand_seed s;
     pw_base_speed := pw_base_speed s; pw_balls := v;
     pw_score1 := pw_score1 s; pw_score2 := pw_score2 s;
     frame_count := frame_count s; pong_wars_active := pong_wars_active s;
     trace := trace s |}.

Definition set_pw_score1 (v : Z) (s : pw_state) : pw_state :=
  {| pw_color_team1 := pw_color_team1 s;
     pw_color_team2 := pw_color_team2 s;
     pw_color_ball1 := pw_color_ball1 s;
     pw_color_ball2 := pw_color_ball2 s; pw_timer := pw_timer s;
     pw_grid := pw_grid s; pw_cell_objs := pw_cell_objs s;
     pw_arena_container := pw_arena_container s;
     pw_ball_objs := pw_ball_objs s; pw_score_label1 := pw_score_label1 s;
     pw_score_label2 := pw_score_label2 s;
     pw_initialized := pw_initialized s; pw_rand_seed := pw_rand_seed s;
     pw_base_speed := pw_base_speed s; pw_balls := pw_balls s;
     pw_score1 := v; pw_score2 := pw_score2 s;
     frame_count := frame_count s; pong_wars_active := pong_wars_active s;
     trace := trace s |}.

Definition set_pw_score2 (v : Z) (s : pw_state) : pw_state :=
  {| pw_color_team1 := pw_color_team1 s;
     pw_color_team2 := pw_color_team2 s;
     pw_color_ball1 := pw_color_ball1 s;
     pw_color_ball2 := pw_color_ball2 s; pw_timer := pw_timer s;
     pw_grid := pw_grid s; pw_cell_objs := pw_cell_objs s;
     pw_arena_container := pw_arena_container s;
     pw_ball_objs := pw_ball_objs s; pw_score_label1 := pw_score_label1 s;
     pw_score_label2 := pw_score_label2 s;
     pw_initialized := pw_initialized s; pw_rand_seed := pw_rand_seed s;
     pw_base_speed := pw_base_speed s; pw_balls := pw_balls s;
     pw_score1 := pw_score1 s; pw_score2 := v;
     frame_count := frame_count s; pong_wars_active := pong_wars_active s;
     trace := trace s |}.

Definition set_frame_count (v : Z) (s : pw_state) : pw_state :=
  {| pw_color_team1 := pw_color_team1 s;
     pw_color_team2 := pw_color_team2 s;
     pw_color_ball1 := pw_color_ball1 s;
     pw_color_ball2 := pw_color_ball2 s; pw_timer := pw_timer s;
     pw_grid := pw_grid s; pw_cell_objs := pw_cell_objs s;
     pw_arena_container := pw_arena_container s;
     pw_ball_objs := pw_ball_objs s; pw_score_label1 := pw_score_label1 s;
     pw_score_label2 := pw_score_label2 s;
     pw_initialized := pw_initialized s; pw_rand_seed := pw_rand_seed s;
     pw_base_speed := pw_base_speed s; pw_balls := pw_balls s;
     pw_score1 := pw_score1 s; pw_score2 := pw_score2 s; frame_count := v;
     pong_wars_active := pong_wars_active s; trace := trace s |}.

Definition set_pong_wars_active (v : bool) (s : pw_state) : pw_state :=
  {| pw_color_team1 := pw_color_team1 s;
     pw_color_team2 := pw_color_team2 s;
     pw_color_ball1 := pw_color_ball1 s;
     pw_color_ball2 := pw_color_ball2 s; pw_timer := pw_timer s;
     pw_grid := pw_grid s; pw_cell_objs := pw_cell_objs s;
     pw_arena_container := pw_arena_container s;
     pw_ball_objs := pw_ball_objs s; pw_score_label1 := pw_score_label1 s;
     pw_score_label2 := pw_score_label2 s;
     pw_initialized := pw_initialized s; pw_rand_seed := pw_rand_seed s;
     pw_base_speed := pw_base_speed s; pw_balls := pw_balls s;
     pw_score1 := pw_score1 s; pw_score2 := pw_score2 s;
     frame_count := frame_count s; pong_wars_active := v;
     trace := trace s |}.

Definition set_trace (v : list call) (s : pw_state) : pw_state :=
  {| pw_color_team1 := pw_color_team1 s;
     pw_color_team2 := pw_color_team2 s;
     pw_color_ball1 := pw_color_ball1 s;
     pw_color_ball2 := pw_color_ball2 s; pw_timer := pw_timer s;
     pw_grid := pw_grid s; pw_cell_objs := pw_cell_objs s;
     pw_arena_container := pw_arena_container s;
     pw_ball_objs := pw_ball_objs s; pw_score_label1 := pw_score_label1 s;
     pw_score_label2 := pw_score_label2 s;
     pw_initialized := pw_initialized s; pw_rand_seed := pw_rand_seed s;
     pw_base_speed := pw_base_speed s; pw_balls := pw_balls s;
     pw_score1 := pw_score1 s; pw_score2 := pw_score2 s;
     frame_count := frame_count s; pong_wars_active := pong_wars_active s;
     trace := v |}.

Definition emit (c : call) (s : pw_state) : pw_state :=
  set_trace (trace s ++ [c]) s.

(** [pw_grid[idx]], [pw_cell_objs[idx]], [pw_ball_objs[i]] *)
Definition grid_at (s : pw_state) (idx : nat) : Z := default 0 (pw_grid s !! idx).
Definition cell_obj (s : pw_state) (idx : nat) : option obj :=
  default None (pw_cell_objs s !! idx).
Definition ball_obj (s : pw_state) (i : nat) : option obj :=
  default None (pw_ball_objs s !! i).

(** [pw_rand] *)
Definition pw_rand (s : pw_state) : Z * pw_state :=
  let seed := to_uint32 (pw_rand_seed s * 1103515245 + 12345) in
  (Z.land (Z.shiftr seed 16) 32767, set_pw_rand_seed seed s).

(** The body of the two loops of [pw_init_grid], at column [gx] of row
    [gy]. *)
Definition pw_init_grid_cell (gy gx : nat) (s : pw_state) : pw_state :=
  let idx := (gy * PW_GRID_W + gx)%nat in
  let s := set_pw_grid (<[idx := if (gx <? PW_GRID_W / 2)%nat then 0 else 1]> (pw_grid s)) s in
  let s := if grid_at s idx =? 0 then set_pw_score1 (to_int (pw_score1 s + 1)) s
           else set_pw_score2 (to_int (pw_score2 s + 1)) s in
  match cell_obj s idx with
  | Some o =>
      let color := if grid_at s idx =? 0 then pw_color_team1 s else pw_color_team2 s in
      emit (lv_obj_set_style_bg_color o (lv_color_hex color) 0) s
  | None => s
  end.

(** [pw_init_grid] *)
Definition pw_init_grid (s : pw_state) : pw_state :=
  let s := set_pw_score1 0 s in
  let s := set_pw_score2 0 s in
  fold_left (fun s gy => fold_left (fun s gx => pw_init_grid_cell gy gx s)
                           (seq 0 PW_GRID_W) s)
            (seq 0 PW_GRID_H) s.

(** [pw_select_random_palette] *)
Definition pw_select_random_palette (s : pw_state) : pw_state :=
  let '(r, s) := pw_rand s in
  let idx := Z.rem r PW_NUM_PALETTES in
  let '(t1, t2, b1, b2) := default (0, 0, 0, 0) (pw_color_palettes !! Z.to_nat idx) in
  let s := set_pw_color_team1 t1 s in
  let s := set_pw_color_team2 t2 s in
  let s := set_pw_color_ball1 b1 s in
  let s := set_pw_color_ball2 b2 s in
  emit (LOG_INF ("Pong Wars palette: " +++ fmt_d idx)) s.

(** The body of the loop of [pw_init_balls], for ball [i]. *)
Definition pw_init_ball (i : nat) (s : pw_state) : pw_state :=
  let bx := if (i =? 0)%nat then Z.quot PW_ARENA_W 4 else Z.quot (PW_ARENA_W * 3) 4 in
  let by_ := Z.quot PW_ARENA_H 2 in
  let '(r, s) := pw_rand s in
  let angle_idx := Z.rem r 8 in
  let '(r, s) := pw_rand s in
  let vx := to_int (to_uint32 (pw_base_speed s + Z.rem r 10 - 5)) in
  let '(r, s) := pw_rand s in
  let vy := to_int (to_uint32 (pw_base_speed s + Z.rem r 10 - 5)) in
  let sx := if angle_idx <? 4 then 1 else -1 in
  let sy := if Z.rem angle_idx 4 <? 2 then 1 else -1 in
  let bdx := to_int16 (vx * sx) in
  let bdy := to_int16 (vy * sy) in
  let bdx := if (i =? 0)%nat && (bdx <? 0) then to_int16 (- bdx) else bdx in
  let bdx := if (i =? 1)%nat && (0 <? bdx) then to_int16 (- bdx) else bdx in
  set_pw_balls
    (<[i := {| x := bx; y := by_; dx := bdx; dy := bdy; team := to_uint8 (Z.of_nat i) |}]>
       (pw_balls s)) s.

(** [pw_init_balls]; [uptime] is what [k_uptime_get_32] returns. *)
Definition pw_init_balls (uptime : Z) (s : pw_state) : pw_state :=
  let s := set_pw_rand_seed (to_uint32 uptime) s in
  let s := pw_select_random_palette s in
  let '(r, s) := pw_rand s in
  let s := set_pw_base_speed (to_int16 (40 + Z.rem r 21)) s in
  let s := emit (LOG_INF ("Pong Wars speed: " +++ fmt_d (pw_base_speed s))) s in
  fold_left (fun s i => pw_init_ball i s) (seq 0 PW_NUM_BALLS) s.

(** [pw_update_cell_color] *)
Definition pw_update_cell_color (gx gy : Z) (tm : Z) (s : pw_state) : pw_state :=
  let idx := gy * Z.of_nat PW_GRID_W + gx in
  if (idx <? 0) || (Z.of_nat PW_NUM_CELLS <=? idx) then s
  else
    match cell_obj s (Z.to_nat idx) with
    | None => s
    | Some o =>
        let color := if tm =? 0 then pw_color_team1 s else pw_color_team2 s in
        emit (lv_obj_set_style_bg_color o (lv_color_hex color) 0) s
    end.

(** [pw_update_ball_display] *)
Definition pw_update_ball_display (i : nat) (s : pw_state) : pw_state :=
  match ball_obj s i, pw_balls s !! i with
  | Some o, Some b =>
      emit (lv_obj_set_pos o (x b - PW_BALL_RADIUS) (y b - PW_BALL_RADIUS)) s
  | _, _ => s
  end.

(** [pw_update_score] *)
Definition pw_update_score (s : pw_state) : pw_state :=
  let s := match pw_score_label1 s with
           | Some o => emit (lv_label_set_text o (snprintf 8 (fmt_d (pw_score1 s)))) s
           | None => s
           end in
  match pw_score_label2 s with
  | Some o => emit (lv_label_set_text o (snprintf 8 (fmt_d (pw_score2 s)))) s
  | None => s
  end.

(** The wall bounce along one axis: the clamped coordinate and whether
    the velocity flips. *)
Definition bounce (new_pos limit : Z) : Z * bool :=
  if new_pos <? PW_BALL_RADIUS then (PW_BALL_RADIUS, true)
  else if limit - PW_BALL_RADIUS <? new_pos then (limit - PW_BALL_RADIUS, true)
  else (new_pos, false).

Definition flip_dx (b : pw_ball) : pw_ball := set_dx (to_int16 (- dx b)) b.
Definition flip_dy (b : pw_ball) : pw_ball := set_dy (to_int16 (- dy b)) b.

(** The conversion of cell [idx] by ball [b] in [pw_step]. *)
Definition pw_convert_cell (gx gy : Z) (idx : nat) (b : pw_ball) (s : pw_state)
    : pw_ball * pw_state :=
  let s := set_pw_grid (<[idx := team b]> (pw_grid s)) s in
  let s := pw_update_cell_color gx gy (team b) s in
  let s := if team b =? 0
           then set_pw_score2 (to_int (pw_score2 s - 1))
                  (set_pw_score1 (to_int (pw_score1 s + 1)) s)
           else set_pw_score1 (to_int (pw_score1 s - 1))
                  (set_pw_score2 (to_int (pw_score2 s + 1)) s) in
  let '(r, s) := pw_rand s in
  let r := Z.rem r 3 in
  let b := if r =? 0 then flip_dx b
           else if r =? 1 then flip_dy b
           else flip_dy (flip_dx b) in
  (b, s).

(** The body of the loop of [pw_step], for ball [i]. *)
Definition pw_step_ball (i : nat) (s : pw_state) : pw_state :=
  match pw_balls s !! i with
  | None => s
  | Some b =>
      let new_x := x b + Z.quot (dx b) 10 in
      let new_y := y b + Z.quot (dy b) 10 in
      let '(new_x, fx) := bounce new_x PW_ARENA_W in
      let b := if fx then flip_dx b else b in
      let '(new_y, fy) := bounce new_y PW_ARENA_H in
      let b := if fy then flip_dy b else b in
      let gx := Z.quot new_x PW_CELL_SIZE in
      let gy := Z.quot new_y PW_CELL_SIZE in
      let '(b, s) :=
        if (0 <=? gx) && (gx <? Z.of_nat PW_GRID_W)
           && (0 <=? gy) && (gy <? Z.of_nat PW_GRID_H) then
          let idx := Z.to_nat (gy * Z.of_nat PW_GRID_W + gx) in
          if negb (grid_at s idx =? team b) then pw_convert_cell gx gy idx b s
          else (b, s)
        else (b, s) in
      let b := set_y (to_int16 new_y) (set_x (to_int16 new_x) b) in
      let s := set_pw_balls (<[i := b]> (pw_balls s)) s in
      pw_update_ball_display i s
  end.

(** [pw_step] *)
Definition pw_step (s : pw_state) : pw_state :=
  if negb (pw_initialized s) then s
  else fold_left (fun s i => pw_step_ball i s) (seq 0 PW_NUM_BALLS) s.

(** [pw_timer_cb] *)
Definition pw_timer_cb (s : pw_state) : pw_state :=
  if negb (pw_initialized s) then s
  else
    let s := set_frame_count (to_uint16 (frame_count s + 1)) s in
    let s := pw_step s in
    if Z.rem (frame_count s) 10 =? 0 then pw_update_score s else s.

(** Stop the frame timer: [if (pw_timer) { lv_timer_del(pw_timer);
    pw_timer = NULL; }]. *)
Definition pw_stop_timer (s : pw_state) : pw_state :=
  match pw_timer s with
  | Some t => set_pw_timer None (emit (lv_timer_del t) s)
  | None => s
  end.

(** [destroy_pong_wars_widgets] *)
Definition destroy_pong_wars_widgets (s : pw_state) : pw_state :=
  let s := set_pong_wars_active false s in
  let s := set_pw_initialized false s in
  let s := pw_stop_timer s in
  let s := set_pw_cell_objs (replicate PW_NUM_CELLS None) s in
  let s := set_pw_ball_objs (replicate PW_NUM_BALLS None) s in
  let s := set_pw_arena_container None s in
  let s := set_pw_score_label1 None s in
  let s := set_pw_score_label2 None s in
  emit (LOG_INF "Pong Wars destroyed") s.

(** What the rendering collaborator returns to
    [create_pong_wars_widgets]: one result for each creation call. *)
Record pw_alloc := {
  new_title : option obj;
  new_score_label1 : option obj;
  new_score_label2 : option obj;
  new_arena_container : option obj;
  new_cells : list (option obj);
  new_balls : list (option obj);
  new_hint : option obj;
  new_timer : option timer
}.

(** Recolour every existing cell from the grid: the loop at the head of
    the second half of [pw_reset_game]. *)
Definition pw_recolor_cells (s : pw_state) : pw_state :=
  fold_left (fun s idx =>
               match cell_obj s idx with
               | Some o =>
                   let color := if grid_at s idx =? 0 then pw_color_team1 s
                                else pw_color_team2 s in
                   emit (lv_obj_set_style_bg_color o (lv_color_hex color) 0) s
               | None => s
               end)
            (flat_map (fun gy => map (fun gx => (gy * PW_GRID_W + gx)%nat) (seq 0 PW_GRID_W))
                      (seq 0 PW_GRID_H)) s.

(** The colour of the ball of team [tm]: [ball_colors[team]]. *)
Definition ball_color (s : pw_state) (tm : Z) : color :=
  default 0 ([lv_color_hex (pw_color_ball1 s); lv_color_hex (pw_color_ball2 s)]
               !! Z.to_nat tm).

Definition ball_team (s : pw_state) (i : nat) : Z :=
  match pw_balls s !! i with Some b => team b | None => 0 end.

(** The body of the ball loop of [pw_reset_game]. *)
Definition pw_reset_ball (i : nat) (s : pw_state) : pw_state :=
  match ball_obj s i with
  | Some o =>
      let s := emit (lv_obj_set_style_bg_color o (ball_color s (ball_team s i)) 0) s in
      let s := emit (lv_obj_move_foreground o) s in
      pw_update_ball_display i s
  | None => s
  end.

(** The recolouring of the two score labels in [pw_reset_game]. *)
Definition pw_reset_score_labels (s : pw_state) : pw_state :=
  let s := match pw_score_label1 s with
           | Some o =>
               emit (lv_obj_set_style_bg_color o (lv_color_hex (pw_color_team1 s)) 0)
                 (emit (lv_obj_set_style_text_color o
                          (lv_color_hex (pw_color_ball1 s)) 0) s)
           | None => s
           end in
  match pw_score_label2 s with
  | Some o =>
      emit (lv_obj_set_style_bg_color o (lv_color_hex (pw_color_team2 s)) 0)
        (emit (lv_obj_set_style_text_color o (lv_color_hex (pw_color_ball2 s)) 0) s)
  | None => s
  end.

(** [pw_reset_game]; [uptime] is what [k_uptime_get_32] returns and
    [timer_result] what [lv_timer_create] returns. *)
Definition pw_reset_game (uptime : Z) (timer_result : option timer) (s : pw_state)
    : pw_state :=
  if negb (pw_initialized s) then s
  else
    match pw_arena_container s with
    | None => s
    | Some _ =>
        let s := set_pw_initialized false s in
        let s := pw_stop_timer s in
        let s := pw_init_grid s in
        let s := pw_init_balls uptime s in
        let s := pw_recolor_cells s in
        let s := fold_left (fun s i => pw_reset_ball i s) (seq 0 PW_NUM_BALLS) s in
        let s := pw_reset_score_labels s in
        let s := pw_update_score s in
        let s := set_pw_initialized true s in
        let s := set_pw_timer timer_result (emit (lv_timer_create 33 timer_result) s) in
        emit (LOG_INF "Pong Wars reset! (new colors/speed)") s
    end.

(** [pw_tap_handler] *)
Definition pw_tap_handler (uptime : Z) (timer_result : option timer) (s : pw_state)
    : pw_state :=
  pw_reset_game uptime timer_result
    (emit (LOG_INF "Pong Wars: tap detected, resetting...") s).

Definition LV_SYMBOL_RIGHT : string :=
  String (ascii_of_nat 239) (String (ascii_of_nat 129) (String (ascii_of_nat 148) "")).

(** The body of the cell loop of [create_pong_wars_widgets]. *)
Definition pw_create_cell (a : pw_alloc) (gy gx : nat) (s : pw_state) : pw_state :=
  let idx := (gy * PW_GRID_W + gx)%nat in
  let cell := default None (new_cells a !! idx) in
  let s := emit (lv_obj_create (pw_arena_container s) cell) s in
  match cell with
  | None => s
  | Some o =>
      let s := emit (lv_obj_set_size o PW_CELL_SIZE PW_CELL_SIZE) s in
      let s := emit (lv_obj_set_pos o (Z.of_nat gx * PW_CELL_SIZE)
                                      (Z.of_nat gy * PW_CELL_SIZE)) s in
      let color := if (gx <? PW_GRID_W / 2)%nat then pw_color_team1 s
                   else pw_color_team2 s in
      let s := emit (lv_obj_set_style_bg_color o (lv_color_hex color) 0) s in
      set_pw_cell_objs (<[idx := Some o]> (pw_cell_objs s)) s
  end.

(** The body of the ball loop of [create_pong_wars_widgets]. *)
Definition pw_create_ball (a : pw_alloc) (i : nat) (s : pw_state) : pw_state :=
  let ball := default None (new_balls a !! i) in
  let s := emit (lv_obj_create (pw_arena_container s) ball) s in
  match ball with
  | None => s
  | Some o =>
      let s := emit (lv_obj_set_size o (PW_BALL_RADIUS * 2) (PW_BALL_RADIUS * 2)) s in
      let s := emit (lv_obj_set_style_bg_color o (ball_color s (ball_team s i)) 0) s in
      let s := set_pw_ball_objs (<[i := Some o]> (pw_ball_objs s)) s in
      pw_update_ball_display i s
  end.

(** The title and the two score labels of [create_pong_wars_widgets]. *)
Definition pw_create_labels (screen_obj : obj) (a : pw_alloc) (s : pw_state)
    : pw_state :=
  let s := emit (lv_label_create (Some screen_obj) (new_title a)) s in
  let s := match new_title a with
           | Some o =>
               emit (lv_obj_align o LV_ALIGN_TOP_MID 0 6)
                 (emit (lv_label_set_text o "Pong Wars")
                    (emit (lv_obj_set_style_text_color o lv_color_white 0) s))
           | None => s
           end in
  let s := set_pw_score_label1 (new_score_label1 a)
             (emit (lv_label_create (Some screen_obj) (new_score_label1 a)) s) in
  let s := match pw_score_label1 s with
           | Some o =>
               emit (lv_obj_set_pos o PW_OFFSET_X 6)
                 (emit (lv_obj_set_style_bg_color o (lv_color_hex (pw_color_team1 s)) 0)
                    (emit (lv_obj_set_style_text_color o
                             (lv_color_hex (pw_color_ball1 s)) 0) s))
           | None => s
           end in
  let s := set_pw_score_label2 (new_score_label2 a)
             (emit (lv_label_create (Some screen_obj) (new_score_label2 a)) s) in
  match pw_score_label2 s with
  | Some o =>
      emit (lv_obj_set_pos o (PW_OFFSET_X + PW_ARENA_W - 35) 6)
        (emit (lv_obj_set_style_bg_color o (lv_color_hex (pw_color_team2 s)) 0)
           (emit (lv_obj_set_style_text_color o (lv_color_hex (pw_color_ball2 s)) 0) s))
  | None => s
  end.

(** The arena container of [create_pong_wars_widgets]. *)
Definition pw_create_arena (screen_obj : obj) (a : pw_alloc) (s : pw_state)
    : pw_state :=
  let s := set_pw_arena_container (new_arena_container a)
             (emit (lv_obj_create (Some screen_obj) (new_arena_container a)) s) in
  match pw_arena_container s with
  | Some o =>
      emit (lv_obj_set_pos o PW_OFFSET_X PW_OFFSET_Y)
        (emit (lv_obj_set_size o PW_ARENA_W PW_ARENA_H) s)
  | None => s
  end.

(** The navigation hint of [create_pong_wars_widgets]. *)
Definition pw_create_hint (screen_obj : obj) (a : pw_alloc) (s : pw_state)
    : pw_state :=
  let s := emit (lv_label_create (Some screen_obj) (new_hint a)) s in
  match new_hint a with
  | Some o =>
      emit (lv_obj_align o LV_ALIGN_BOTTOM_MID 0 (-4))
        (emit (lv_label_set_text o (LV_SYMBOL_RIGHT +++ " swipe to return"))
           (emit (lv_obj_set_style_text_color o (lv_color_hex 6316160) 0) s))
  | None => s
  end.

(** [create_pong_wars_widgets]; [uptime] is what [k_uptime_get_32]
    returns, [a] what the creation calls return. *)
Definition create_pong_wars_widgets (uptime : Z) (screen_obj : obj) (a : pw_alloc)
    (s : pw_state) : pw_state :=
  let s := emit (LOG_INF "Creating Pong Wars (smooth version)...") s in
  let s := set_pw_initialized false s in
  let s := pw_init_grid s in
  let s := pw_init_balls uptime s in
  let s := emit (lv_obj_set_style_bg_color screen_obj (lv_color_hex 1710638) 0) s in
  let s := pw_create_labels screen_obj a s in
  let s := pw_create_arena screen_obj a s in
  let s := fold_left (fun s gy => fold_left (fun s gx => pw_create_cell a gy gx s)
                                    (seq 0 PW_GRID_W) s)
                     (seq 0 PW_GRID_H) s in
  let s := emit (LOG_INF ("Pre-allocated " +++ fmt_d (Z.of_nat PW_NUM_CELLS)
                          +++ " cell objects")) s in
  let s := fold_left (fun s i => pw_create_ball a i s) (seq 0 PW_NUM_BALLS) s in
  let s := pw_update_score s in
  let s := pw_create_hint screen_obj a s in
  let s := set_pw_initialized true s in
  let s := set_pong_wars_active true s in
  let s := set_pw_timer (new_timer a) (emit (lv_timer_create 33 (new_timer a)) s) in
  emit (LOG_INF "Pong Wars started! (smooth mode, background updates paused)") s.

(** The sizes of the C arrays. *)
Definition arrays_ok (s : pw_state) : Prop :=
  List.length (pw_grid s) = PW_NUM_CELLS
  /\ List.length (pw_cell_objs s) = PW_NUM_CELLS
  /\ List.length (pw_ball_objs s) = PW_NUM_BALLS
  /\ List.length (pw_balls s) = PW_NUM_BALLS.

(** The states the simulation goes through: built by
    [create_pong_wars_widgets], then driven by the timer, taps on the
    arena and the teardown on leaving the screen. *)
Inductive reachable : pw_state -> Prop :=
| reach_create uptime screen_obj a s :
    arrays_ok s -> reachable (create_pong_wars_widgets uptime screen_obj a s)
| reach_step s : reachable s -> reachable (pw_step s)
| reach_timer s : reachable s -> reachable (pw_timer_cb s)
| reach_reset uptime timer_result s :
    reachable s -> reachable (pw_reset_game uptime timer_result s)
| reach_tap uptime timer_result s :
    reachable s -> reachable (pw_tap_handler uptime timer_result s)
| reach_destroy s : reachable s -> reachable (destroy_pong_wars_widgets s).

(** The values of the statics before the first call. *)
Definition pw_boot : pw_state :=
  {| pw_color_team1 := 16758248; pw_color_team2 := 11919103;
     pw_color_ball1 := 16731501; pw_color_ball2 := 2985215;
     pw_timer := None;
     pw_grid := replicate PW_NUM_CELLS 0;
     pw_cell_objs := replicate PW_NUM_CELLS None;
     pw_arena_container := None;
     pw_ball_objs := replicate PW_NUM_BALLS None;
     pw_score_label1 := None; pw_score_label2 := None;
     pw_initialized := false;
     pw_rand_seed := 12345;
     pw_base_speed := 25;
     pw_balls := replicate PW_NUM_BALLS {| x := 0; y := 0; dx := 0; dy := 0; team := 0 |};
     pw_score1 := 0; pw_score2 := 0;
     frame_count := 0;
     pong_wars_active := false;
     trace := [] |}.

(** Calls that create or free a widget. *)
Definition is_alloc (c : call) : bool :=
  match c with
  | lv_obj_create _ _ | lv_label_create _ _ | lv_obj_del _ | lv_obj_clean _ => true
  | _ => false
  end.

(** The number of cells of team [tm]. *)
Definition cells_of (tm : Z) (g : list Z) : Z := Z.of_nat (count_occ Z.eq_dec g tm).

Definition in_arena (b : pw_ball) : Prop :=
  PW_BALL_RADIUS <= x b <= PW_ARENA_W - PW_BALL_RADIUS
  /\ PW_BALL_RADIUS <= y b <= PW_ARENA_H - PW_BALL_RADIUS.

(** The grid split half and half: in every row the left six columns
    belong to team 0 and the right six to team 1. *)
Definition pw_half_grid : list Z :=
  map (fun idx => if (idx mod PW_GRID_W <? PW_GRID_W / 2)%nat then 0 else 1)
      (seq 0 PW_NUM_CELLS).

(** Every cell belongs to team 0 or team 1 and the scores count the
    cells of each team. *)
Definition grid_ok (s : pw_state) : Prop :=
  List.length (pw_grid s) = PW_NUM_CELLS
  /\ Forall (fun c => c = 0 \/ c = 1) (pw_grid s)
  /\ pw_score1 s = cells_of 0 (pw_grid s)
  /\ pw_score2 s = cells_of 1 (pw_grid s).

(** Ball [i] plays for team [i]. *)
Definition teams_ok (s : pw_state) : Prop :=
  exists b0 b1, pw_balls s = [b0; b1] /\ team b0 = 0 /\ team b1 = 1.

Definition scores_ok (s : pw_state) : Prop := grid_ok s /\ teams_ok s.

(** The widget pointers held by the simulation. *)
Definition widgets (s : pw_state) :=
  (pw_cell_objs s, pw_ball_objs s, pw_arena_container s,
   pw_score_label1 s, pw_score_label2 s).

(** Since the trace was [t0], no widget has been created or freed. *)
Definition quiet_from (t0 : list call) (s : pw_state) : Prop :=
  exists d, trace s = t0 ++ d /\ Forall (fun c => is_alloc c = false) d.

(** The fields that hold the game itself. *)
Definition game (s : pw_state) := (pw_grid s, pw_score1 s, pw_score2 s, pw_balls s).

(** After [n] cells of [pw_init_grid] the first [n] cells are those of
    the half-and-half grid and the scores count them. *)
Definition grid_filled (n : nat) (s : pw_state) : Prop :=
  List.length (pw_grid s) = PW_NUM_CELLS
  /\ take n (pw_grid s) = take n pw_half_grid
  /\ pw_score1 s = cells_of 0 (take n pw_half_grid)
  /\ pw_score2 s = cells_of 1 (take n pw_half_grid).

(** A ball as [pw_init_balls] leaves ball [i] for base speed [v]: on
    its own half, moving towards the other half, each velocity
    component within the jitter of the base speed. *)
Definition fresh_ball (i : nat) (v : Z) (b : pw_ball) : Prop :=
  team b = Z.of_nat i
  /\ x b = (if (i =? 0)%nat then 60 else 180) /\ y b = 90
  /\ (if (i =? 0)%nat then 0 < dx b else dx b < 0)
  /\ v - 5 <= Z.abs (dx b) <= v + 4
  /\ v - 5 <= Z.abs (dy b) <= v + 4.

(** [s'] is [s] with more calls in its trace, none of which creates or
    frees a widget. *)
Definition emits_only (s s' : pw_state) : Prop :=
  exists d, s' = set_trace (trace s ++ d) s /\ Forall (fun c => is_alloc c = false) d.

(** The palette in use is row [idx] of [pw_color_palettes]. *)
Definition palette_is (idx : nat) (s : pw_state) : Prop :=
  pw_color_palettes !! idx
  = Some (pw_color_team1 s, pw_color_team2 s, pw_color_ball1 s, pw_color_ball2 s).

End PongWars.

(** ** Gesture debouncer and transition controller *)

Module Swipe.

Record ui_state := {
  current_screen : screen_state;
  screen_obj : obj;
  transition_in_progress : bool;
  pending_swipe : swipe_direction;
  ui_interaction_active : bool;
  lvgl_indev_registered : bool;
  ks_runtime_channel : Z;
  ks_channel_initialized : bool
}.

Definition set_current_screen (v : screen_state) (s : ui_state) : ui_state :=
  {| current_screen := v; screen_obj := screen_obj s;
     transition_in_progress := transition_in_progress s;
     pending_swipe := pending_swipe s;
     ui_interaction_active := ui_interaction_active s;
     lvgl_indev_registered := lvgl_indev_registered s;
     ks_runtime_channel := ks_runtime_channel s;
     ks_channel_initialized := ks_channel_initialized s |}.

Definition set_transition_in_progress (v : bool) (s : ui_state) : ui_state :=
  {| current_screen := current_screen s; screen_obj := screen_obj s;
     transition_in_progress := v; pending_swipe := pending_swipe s;
     ui_interaction_active := ui_interaction_active s;
     lvgl_indev_registered := lvgl_indev_registered s;
     ks_runtime_channel := ks_runtime_channel s;
     ks_channel_initialized := ks_channel_initialized s |}.

Definition set_pending_swipe (v : swipe_direction) (s : ui_state) : ui_state :=
  {| current_screen := current_screen s; screen_obj := screen_obj s;
     transition_in_progress := transition_in_progress s;
     pending_swipe := v; ui_interaction_active := ui_interaction_active s;
     lvgl_indev_registered := lvgl_indev_registered s;
     ks_runtime_channel := ks_runtime_channel s;
     ks_channel_initialized := ks_channel_initialized s |}.

Definition set_ui_interaction_active (v : bool) (s : ui_state) : ui_state :=
  {| current_screen := current_screen s; screen_obj := screen_obj s;
     transition_in_progress := transition_in_progress s;
     pending_swipe := pending_swipe s; ui_interaction_active := v;
     lvgl_indev_registered := lvgl_indev_registered s;
     ks_runtime_channel := ks_runtime_channel s;
     ks_channel_initialized := ks_channel_initialized s |}.

Definition set_lvgl_indev_registered (v : bool) (s : ui_state) : ui_state :=
  {| current_screen := current_screen s; screen_obj := screen_obj s;
     transition_in_progress := transition_in_progress s;
     pending_swipe := pending_swipe s;
     ui_interaction_active := ui_interaction_active s;
     lvgl_indev_registered := v;
     ks_runtime_channel := ks_runtime_channel s;
     ks_channel_initialized := ks_channel_initialized s |}.

Definition set_ks_runtime_channel (v : Z) (s : ui_state) : ui_state :=
  {| current_screen := current_screen s; screen_obj := screen_obj s;
     transition_in_progress := transition_in_progress s;
     pending_swipe := pending_swipe s;
     ui_interaction_active := ui_interaction_active s;
     lvgl_indev_registered := lvgl_indev_registered s;
     ks_runtime_channel := v;
     ks_channel_initialized := ks_channel_initialized s |}.

Definition set_ks_channel_initialized (v : bool) (s : ui_state) : ui_state :=
  {| current_screen := current_screen s; screen_obj := screen_obj s;
     transition_in_progress := transition_in_progress s;
     pending_swipe := pending_swipe s;
     ui_interaction_active := ui_interaction_active s;
     lvgl_indev_registered := lvgl_indev_registered s;
     ks_runtime_channel := ks_runtime_channel s;
     ks_channel_initialized := v |}.

(** What the build and the touch driver answer during one tick. *)
Record env := {
  CONFIG_PROSPECTOR_TOUCH_ENABLED : bool;
  indev_ret : Z   (* result of [touch_handler_register_lvgl_indev] *)
}.

Definition CHANNEL_ALL : Z := 10.
Definition CHANNEL_MAX : Z := 10.

(** [scanner_get_runtime_channel] (the weak fallback of this file) *)
Definition scanner_get_runtime_channel (s : ui_state) : Z * ui_state :=
  let s := if negb (ks_channel_initialized s)
           then set_ks_channel_initialized true (set_ks_runtime_channel 10 s)
           else s in
  (ks_runtime_channel s, s).

(** [scanner_set_runtime_channel] (the weak fallback of this file) *)
Definition scanner_set_runtime_channel (channel : Z) (s : ui_state)
    : ui_state * list call :=
  (set_ks_channel_initialized true (set_ks_runtime_channel channel s),
   [LOG_INF ("Channel set to " +++ fmt_d channel)]).

(** The channel filter in force: what [scanner_get_runtime_channel]
    returns. *)
Definition channel_of (s : ui_state) : Z := fst (scanner_get_runtime_channel s).

Definition ks_channel_change (new_channel : Z) (s : ui_state)
    : ui_state * list call :=
  let new_channel := if CHANNEL_MAX <? new_channel then 0 else new_channel in
  let '(s, c) := scanner_set_runtime_channel new_channel s in
  (s, c ++ [ks_update_channel_display; ks_update_entries;
            LOG_INF ("Channel changed to " +++ fmt_d new_channel)]).

Definition ks_channel_increment (s : ui_state) : ui_state * list call :=
  let '(ch, s) := scanner_get_runtime_channel s in
  let ch := to_uint8 (if ch <? CHANNEL_MAX then ch + 1 else 0) in
  ks_channel_change ch s.

Definition ks_channel_decrement (s : ui_state) : ui_state * list call :=
  let '(ch, s) := scanner_get_runtime_channel s in
  let ch := to_uint8 (if 0 <? ch then ch - 1 else CHANNEL_MAX) in
  ks_channel_change ch s.

Definition ensure_lvgl_indev_registered (e : env) (s : ui_state)
    : ui_state * list call :=
  if CONFIG_PROSPECTOR_TOUCH_ENABLED e then
    if negb (lvgl_indev_registered s) then
      let ret := indev_ret e in
      if ret =? 0 then
        (set_lvgl_indev_registered true s,
         [LOG_INF "Registering LVGL input device for touch interactions...";
          touch_handler_register_lvgl_indev ret;
          LOG_INF "LVGL input device registered successfully"])
      else
        (s,
         [LOG_INF "Registering LVGL input device for touch interactions...";
          touch_handler_register_lvgl_indev ret;
          LOG_ERR ("Failed to register LVGL input device: " +++ fmt_d ret)])
    else (s, [])
  else (s, []).

(** The body shared by the eight transition branches of
    [swipe_process_timer_cb]: tear down [from], clean the surface, set
    the background, build [dest], register touch input when the branch
    asks for it, and record the new screen. *)
Definition switch_screen (e : env) (from dest : screen_state) (bg : color)
    (register : bool) (s : ui_state) : ui_state * list call :=
  let c1 := [LOG_INF ">>> Transitioning";
             destroy_screen_widgets from;
             lv_obj_clean (Some (screen_obj s));
             lv_obj_set_style_bg_color (screen_obj s) bg 0;
             lv_obj_invalidate (screen_obj s);
             create_screen_widgets dest] in
  let '(s, c2) := if register then ensure_lvgl_indev_registered e s else (s, []) in
  (set_current_screen dest s, c1 ++ c2 ++ [LOG_INF ">>> Transition complete"]).

(** The [switch (dir)] of [swipe_process_timer_cb]. *)
Definition dispatch_swipe (e : env) (dir : swipe_direction) (s : ui_state)
    : ui_state * list call :=
  match dir with
  | SWIPE_DIRECTION_DOWN =>
      match current_screen s with
      | SCREEN_MAIN =>
          switch_screen e SCREEN_MAIN SCREEN_DISPLAY_SETTINGS (lv_color_hex 657930) true s
      | SCREEN_KEYBOARD_SELECT =>
          switch_screen e SCREEN_KEYBOARD_SELECT SCREEN_MAIN lv_color_black false s
      | _ => (s, [])
      end
  | SWIPE_DIRECTION_UP =>
      match current_screen s with
      | SCREEN_DISPLAY_SETTINGS =>
          switch_screen e SCREEN_DISPLAY_SETTINGS SCREEN_MAIN lv_color_black false s
      | SCREEN_MAIN =>
          switch_screen e SCREEN_MAIN SCREEN_KEYBOARD_SELECT (lv_color_hex 657930) true s
      | _ => (s, [])
      end
  | SWIPE_DIRECTION_LEFT =>
      match current_screen s with
      | SCREEN_MAIN =>
          switch_screen e SCREEN_MAIN SCREEN_PONG_WARS lv_color_black true s
      | SCREEN_SYSTEM_SETTINGS =>
          switch_screen e SCREEN_SYSTEM_SETTINGS SCREEN_MAIN lv_color_black false s
      | SCREEN_KEYBOARD_SELECT =>
          let '(s, c) := ks_channel_decrement s in
          (s, ks_close_channel_popup :: c
              ++ [LOG_INF ">>> Keyboard Select: Channel decremented"])
      | _ => (s, [])
      end
  | SWIPE_DIRECTION_RIGHT =>
      match current_screen s with
      | SCREEN_PONG_WARS =>
          switch_screen e SCREEN_PONG_WARS SCREEN_MAIN lv_color_black false s
      | SCREEN_MAIN =>
          switch_screen e SCREEN_MAIN SCREEN_SYSTEM_SETTINGS (lv_color_hex 657930) true s
      | SCREEN_KEYBOARD_SELECT =>
          let '(s, c) := ks_channel_increment s in
          (s, ks_close_channel_popup :: c
              ++ [LOG_INF ">>> Keyboard Select: Channel incremented"])
      | _ => (s, [])
      end
  | SWIPE_DIRECTION_NONE =>
      (s, [LOG_DBG "Swipe direction not handled for current screen"])
  end.

Definition processing_swipe : call := LOG_INF "[MAIN THREAD] Processing swipe".

(** [swipe_process_timer_cb]: one consumer tick. *)
Definition swipe_process_timer_cb (e : env) (s : ui_state) : ui_state * list call :=
  let dir := pending_swipe s in
  match dir with
  | SWIPE_DIRECTION_NONE => (s, [])
  | _ =>
      let s := set_pending_swipe SWIPE_DIRECTION_NONE s in
      if ui_interaction_active s then
        (s, [LOG_DBG "Swipe ignored - UI interaction in progress"])
      else if transition_in_progress s then
        (s, [LOG_WRN "Swipe ignored - transition already in progress"])
      else
        let s := set_transition_in_progress true s in
        let '(s, c) := dispatch_swipe e dir s in
        (set_transition_in_progress false s, processing_swipe :: c)
  end.

(** [swipe_gesture_listener]; [ev] is [None] when the event is not a
    swipe gesture event. *)
Definition swipe_gesture_listener (ev : option swipe_direction) (s : ui_state)
    : ui_state * list call :=
  match ev with
  | None => (s, [])
  | Some direction =>
      match pending_swipe s with
      | SWIPE_DIRECTION_NONE =>
          (set_pending_swipe direction s, [LOG_INF "[ISR] Swipe event received"])
      | _ => (s, [LOG_DBG "Swipe queued - already have pending swipe"])
      end
  end.

(** Producer and consumer events, in the order they happen.  [Drag]
    stands for the slider handler [ds_custom_slider_drag_cb] raising or
    clearing [ui_interaction_active]. *)
Inductive event :=
| Gesture (direction : swipe_direction)
| Tick (e : env)
| Drag (active : bool).

Definition step (ev : event) (s : ui_state) : ui_state * list call :=
  match ev with
  | Gesture d => swipe_gesture_listener (Some d) s
  | Tick e => swipe_process_timer_cb e s
  | Drag b => (set_ui_interaction_active b s, [])
  end.

Fixpoint run (evs : list event) (s : ui_state) : ui_state * list call :=
  match evs with
  | [] => (s, [])
  | ev :: evs =>
      let '(s1, c1) := step ev s in
      let '(s2, c2) := run evs s1 in
      (s2, c1 ++ c2)
  end.

(** The transition table as the spec writes it (section 4.3): the
    destination of each listed (screen, direction) pair. *)
Definition spec_table (from : screen_state) (d : swipe_direction)
    : option screen_state :=
  match from, d with
  | SCREEN_MAIN, SWIPE_DIRECTION_DOWN => Some SCREEN_DISPLAY_SETTINGS
  | SCREEN_DISPLAY_SETTINGS, SWIPE_DIRECTION_UP => Some SCREEN_MAIN
  | SCREEN_MAIN, SWIPE_DIRECTION_UP => Some SCREEN_KEYBOARD_SELECT
  | SCREEN_KEYBOARD_SELECT, SWIPE_DIRECTION_DOWN => Some SCREEN_MAIN
  | SCREEN_MAIN, SWIPE_DIRECTION_RIGHT => Some SCREEN_SYSTEM_SETTINGS
  | SCREEN_SYSTEM_SETTINGS, SWIPE_DIRECTION_LEFT => Some SCREEN_MAIN
  | SCREEN_MAIN, SWIPE_DIRECTION_LEFT => Some SCREEN_PONG_WARS
  | SCREEN_PONG_WARS, SWIPE_DIRECTION_RIGHT => Some SCREEN_MAIN
  | _, _ => None
  end.

(** The screen after a gesture, by the spec: the table's destination,
    and the same screen for every pair that is not in the table. *)
Definition spec_next (from : screen_state) (d : swipe_direction) : screen_state :=
  default from (spec_table from d).

(** The channel filter after a gesture, by the spec: on KeyboardSelect
    left decrements and right increments it (around 0..10, where 10 is
    "all"); no other pair touches it. *)
Definition spec_channel (from : screen_state) (d : swipe_direction) (ch : Z) : Z :=
  match from, d with
  | SCREEN_KEYBOARD_SELECT, SWIPE_DIRECTION_LEFT =>
      if ch =? 0 then CHANNEL_MAX else ch - 1
  | SCREEN_KEYBOARD_SELECT, SWIPE_DIRECTION_RIGHT =>
      if ch =? CHANNEL_MAX then 0 else ch + 1
  | _, _ => ch
  end.

Definition is_processing_swipe (c : call) : bool :=
  match c with
  | LOG_INF msg => String.eqb msg "[MAIN THREAD] Processing swipe"
  | _ => false
  end.

(** How many gestures a trace of calls acted upon: the consumer logs
    [processing_swipe] once for each gesture that reaches the dispatch. *)
Definition acted (cs : list call) : nat :=
  List.length (List.filter is_processing_swipe cs).

Definition is_tick (ev : event) : bool :=
  match ev with Tick _ => true | _ => false end.

Definition is_gesture (ev : event) : bool :=
  match ev with Gesture _ => true | _ => false end.

(** 1 when a gesture is pending, 0 when the cell is empty. *)
Definition pending_count (s : ui_state) : nat :=
  match pending_swipe s with SWIPE_DIRECTION_NONE => 0 | _ => 1 end.

Definition ticks (evs : list event) : nat :=
  List.length (List.filter is_tick evs).

Definition gestures (evs : list event) : nat :=
  List.length (List.filter is_gesture evs).

End Swipe.

(** ** Sample states *)

(** A backlight device that is ready. *)
Definition ready : option Backlight.device :=
  Some {| Backlight.device_is_ready := true |}.

(** The signal widgets of the main screen, before any signal update. *)
Definition signal_widgets : Signal.signal_state :=
  {| Signal.rssi := -100; Signal.rate_hz := S754_finite true 8388608 (-23);
     Signal.rssi_bar := Some 1%nat; Signal.rssi_label := Some 2%nat;
     Signal.rate_label := Some 3%nat |}.

(** The main screen in slide mode, showing layer 3 in a window that
    starts at layer 1. *)
Definition layer_sample : Layer.layer_state :=
  {| Layer.current_screen := SCREEN_MAIN; Layer.active_layer := 3;
     Layer.last_active_layer := 3; Layer.ds_layer_slide_mode := true;
     Layer.ds_layer_slide_max := 7; Layer.layer_slide_window_start := 1;
     Layer.layer_slide_labels :=
       [Some 10; Some 11; Some 12; Some 13; Some 14; Some 15; Some 16;
        Some 17; Some 18]%nat |}.

(** A fixed-mode branch that draws nothing (the sample state is in slide
    mode, where the branch is not taken). *)
Definition fixed_mode_idle (prev_layer layer : Z) (s : Layer.layer_state)
    : Layer.layer_state * list call := (s, []).

(** The main screen at rest, with touch input not yet registered. *)
Definition ui_main : Swipe.ui_state :=
  {| Swipe.current_screen := SCREEN_MAIN; Swipe.screen_obj := 0%nat;
     Swipe.transition_in_progress := false;
     Swipe.pending_swipe := SWIPE_DIRECTION_NONE;
     Swipe.ui_interaction_active := false;
     Swipe.lvgl_indev_registered := false;
     Swipe.ks_runtime_channel := 10; Swipe.ks_channel_initialized := false |}.

(** A build with touch input, whose driver registers without error. *)
Definition touch_env : Swipe.env :=
  {| Swipe.CONFIG_PROSPECTOR_TOUCH_ENABLED := true; Swipe.indev_ret := 0 |}.

(** Battery widgets on the main screen, laid out for two batteries. *)
Definition battery_two : Battery.battery_state :=
  {| Battery.battery_values := [80; 75; 0; 0];
     Battery.active_battery_count := 2;
     Battery.kb_bat_bar := [Some 20; Some 21; Some 22; Some 23]%nat;
     Battery.kb_bat_pct := [Some 24; Some 25; Some 26; Some 27]%nat;
     Battery.kb_bat_name := [Some 28; Some 29; Some 30; Some 31]%nat;
     Battery.kb_bat_nc_bar := [Some 32; Some 33; Some 34; Some 35]%nat;
     Battery.kb_bat_nc_label := [Some 36; Some 37; Some 38; Some 39]%nat |}.

(** Widgets handed out by the rendering collaborator to one construction
    of the Pong Wars screen: every creation succeeds. *)
Definition pw_alloc_sample : PongWars.pw_alloc :=
  {| PongWars.new_title := Some 1%nat;
     PongWars.new_score_label1 := Some 2%nat;
     PongWars.new_score_label2 := Some 3%nat;
     PongWars.new_arena_container := Some 4%nat;
     PongWars.new_cells := map (fun i => Some (10 + i)%nat) (seq 0 PongWars.PW_NUM_CELLS);
     PongWars.new_balls := [Some 200%nat; Some 201%nat];
     PongWars.new_hint := Some 5%nat;
     PongWars.new_timer := Some 1%nat |}.

(** The simulation as first built, at uptime 123456 ms. *)
Definition pw_sample : PongWars.pw_state :=
  PongWars.create_pong_wars_widgets 123456 0%nat pw_alloc_sample PongWars.pw_boot.

(** [f] holds on the [n] integers from [p] on. *)
Fixpoint all_from (n : nat) (p : Z) (f : Z -> bool) : bool :=
  match n with
  | O => true
  | S n => f p && all_from n (p + 1) f
  end.

(** ** Signal: the rate restored from the cache *)

Module SignalRestore.
Import Signal.

(** [rate_hz] as the signal block of [pending_update_timer_cb] caches
    it: [(float)sig_rate_x100 / 100.0f]. *)
Definition cached_rate (sig_rate_x100 : Z) : F32.float :=
  F32.div (F32.of_int sig_rate_x100) F32.f_100.

(** The payload in tenths of a hertz, rounded to the nearest tenth
    (halves up). *)
Definition nearest_tenth (sig_rate_x100 : Z) : Z := (sig_rate_x100 + 5) / 10.

(** [display_update_signal] takes the cached rate of payload [p] for a
    valid rate and converts it to the nearest tenth. *)
Definition restores_nearest_tenth (p : Z) : bool :=
  let rate := cached_rate p in
  negb (F32.ltb rate F32.f_0)
  && negb (F32.ltb F32.f_999_9 rate || negb (F32.eqb rate rate))
  && (F32.to_int (F32.add (F32.mul rate F32.f_10) F32.f_0_5) =? nearest_tenth p).

End SignalRestore.

(** ** Pong Wars: what a tick keeps *)

Module PongWarsPlay.
Import PongWars.

(** The velocity components are values of [int16_t], as in [struct
    pw_ball]. *)
Definition int16_velocity (b : pw_ball) : Prop :=
  - 32768 <= dx b <= 32767 /\ - 32768 <= dy b <= 32767.

(** [b'] moves as fast as [b] along each axis and plays for the same
    team. *)
Definition same_speed (b b' : pw_ball) : Prop :=
  Z.abs (dx b') = Z.abs (dx b) /\ Z.abs (dy b') = Z.abs (dy b)
  /\ team b' = team b.

End PongWarsPlay.

(** ** Gestures: what a run of events leaves *)

Module SwipeRun.
Import Swipe.

(** The direction of the swipe that undoes [d]. *)
Definition opposite (d : swipe_direction) : swipe_direction :=
  match d with
  | SWIPE_DIRECTION_NONE => SWIPE_DIRECTION_NONE
  | SWIPE_DIRECTION_UP => SWIPE_DIRECTION_DOWN
  | SWIPE_DIRECTION_DOWN => SWIPE_DIRECTION_UP
  | SWIPE_DIRECTION_LEFT => SWIPE_DIRECTION_RIGHT
  | SWIPE_DIRECTION_RIGHT => SWIPE_DIRECTION_LEFT
  end.

(** A call of [touch_handler_register_lvgl_indev], and one that
    succeeded. *)
Definition is_register (c : call) : bool :=
  match c with touch_handler_register_lvgl_indev _ => true | _ => false end.

Definition is_registered (c : call) : bool :=
  match c with touch_handler_register_lvgl_indev ret => ret =? 0 | _ => false end.

Definition register_calls (cs : list call) : nat :=
  List.length (List.filter is_register cs).

Definition registrations (cs : list call) : nat :=
  List.length (List.filter is_registered cs).

(** [n] right swipes on the keyboard list: [n] calls of
    [ks_channel_increment]. *)
Definition increments (n : nat) (s : ui_state) : ui_state :=
  Nat.iter n (fun s => fst (ks_channel_increment s)) s.

End SwipeRun.

(** ** Layer dial: teardown and what a trace animates *)

Module LayerDial.
Import Layer.

(** [destroy_layer_slide_widgets] *)
Definition destroy_layer_slide_widgets (s : layer_state) : layer_state * list call :=
  let c := flat_map (fun i => when_obj (slide_label s i)
                                (fun o => [lv_anim_del o None; lv_obj_del o]))
                    (seq 0 SLIDE_VISIBLE_COUNT) in
  (set_layer_slide_window_start 0
     (set_layer_slide_labels (replicate SLIDE_VISIBLE_COUNT None) s), c).

(** The widgets on which a trace starts the pulse animation, and the
    number of animations of any kind it starts. *)
Definition pulse_target (c : call) : option obj :=
  match c with
  | lv_anim_start o layer_pulse_anim_cb _ _ _ => Some o
  | _ => None
  end.

Definition pulsed (cs : list call) : list obj := omap pulse_target cs.

Definition is_anim_start (c : call) : bool :=
  match c with lv_anim_start _ _ _ _ _ => true | _ => false end.

Definition animations (cs : list call) : nat :=
  List.length (List.filter is_anim_start cs).

(** The widgets deleted by a trace, in order. *)
Definition del_target (c : call) : option obj :=
  match c with lv_obj_del o => Some o | _ => None end.

Definition deleted (cs : list call) : list obj := omap del_target cs.

(** The hue, in degrees, that [get_slide_layer_color] gives to [layer]
    out of [max_layer]. *)
Definition hue_of (layer max_layer : Z) : Z :=
  let max_layer := if max_layer <=? 0 then 1 else max_layer in
  Z.rem (Z.quot (to_int (layer * 360)) max_layer) 360.

(** The three channels of a 24-bit colour. *)
Definition red (c : color) : Z := Z.shiftr c 16.
Definition green (c : color) : Z := Z.land (Z.shiftr c 8) 255.
Definition blue (c : color) : Z := Z.land c 255.

(** A pastel of full brightness: every channel at 153 (60 percent) or
    more, and the strongest at 255. *)
Definition is_pastel (c : color) : bool :=
  (153 <=? red c) && (153 <=? green c) && (153 <=? blue c)
  && (Z.max (red c) (Z.max (green c) (blue c)) =? 255).

End LayerDial.

(** ** Display settings: the custom slider drag handler *)

Module Slider.

(** [lv_event_code_t], as far as this file tells the codes apart. *)
Inductive lv_event_code :=
| LV_EVENT_PRESSED
| LV_EVENT_PRESSING
| LV_EVENT_RELEASED
| LV_EVENT_VALUE_CHANGED
| LV_EVENT_CLICKED
| LV_EVENT_SHORT_CLICKED
| LV_EVENT_OTHER.

(** The calls of the settings screen: those of [call], and the two
    made on a slider. *)
Inductive ds_call :=
| lvgl (c : call)
| lv_slider_set_value (o : obj) (v : Z)
| lv_obj_send_event (o : obj) (code : lv_event_code).

Definition SLIDER_SWIPE_THRESHOLD : Z := 30.

(** [slider_drag_state] with the globals the handler reads and writes. *)
Record drag_state := {
  active_slider : option obj;
  start_x : Z;
  start_y : Z;
  start_value : Z;
  current_value : Z;
  min_val : Z;
  max_val : Z;
  slider_width : Z;
  drag_cancelled : bool;
  ui_interaction_active : bool;
  ds_brightness_slider : option obj;
  ds_brightness_value : option obj;
  ds_layer_slider : option obj;
  ds_layer_value : option obj
}.

(** What LVGL and the drivers answer during one event: the active input
    device's point ([None] when [lv_indev_active] is NULL), the slider's
    value, range and width, the backlight device and the LED driver's
    return value. *)
Record drag_env := {
  indev_point : option (Z * Z);
  lv_slider_get_value : Z;
  lv_slider_get_min_value : Z;
  lv_slider_get_max_value : Z;
  lv_obj_get_width : Z;
  backlight_dev : option Backlight.device;
  led_ret : Z
}.

Definition is_obj (p : option obj) (o : obj) : bool :=
  match p with Some w => Nat.eqb w o | None => false end.

(** The value label to refresh while dragging [slider]: [label] when
    [slider == which && label], NULL otherwise. *)
Definition label_of (which label : option obj) (slider : obj) : option obj :=
  if is_obj which slider then label else None.

(** [(delta < 0) ? -delta : delta] on [int32_t]. *)
Definition abs32 (delta : Z) : Z := if delta <? 0 then to_int (- delta) else delta.

(** The [LV_EVENT_PRESSED] branch: record the start of a drag. *)
Definition drag_pressed (e : drag_env) (slider : obj) (px py : Z) (s : drag_state)
    : drag_state * list ds_call :=
  ({| active_slider := Some slider;
      start_x := px; start_y := py;
      start_value := lv_slider_get_value e;
      current_value := lv_slider_get_value e;
      min_val := lv_slider_get_min_value e;
      max_val := lv_slider_get_max_value e;
      slider_width := lv_obj_get_width e;
      drag_cancelled := false;
      ui_interaction_active := true;
      ds_brightness_slider := ds_brightness_slider s;
      ds_brightness_value := ds_brightness_value s;
      ds_layer_slider := ds_layer_slider s;
      ds_layer_value := ds_layer_value s |},
   [lvgl (LOG_DBG "Slider drag start")]).

Definition set_drag (active : option obj) (current : Z) (cancelled ui : bool)
    (s : drag_state) : drag_state :=
  {| active_slider := active;
     start_x := start_x s; start_y := start_y s;
     start_value := start_value s;
     current_value := current;
     min_val := min_val s; max_val := max_val s;
     slider_width := slider_width s;
     drag_cancelled := cancelled;
     ui_interaction_active := ui;
     ds_brightness_slider := ds_brightness_slider s;
     ds_brightness_value := ds_brightness_value s;
     ds_layer_slider := ds_layer_slider s;
     ds_layer_value := ds_layer_value s |}.

(** The slider value for a touch at [px]: the start value moved by the
    pixel distance scaled to the value range, clamped to the range.
    The C code divides by [slider_width] unguarded, which is undefined
    for a width of 0: this definition stands for the code where the
    width is not 0, and the properties that reach the division assume
    a positive width. *)
Definition drag_value (px : Z) (s : drag_state) : Z :=
  let delta_x := to_int (px - start_x s) in
  let drag_delta := delta_x in
  let value_range := to_int (max_val s - min_val s) in
  let value_delta := to_int (Z.quot (to_int (drag_delta * value_range)) (slider_width s)) in
  let new_value := to_int (start_value s + value_delta) in
  let new_value := if new_value <? min_val s then min_val s else new_value in
  if max_val s <? new_value then max_val s else new_value.

(** The [LV_EVENT_PRESSING] branch. *)
Definition drag_pressing (e : drag_env) (slider : obj) (px py : Z) (s : drag_state)
    : drag_state * list ds_call :=
  if negb (is_obj (active_slider s) slider) then (s, [])
  else if drag_cancelled s then (s, [])
  else
    let delta_x := to_int (px - start_x s) in
    let delta_y := to_int (py - start_y s) in
    let abs_delta_x := abs32 delta_x in
    let abs_delta_y := abs32 delta_y in
    if (SLIDER_SWIPE_THRESHOLD <? abs_delta_y)
       && (to_int (abs_delta_x * 2) <? abs_delta_y) then
      (set_drag (active_slider s) (start_value s) true false s,
       [lvgl (LOG_INF "Vertical swipe detected on slider - cancelling drag");
        lv_slider_set_value slider (start_value s)])
    else
      let new_value := drag_value px s in
      let s := set_drag (active_slider s) new_value (drag_cancelled s)
                 (ui_interaction_active s) s in
      (s,
       lv_slider_set_value slider new_value ::
       match label_of (ds_brightness_slider s) (ds_brightness_value s) slider with
       | Some label =>
           lvgl (lv_label_set_text label (fmt_d new_value +++ "%")) ::
           map lvgl (Backlight.set_pwm_brightness (backlight_dev e) (led_ret e)
                       (to_uint8 new_value))
       | None =>
           match label_of (ds_layer_slider s) (ds_layer_value s) slider with
           | Some label => [lvgl (lv_label_set_text label (fmt_d new_value))]
           | None => []
           end
       end).

(** The [LV_EVENT_RELEASED] branch. *)
Definition drag_released (slider : obj) (s : drag_state) : drag_state * list ds_call :=
  if is_obj (active_slider s) slider then
    let was_cancelled := drag_cancelled s in
    (set_drag None (current_value s) false false s,
     lv_slider_set_value slider (current_value s) ::
     (if negb was_cancelled then
        [lv_obj_send_event slider LV_EVENT_VALUE_CHANGED;
         lvgl (LOG_INF ("Slider drag end: final_value=" +++ fmt_d (current_value s)))]
      else [lvgl (LOG_DBG "Slider drag cancelled (swipe)")]))
  else (set_drag None (current_value s) false false s, []).

(** [ds_custom_slider_drag_cb] *)
Definition ds_custom_slider_drag_cb (e : drag_env) (code : lv_event_code)
    (slider : obj) (s : drag_state) : drag_state * list ds_call :=
  match indev_point e with
  | None => (s, [])
  | Some (px, py) =>
      match code with
      | LV_EVENT_PRESSED => drag_pressed e slider px py s
      | LV_EVENT_PRESSING => drag_pressing e slider px py s
      | LV_EVENT_RELEASED => drag_released slider s
      | _ => (s, [])
      end
  end.

(** A sequence of events on one slider, each with what LVGL answers. *)
Fixpoint drag_run (evs : list (drag_env * lv_event_code)) (slider : obj)
    (s : drag_state) : drag_state * list ds_call :=
  match evs with
  | [] => (s, [])
  | (e, code) :: evs =>
      let '(s1, c1) := ds_custom_slider_drag_cb e code slider s in
      let '(s2, c2) := drag_run evs slider s1 in
      (s2, c1 ++ c2)
  end.

(** The values a trace gives to slider [o], the duties it hands to the
    LED driver, and whether it sends [LV_EVENT_VALUE_CHANGED]. *)
Definition slider_value_set (o : obj) (c : ds_call) : option Z :=
  match c with
  | lv_slider_set_value o' v => if Nat.eqb o' o then Some v else None
  | _ => None
  end.

Definition slider_values (o : obj) (cs : list ds_call) : list Z :=
  omap (slider_value_set o) cs.

Definition lvgl_call (c : ds_call) : option call :=
  match c with lvgl c => Some c | _ => None end.

Definition duties (cs : list ds_call) : list Z :=
  Backlight.driver_values (omap lvgl_call cs).

Definition is_value_changed (c : ds_call) : bool :=
  match c with lv_obj_send_event _ LV_EVENT_VALUE_CHANGED => true | _ => false end.

Definition value_changed_sent (cs : list ds_call) : nat :=
  List.length (List.filter is_value_changed cs).

End Slider.

(** The brightness slider (widget 40, value label 41) held at 65
    percent, pressed at (100, 60); its track is 200 pixels wide. *)
Definition dragging : Slider.drag_state :=
  {| Slider.active_slider := Some 40%nat;
     Slider.start_x := 100; Slider.start_y := 60;
     Slider.start_value := 65; Slider.current_value := 65;
     Slider.min_val := 0; Slider.max_val := 100;
     Slider.slider_width := 200;
     Slider.drag_cancelled := false;
     Slider.ui_interaction_active := true;
     Slider.ds_brightness_slider := Some 40%nat;
     Slider.ds_brightness_value := Some 41%nat;
     Slider.ds_layer_slider := Some 42%nat;
     Slider.ds_layer_value := Some 43%nat |}.

(** A touch at [(px, py)] on that slider, with a ready backlight. *)
Definition touch_at (px py : Z) : Slider.drag_env :=
  {| Slider.indev_point := Some (px, py);
     Slider.lv_slider_get_value := 65;
     Slider.lv_slider_get_min_value := 0;
     Slider.lv_slider_get_max_value := 100;
     Slider.lv_obj_get_width := 200;
     Slider.backlight_dev := Some {| Backlight.device_is_ready := true |};
     Slider.led_ret := 0 |}.

(** ** Device name, scanner battery, WPM, connection and modifiers *)

Module Status.

(** Modifier flags (from [status_advertisement.h], repeated in this
    file). *)
Definition ZMK_MOD_FLAG_LCTL : Z := Z.shiftl 1 0.
Definition ZMK_MOD_FLAG_LSFT : Z := Z.shiftl 1 1.
Definition ZMK_MOD_FLAG_LALT : Z := Z.shiftl 1 2.
Definition ZMK_MOD_FLAG_LGUI : Z := Z.shiftl 1 3.
Definition ZMK_MOD_FLAG_RCTL : Z := Z.shiftl 1 4.
Definition ZMK_MOD_FLAG_RSFT : Z := Z.shiftl 1 5.
Definition ZMK_MOD_FLAG_RALT : Z := Z.shiftl 1 6.
Definition ZMK_MOD_FLAG_RGUI : Z := Z.shiftl 1 7.

(** A string from its bytes. *)
Definition bytes (l : list nat) : string :=
  fold_right (fun b s => String (ascii_of_nat b) s) "" l.

(** [mod_symbols]: Control, Shift, Alt, GUI (NerdFont glyphs in UTF-8). *)
Definition mod_symbols : list string :=
  [ bytes [243; 176; 152; 180]%nat; bytes [243; 176; 152; 182]%nat;
    bytes [243; 176; 152; 181]%nat; bytes [243; 176; 152; 179]%nat ].

(** LVGL's symbol strings. *)
Definition LV_SYMBOL_CHARGE : string := bytes [239; 131; 167]%nat.
Definition LV_SYMBOL_BATTERY_FULL : string := bytes [239; 137; 128]%nat.
Definition LV_SYMBOL_BATTERY_3 : string := bytes [239; 137; 129]%nat.
Definition LV_SYMBOL_BATTERY_2 : string := bytes [239; 137; 130]%nat.
Definition LV_SYMBOL_BATTERY_1 : string := bytes [239; 137; 131]%nat.
Definition LV_SYMBOL_BATTERY_EMPTY : string := bytes [239; 137; 132]%nat.

Definition get_scanner_battery_color (level : Z) : color :=
  if 80 <=? level then lv_color_hex 65280
  else if 60 <=? level then lv_color_hex 8388352
  else if 40 <=? level then lv_color_hex 16776960
  else if 20 <=? level then lv_color_hex 16744192
  else lv_color_hex 16711680.

Definition get_battery_icon (level : Z) : string :=
  if 80 <=? level then LV_SYMBOL_BATTERY_FULL
  else if 60 <=? level then LV_SYMBOL_BATTERY_3
  else if 40 <=? level then LV_SYMBOL_BATTERY_2
  else if 20 <=? level then LV_SYMBOL_BATTERY_1
  else LV_SYMBOL_BATTERY_EMPTY.

(** The cached values and the widgets of the status rows. *)
Record status_state := {
  cached_device_name : string;
  scanner_battery : Z;
  wpm_value : Z;
  ble_profile : Z;
  usb_ready : bool;
  ble_connected : bool;
  ble_bonded : bool;
  cached_modifiers : Z;
  ds_battery_visible : bool;
  device_name_label : option obj;
  scanner_bat_icon : option obj;
  scanner_bat_pct : option obj;
  wpm_value_label : option obj;
  transport_label : option obj;
  ble_profile_label : option obj;
  modifier_label : option obj
}.

Definition set_cached_device_name (v : string) (s : status_state) : status_state :=
  {| cached_device_name := v; scanner_battery := scanner_battery s;
     wpm_value := wpm_value s; ble_profile := ble_profile s;
     usb_ready := usb_ready s; ble_connected := ble_connected s;
     ble_bonded := ble_bonded s; cached_modifiers := cached_modifiers s;
     ds_battery_visible := ds_battery_visible s;
     device_name_label := device_name_label s;
     scanner_bat_icon := scanner_bat_icon s;
     scanner_bat_pct := scanner_bat_pct s;
     wpm_value_label := wpm_value_label s;
     transport_label := transport_label s;
     ble_profile_label := ble_profile_label s;
     modifier_label := modifier_label s |}.

Definition set_scanner_battery (v : Z) (s : status_state) : status_state :=
  {| cached_device_name := cached_device_name s; scanner_battery := v;
     wpm_value := wpm_value s; ble_profile := ble_profile s;
     usb_ready := usb_ready s; ble_connected := ble_connected s;
     ble_bonded := ble_bonded s; cached_modifiers := cached_modifiers s;
     ds_battery_visible := ds_battery_visible s;
     device_name_label := device_name_label s;
     scanner_bat_icon := scanner_bat_icon s;
     scanner_bat_pct := scanner_bat_pct s;
     wpm_value_label := wpm_value_label s;
     transport_label := transport_label s;
     ble_profile_label := ble_profile_label s;
     modifier_label := modifier_label s |}.

Definition set_wpm_value (v : Z) (s : status_state) : status_state :=
  {| cached_device_name := cached_device_name s;
     scanner_battery := scanner_battery s; wpm_value := v;
     ble_profile := ble_profile s; usb_ready := usb_ready s;
     ble_connected := ble_connected s; ble_bonded := ble_bonded s;
     cached_modifiers := cached_modifiers s;
     ds_battery_visible := ds_battery_visible s;
     device_name_label := device_name_label s;
     scanner_bat_icon := scanner_bat_icon s;
     scanner_bat_pct := scanner_bat_pct s;
     wpm_value_label := wpm_value_label s;
     transport_label := transport_label s;
     ble_profile_label := ble_profile_label s;
     modifier_label := modifier_label s |}.

Definition set_cached_modifiers (v : Z) (s : status_state) : status_state :=
  {| cached_device_name := cached_device_name s;
     scanner_battery := scanner_battery s; wpm_value := wpm_value s;
     ble_profile := ble_profile s; usb_ready := usb_ready s;
     ble_connected := ble_connected s; ble_bonded := ble_bonded s;
     cached_modifiers := v; ds_battery_visible := ds_battery_visible s;
     device_name_label := device_name_label s;
     scanner_bat_icon := scanner_bat_icon s;
     scanner_bat_pct := scanner_bat_pct s;
     wpm_value_label := wpm_value_label s;
     transport_label := transport_label s;
     ble_profile_label := ble_profile_label s;
     modifier_label := modifier_label s |}.

Definition set_connection (usb_rdy ble_conn ble_bond : bool) (profile : Z)
    (s : status_state) : status_state :=
  {| cached_device_name := cached_device_name s;
     scanner_battery := scanner_battery s; wpm_value := wpm_value s;
     ble_profile := profile; usb_ready := usb_rdy;
     ble_connected := ble_conn; ble_bonded := ble_bond;
     cached_modifiers := cached_modifiers s;
     ds_battery_visible := ds_battery_visible s;
     device_name_label := device_name_label s;
     scanner_bat_icon := scanner_bat_icon s;
     scanner_bat_pct := scanner_bat_pct s;
     wpm_value_label := wpm_value_label s;
     transport_label := transport_label s;
     ble_profile_label := ble_profile_label s;
     modifier_label := modifier_label s |}.

(** [display_update_device_name]; [name] is [None] for a NULL pointer.
    The cache is a buffer of 32 bytes. *)
Definition display_update_device_name (name : option string) (s : status_state)
    : status_state * list call :=
  match name with
  | None => (s, [])
  | Some n =>
      (set_cached_device_name (substring 0 31 n) s,
       when_obj (device_name_label s) (fun o => [lv_label_set_text o n]))
  end.

(** [display_update_scanner_battery]; [is_charging] is what
    [zmk_usb_is_powered] answers (false in a build without the USB
    device stack). *)
Definition display_update_scanner_battery (is_charging : bool) (level : Z)
    (s : status_state) : status_state * list call :=
  let s := set_scanner_battery level s in
  if negb (ds_battery_visible s) then
    (s, when_obj (scanner_bat_icon s) (fun o => [lv_obj_set_style_opa o 0 0])
        ++ when_obj (scanner_bat_pct s) (fun o => [lv_obj_set_style_opa o 0 0]))
  else
    let display_color := if is_charging then lv_color_hex 32767
                         else get_scanner_battery_color level in
    (s,
     when_obj (scanner_bat_icon s) (fun o =>
       lv_obj_set_style_opa o 255 0 ::
       (if is_charging then
          [lv_label_set_text o
             (snprintf 16 (LV_SYMBOL_CHARGE +++ get_battery_icon level));
           lv_obj_set_pos o 213 4]
        else
          [lv_label_set_text o (get_battery_icon level);
           lv_obj_set_pos o 216 4])
       ++ [lv_obj_set_style_text_color o display_color 0])
     ++ when_obj (scanner_bat_pct s) (fun o =>
       [lv_obj_set_style_opa o 255 0;
        lv_label_set_text o (snprintf 8 (fmt_d level));
        lv_obj_set_style_text_color o display_color 0])).

(** [display_update_wpm] *)
Definition display_update_wpm (wpm : Z) (s : status_state) : status_state * list call :=
  let s := set_wpm_value wpm s in
  (s, when_obj (wpm_value_label s) (fun o =>
        [lv_label_set_text o (snprintf 8 (fmt_d wpm))])).

Definition newline : string := String (ascii_of_nat 10) "".

(** [display_update_connection] *)
Definition display_update_connection (usb_rdy ble_conn ble_bond : bool) (profile : Z)
    (s : status_state) : status_state * list call :=
  let s := set_connection usb_rdy ble_conn ble_bond profile s in
  (s,
   when_obj (transport_label s) (fun o =>
     if usb_ready s then [lv_label_set_text o "#ffffff USB#"]
     else
       let ble_color := if ble_conn then "00ff00"
                        else if ble_bond then "4A90E2"
                        else "ffffff" in
       [lv_label_set_text o
          (snprintf 32 ("#" +++ ble_color +++ " BLE#" +++ newline
                        +++ "#ffffff " +++ fmt_d profile +++ "#"))])
   ++ when_obj (ble_profile_label s) (fun o => [lv_label_set_text o ""])).

(** One [if (mods & mask) pos += snprintf(mod_text + pos, sizeof(mod_text)
    - pos, "%s", mod_symbols[i])] of [display_update_modifiers]; the
    buffer has 64 bytes, the write starts at offset [pos] and [snprintf]
    returns the length of the symbol. *)
Definition append_symbol (mods mask : Z) (i : nat) (st : string * Z) : string * Z :=
  let '(mod_text, pos) := st in
  if negb (Z.land mods mask =? 0) then
    let sym := default "" (mod_symbols !! i) in
    (substring 0 (Z.to_nat pos) mod_text +++ snprintf (64 - Z.to_nat pos) sym,
     to_int (pos + Z.of_nat (String.length sym)))
  else st.

(** The text built by [display_update_modifiers]. *)
Definition mod_text (mods : Z) : string :=
  let st := ("", 0) in
  let st := append_symbol mods (Z.lor ZMK_MOD_FLAG_LCTL ZMK_MOD_FLAG_RCTL) 0 st in
  let st := append_symbol mods (Z.lor ZMK_MOD_FLAG_LSFT ZMK_MOD_FLAG_RSFT) 1 st in
  let st := append_symbol mods (Z.lor ZMK_MOD_FLAG_LALT ZMK_MOD_FLAG_RALT) 2 st in
  let st := append_symbol mods (Z.lor ZMK_MOD_FLAG_LGUI ZMK_MOD_FLAG_RGUI) 3 st in
  fst st.

(** [display_update_modifiers] *)
Definition display_update_modifiers (mods : Z) (s : status_state)
    : status_state * list call :=
  let s := set_cached_modifiers mods s in
  (s, when_obj (modifier_label s) (fun o => [lv_label_set_text o (mod_text mods)])).

(** Whether modifier kind [k] (0 Control, 1 Shift, 2 Alt, 3 GUI) is held
    in [mods], on the left (bit [k]) or on the right (bit [k + 4]). *)
Definition held (mods : Z) (k : Z) : bool := Z.testbit mods k || Z.testbit mods (k + 4).

(** The symbol of kind [k] when it is held, nothing otherwise. *)
Definition symbol_if_held (mods : Z) (k : nat) : string :=
  if held mods (Z.of_nat k) then default "" (mod_symbols !! k) else "".

(** The modifier text is one symbol for each kind held, in the order
    Control, Shift, Alt, GUI. *)
Definition mod_text_by_kind (mods : Z) : bool :=
  String.eqb (mod_text mods)
    (symbol_if_held mods 0 +++ symbol_if_held mods 1
     +++ symbol_if_held mods 2 +++ symbol_if_held mods 3).

End Status.

(** The status rows of the main screen before any update. *)
Definition status_widgets : Status.status_state :=
  {| Status.cached_device_name := "Scanning..."; Status.scanner_battery := 0;
     Status.wpm_value := 0; Status.ble_profile := 0; Status.usb_ready := false;
     Status.ble_connected := false; Status.ble_bonded := false;
     Status.cached_modifiers := 0; Status.ds_battery_visible := true;
     Status.device_name_label := Some 1%nat; Status.scanner_bat_icon := Some 2%nat;
     Status.scanner_bat_pct := Some 3%nat; Status.wpm_value_label := Some 4%nat;
     Status.transport_label := Some 5%nat; Status.ble_profile_label := Some 6%nat;
     Status.modifier_label := Some 7%nat |}.

(** Battery widgets all absent: the state of the battery display on any
    screen but Main. *)
Definition battery_off_screen : Battery.battery_state :=
  {| Battery.battery_values := [80; 75; 0; 0];
     Battery.active_battery_count := 2;
     Battery.kb_bat_bar := replicate 4 None;
     Battery.kb_bat_pct := replicate 4 None;
     Battery.kb_bat_name := replicate 4 None;
     Battery.kb_bat_nc_bar := replicate 4 None;
     Battery.kb_bat_nc_label := replicate 4 None |}.

(** ** Display settings: the value-changed handlers of the two sliders
    and of the battery switch *)

Module Settings.
Import Slider.

(** The drag state with the settings the handlers store. *)
Record settings_state := {
  drag : drag_state;
  ds_manual_brightness : Z;
  ds_auto_brightness_enabled : bool;
  ds_max_layers : Z
}.

Definition set_ds_manual_brightness (v : Z) (s : settings_state) : settings_state :=
  {| drag := drag s; ds_manual_brightness := v;
     ds_auto_brightness_enabled := ds_auto_brightness_enabled s;
     ds_max_layers := ds_max_layers s |}.

Definition set_ds_max_layers (v : Z) (s : settings_state) : settings_state :=
  {| drag := drag s; ds_manual_brightness := ds_manual_brightness s;
     ds_auto_brightness_enabled := ds_auto_brightness_enabled s;
     ds_max_layers := v |}.

Definition set_settings_drag (d : drag_state) (s : settings_state) : settings_state :=
  {| drag := d; ds_manual_brightness := ds_manual_brightness s;
     ds_auto_brightness_enabled := ds_auto_brightness_enabled s;
     ds_max_layers := ds_max_layers s |}.

Definition when_label (p : option obj) (f : obj -> list ds_call) : list ds_call :=
  match p with Some o => f o | None => [] end.

(** [ds_brightness_slider_event_cb] *)
Definition ds_brightness_slider_event_cb (e : drag_env) (code : lv_event_code)
    (slider : obj) (s : settings_state) : settings_state * list ds_call :=
  match code with
  | LV_EVENT_VALUE_CHANGED =>
      if is_obj (active_slider (drag s)) slider then
        (s, [lvgl (LOG_DBG "Ignoring spurious VALUE_CHANGED during drag")])
      else
        let value := lv_slider_get_value e in
        let s := set_ds_manual_brightness (to_uint8 value) s in
        (s,
         when_label (ds_brightness_value (drag s)) (fun o =>
           [lvgl (lv_label_set_text o (snprintf 8 (fmt_d value +++ "%")))])
         ++ (if negb (ds_auto_brightness_enabled s) then
               map lvgl (Backlight.set_pwm_brightness (backlight_dev e) (led_ret e)
                           (to_uint8 value))
             else [])
         ++ [lvgl (LOG_INF ("Brightness changed to " +++ fmt_d value +++ "%"))])
  | _ => (s, [])
  end.

(** [ds_layer_slider_event_cb] *)
Definition ds_layer_slider_event_cb (e : drag_env) (code : lv_event_code)
    (slider : obj) (s : settings_state) : settings_state * list ds_call :=
  match code with
  | LV_EVENT_VALUE_CHANGED =>
      if is_obj (active_slider (drag s)) slider then
        (s, [lvgl (LOG_DBG "Ignoring spurious VALUE_CHANGED during drag")])
      else
        let value := lv_slider_get_value e in
        let s := set_ds_max_layers (to_uint8 value) s in
        (s,
         when_label (ds_layer_value (drag s)) (fun o =>
           [lvgl (lv_label_set_text o (snprintf 8 (fmt_d value)))])
         ++ [lvgl (LOG_DBG ("Max layers: " +++ fmt_d value))])
  | _ => (s, [])
  end.

(** The drag handler on the settings: it touches the drag state only. *)
Definition drag_event (e : drag_env) (code : lv_event_code) (slider : obj)
    (s : settings_state) : settings_state * list ds_call :=
  let '(d, c) := ds_custom_slider_drag_cb e code slider (drag s) in
  (set_settings_drag d s, c).

(** The text a trace leaves on label [o]. *)
Definition label_text (o : obj) (cs : list ds_call) : option string :=
  rendered_text o (omap lvgl_call cs).

End Settings.

(** The settings as first built, with the brightness slider of
    [dragging] being dragged. *)
Definition settings_dragging : Settings.settings_state :=
  {| Settings.drag := dragging; Settings.ds_manual_brightness := 65;
     Settings.ds_auto_brightness_enabled := false;
     Settings.ds_max_layers := 7 |}.

(** ** Display settings: the scanner battery switch *)

Module BatterySwitch.
Import Status.

Definition set_ds_battery_visible (v : bool) (s : status_state) : status_state :=
  {| cached_device_name := cached_device_name s;
     scanner_battery := scanner_battery s; wpm_value := wpm_value s;
     ble_profile := ble_profile s; usb_ready := usb_ready s;
     ble_connected := ble_connected s; ble_bonded := ble_bonded s;
     cached_modifiers := cached_modifiers s; ds_battery_visible := v;
     device_name_label := device_name_label s;
     scanner_bat_icon := scanner_bat_icon s;
     scanner_bat_pct := scanner_bat_pct s;
     wpm_value_label := wpm_value_label s;
     transport_label := transport_label s;
     ble_profile_label := ble_profile_label s;
     modifier_label := modifier_label s |}.

(** [ds_battery_switch_event_cb]; [checked] is what
    [lv_obj_has_state(sw, LV_STATE_CHECKED)] answers and [is_charging]
    what [zmk_usb_is_powered] answers. *)
Definition ds_battery_switch_event_cb (code : Slider.lv_event_code)
    (checked is_charging : bool) (s : status_state) : status_state * list call :=
  match code with
  | Slider.LV_EVENT_VALUE_CHANGED =>
      let s := set_ds_battery_visible checked s in
      let '(s', c) := display_update_scanner_battery is_charging (scanner_battery s) s in
      (s', LOG_INF ("Scanner battery widget: "
                    +++ (if checked then "visible" else "hidden")) :: c)
  | _ => (s, [])
  end.

End BatterySwitch.

(** ** Battery bars: what a trace gives to a slot *)

Module BatteryLayout.
Import Battery.






End BatteryLayout.

(** The scanner battery row across a visit to the settings screen: the
    main screen's teardown deletes its two labels, the rebuild creates
    them again. *)
Module BatteryRow.
Import Status BatterySwitch.

Definition set_scanner_widgets (icon pct : option obj) (s : status_state)
    : status_state :=
  {| cached_device_name := cached_device_name s;
     scanner_battery := scanner_battery s; wpm_value := wpm_value s;
     ble_profile := ble_profile s; usb_ready := usb_ready s;
     ble_connected := ble_connected s; ble_bonded := ble_bonded s;
     cached_modifiers := cached_modifiers s;
     ds_battery_visible := ds_battery_visible s;
     device_name_label := device_name_label s;
     scanner_bat_icon := icon;
     scanner_bat_pct := pct;
     wpm_value_label := wpm_value_label s;
     transport_label := transport_label s;
     ble_profile_label := ble_profile_label s;
     modifier_label := modifier_label s |}.

(** The two lines of [destroy_main_screen_widgets] on the scanner
    battery row. *)
Definition destroy_scanner_battery (s : status_state) : status_state * list call :=
  (set_scanner_widgets None None s,
   when_obj (scanner_bat_pct s) (fun o => [lv_obj_del o])
   ++ when_obj (scanner_bat_icon s) (fun o => [lv_obj_del o])).

Inductive lv_font := lv_font_montserrat_12 | lv_font_unscii_8.

(** The calls that build the row: those of [call], and the font. *)
Inductive build_call :=
| built (c : call)
| lv_obj_set_style_text_font (o : obj) (font : lv_font) (sel : Z).

(** The block of [create_main_screen_widgets] that builds the scanner
    battery row on [screen_obj] (the function returns at once without
    one); [icon] and [pct] are the labels that [lv_label_create]
    returns (the code uses them unchecked). *)
Definition create_scanner_battery (screen_obj icon pct : obj) (s : status_state)
    : status_state * list build_call :=
  let s := set_scanner_widgets (Some icon) (Some pct) s in
  (s,
   [built (lv_label_create (Some screen_obj) (Some icon));
    lv_obj_set_style_text_font icon lv_font_montserrat_12 0;
    built (lv_obj_set_pos icon 216 4);
    built (lv_label_set_text icon LV_SYMBOL_BATTERY_3);
    built (lv_obj_set_style_text_color icon (lv_color_hex 8388352) 0);
    built (lv_label_create (Some screen_obj) (Some pct));
    lv_obj_set_style_text_font pct lv_font_unscii_8 0;
    built (lv_obj_set_pos pct 238 7);
    built (lv_label_set_text pct "?");
    built (lv_obj_set_style_text_color pct (lv_color_hex 8388352) 0)]
   ++ (if negb (ds_battery_visible s)
       then [built (lv_obj_set_style_opa icon 0 0);
             built (lv_obj_set_style_opa pct 0 0)]
       else [])).

End BatteryRow.

(** ** The brightness engine: the call sites of [set_pwm_brightness]

    The functions of this file that set the brightness, one level above
    the LED driver: here a call of [set_pwm_brightness] is one call,
    with its argument, and [lower] runs the adapter on it. *)

Module BacklightEngine.
Import Slider Settings.

(** [lv_state_t], as far as these functions use it. *)
Inductive lv_state := LV_STATE_CHECKED | LV_STATE_DISABLED.

Definition LV_OPA_50 : Z := 127.
Definition AUTO_BRIGHTNESS_INTERVAL_MS : Z := 1000.

Inductive engine_call :=
| call_set_pwm_brightness (brightness : Z)
| brightness_control_set_auto (enabled : bool)
| lv_obj_add_state (o : obj) (state : lv_state)
| lv_obj_clear_state (o : obj) (state : lv_state)
| ui (c : ds_call).

(** What the brightness control module answers during one call:
    whether the light sensor is there, the return value of
    [brightness_control_read_sensor] with the light value it writes,
    and [brightness_control_map_light_to_brightness]. *)
Record sensor_env := {
  brightness_control_sensor_available : bool;
  brightness_control_read_sensor : Z * Z;
  brightness_control_map_light_to_brightness : Z -> Z
}.

(** The settings with the timer of the automatic brightness. *)
Record engine_state := {
  settings : settings_state;
  auto_brightness_timer : option timer
}.

Definition set_auto_brightness_timer (t : option timer) (s : engine_state)
    : engine_state :=
  {| settings := settings s; auto_brightness_timer := t |}.

Definition set_ds_auto_brightness_enabled (v : bool) (s : engine_state) : engine_state :=
  {| settings :=
       {| drag := drag (settings s);
          ds_manual_brightness := ds_manual_brightness (settings s);
          ds_auto_brightness_enabled := v;
          ds_max_layers := ds_max_layers (settings s) |};
     auto_brightness_timer := auto_brightness_timer s |}.

Definition log_inf (msg : string) : engine_call := ui (lvgl (LOG_INF msg)).
Definition log_dbg (msg : string) : engine_call := ui (lvgl (LOG_DBG msg)).

(** The timeout block of [pending_update_timer_cb], reached when all
    keyboards have timed out.  [cfg] is
    [CONFIG_PROSPECTOR_SCANNER_TIMEOUT_BRIGHTNESS], [None] when it is
    not defined. *)
Definition timeout_brightness (cfg : option Z) : list engine_call :=
  match cfg with
  | Some v =>
      if 0 <? v then
        [call_set_pwm_brightness (to_uint8 v);
         log_inf ("Timeout brightness set to " +++ fmt_d v +++ "%")]
      else []
  | None => []
  end.

(** The restore block of [pending_update_timer_cb], reached when the
    keyboard has changed.  [cfg] is [CONFIG_PROSPECTOR_FIXED_BRIGHTNESS],
    [None] when it is not defined. *)
Definition fixed_brightness (cfg : option Z) : list engine_call :=
  match cfg with
  | Some v =>
      [call_set_pwm_brightness (to_uint8 v);
       log_inf ("Brightness restored to " +++ fmt_d v +++ "%")]
  | None => []
  end.

(** The [LV_EVENT_PRESSING] branch of [ds_custom_slider_drag_cb]. *)
Definition drag_pressing (slider : obj) (px py : Z) (s : drag_state)
    : drag_state * list engine_call :=
  if negb (is_obj (active_slider s) slider) then (s, [])
  else if drag_cancelled s then (s, [])
  else
    let delta_x := to_int (px - start_x s) in
    let delta_y := to_int (py - start_y s) in
    let abs_delta_x := abs32 delta_x in
    let abs_delta_y := abs32 delta_y in
    if (SLIDER_SWIPE_THRESHOLD <? abs_delta_y)
       && (to_int (abs_delta_x * 2) <? abs_delta_y) then
      (set_drag (active_slider s) (start_value s) true false s,
       [log_inf "Vertical swipe detected on slider - cancelling drag";
        ui (lv_slider_set_value slider (start_value s))])
    else
      let new_value := drag_value px s in
      let s := set_drag (active_slider s) new_value (drag_cancelled s)
                 (ui_interaction_active s) s in
      (s,
       ui (lv_slider_set_value slider new_value) ::
       match label_of (ds_brightness_slider s) (ds_brightness_value s) slider with
       | Some label =>
           [ui (lvgl (lv_label_set_text label (fmt_d new_value +++ "%")));
            call_set_pwm_brightness (to_uint8 new_value)]
       | None =>
           match label_of (ds_layer_slider s) (ds_layer_value s) slider with
           | Some label => [ui (lvgl (lv_label_set_text label (fmt_d new_value)))]
           | None => []
           end
       end).

(** [ds_custom_slider_drag_cb]; the press and the release set no
    brightness. *)
Definition ds_custom_slider_drag_cb (e : drag_env) (code : lv_event_code)
    (slider : obj) (s : drag_state) : drag_state * list engine_call :=
  match indev_point e with
  | None => (s, [])
  | Some (px, py) =>
      match code with
      | LV_EVENT_PRESSED =>
          let '(s, c) := drag_pressed e slider px py s in (s, map ui c)
      | LV_EVENT_PRESSING => drag_pressing slider px py s
      | LV_EVENT_RELEASED =>
          let '(s, c) := drag_released slider s in (s, map ui c)
      | _ => (s, [])
      end
  end.

(** [auto_brightness_timer_cb] *)
Definition auto_brightness_timer_cb (env : sensor_env) (s : engine_state)
    : list engine_call :=
  if negb (ds_auto_brightness_enabled (settings s))
     || negb (brightness_control_sensor_available env) then []
  else
    let '(ret, light) := brightness_control_read_sensor env in
    let light_val := to_uint16 light in
    if negb (ret =? 0) then
      [log_dbg ("Auto brightness: sensor read failed (" +++ fmt_d ret +++ ")")]
    else
      let target_brightness :=
        to_uint8 (brightness_control_map_light_to_brightness env light_val) in
      [call_set_pwm_brightness target_brightness;
       log_dbg ("Auto brightness: light=" +++ fmt_d light_val +++ " -> brightness="
                +++ fmt_d target_brightness +++ "%")].

(** [ds_auto_switch_event_cb]; [checked] is what
    [lv_obj_has_state(sw, LV_STATE_CHECKED)] answers and [new_timer]
    what [lv_timer_create] would return. *)
Definition ds_auto_switch_event_cb (env : sensor_env) (code : lv_event_code)
    (checked : bool) (new_timer : option timer) (s : engine_state)
    : engine_state * list engine_call :=
  match code with
  | LV_EVENT_VALUE_CHANGED =>
      let s := set_ds_auto_brightness_enabled checked s in
      let c_auto := [brightness_control_set_auto checked] in
      let '(s, c_timer) :=
        if checked && brightness_control_sensor_available env then
          let '(s, c_start) :=
            match auto_brightness_timer s with
            | None =>
                (set_auto_brightness_timer new_timer s,
                 [ui (lvgl (lv_timer_create AUTO_BRIGHTNESS_INTERVAL_MS new_timer));
                  log_inf ("Auto brightness timer started ("
                           +++ fmt_d AUTO_BRIGHTNESS_INTERVAL_MS +++ " ms interval)")])
            | Some _ => (s, [])
            end in
          (s, c_start ++ auto_brightness_timer_cb env s)
        else
          match auto_brightness_timer s with
          | Some t =>
              (set_auto_brightness_timer None s,
               [ui (lvgl (lv_timer_del t)); log_inf "Auto brightness timer stopped"])
          | None => (s, [])
          end in
      let c_slider :=
        match ds_brightness_slider (drag (settings s)) with
        | Some slider =>
            if checked then
              [lv_obj_add_state slider LV_STATE_DISABLED;
               ui (lvgl (lv_obj_set_style_opa slider LV_OPA_50 0))]
            else
              [lv_obj_clear_state slider LV_STATE_DISABLED;
               ui (lvgl (lv_obj_set_style_opa slider LV_OPA_COVER 0));
               call_set_pwm_brightness (to_uint8 (ds_manual_brightness (settings s)))]
        | None => []
        end in
      (s, c_auto ++ c_timer ++ c_slider
          ++ [log_inf ("Auto brightness: " +++ (if checked then "ON" else "OFF")
                       +++ " (sensor: "
                       +++ (if brightness_control_sensor_available env
                            then "available" else "unavailable") +++ ")")])
  | _ => (s, [])
  end.

(** [ds_brightness_slider_event_cb] *)
Definition ds_brightness_slider_event_cb (e : drag_env) (code : lv_event_code)
    (slider : obj) (s : settings_state) : settings_state * list engine_call :=
  match code with
  | LV_EVENT_VALUE_CHANGED =>
      if is_obj (active_slider (drag s)) slider then
        (s, [log_dbg "Ignoring spurious VALUE_CHANGED during drag"])
      else
        let value := lv_slider_get_value e in
        let s := set_ds_manual_brightness (to_uint8 value) s in
        (s,
         match ds_brightness_value (drag s) with
         | Some o => [ui (lvgl (lv_label_set_text o (snprintf 8 (fmt_d value +++ "%"))))]
         | None => []
         end
         ++ (if negb (ds_auto_brightness_enabled s)
             then [call_set_pwm_brightness (to_uint8 value)] else [])
         ++ [log_inf ("Brightness changed to " +++ fmt_d value +++ "%")])
  | _ => (s, [])
  end.

(** The six places that call [set_pwm_brightness], each with what it
    reads. *)
Inductive site :=
| timeout_brightness_site (cfg : option Z)
| fixed_brightness_site (cfg : option Z)
| slider_drag_site (e : drag_env) (code : lv_event_code) (slider : obj)
    (s : drag_state)
| auto_timer_site (env : sensor_env) (s : engine_state)
| auto_switch_site (env : sensor_env) (code : lv_event_code) (checked : bool)
    (new_timer : option timer) (s : engine_state)
| slider_changed_site (e : drag_env) (code : lv_event_code) (slider : obj)
    (s : settings_state).

Definition site_calls (x : site) : list engine_call :=
  match x with
  | timeout_brightness_site cfg => timeout_brightness cfg
  | fixed_brightness_site cfg => fixed_brightness cfg
  | slider_drag_site e code slider s => snd (ds_custom_slider_drag_cb e code slider s)
  | auto_timer_site env s => auto_brightness_timer_cb env s
  | auto_switch_site env code checked new_timer s =>
      snd (ds_auto_switch_event_cb env code checked new_timer s)
  | slider_changed_site e code slider s =>
      snd (ds_brightness_slider_event_cb e code slider s)
  end.

(** The drag divides by [slider_width], unguarded: a site is taken
    where that width is positive. *)
Definition divides_safely (x : site) : Prop :=
  match x with
  | slider_drag_site _ LV_EVENT_PRESSING _ s => 0 < slider_width s
  | _ => True
  end.

(** Running the adapter: a call of [set_pwm_brightness] becomes the
    calls that [Backlight.set_pwm_brightness] makes. *)
Definition run_adapter (dev : option Backlight.device) (ret : Z) (c : engine_call)
    : list engine_call :=
  match c with
  | call_set_pwm_brightness b =>
      map (fun c => ui (lvgl c)) (Backlight.set_pwm_brightness dev ret b)
  | c => [c]
  end.

Definition lower (dev : option Backlight.device) (ret : Z) (cs : list engine_call)
    : list engine_call :=
  flat_map (run_adapter dev ret) cs.

(** The percentages handed to [set_pwm_brightness], in order. *)
Definition issue (c : engine_call) : option Z :=
  match c with call_set_pwm_brightness b => Some b | _ => None end.

Definition issued (cs : list engine_call) : list Z := omap issue cs.

(** The duties handed to the LED driver, in order. *)
Definition plain_call (c : engine_call) : option call :=
  match c with ui (lvgl c) => Some c | _ => None end.

Definition led_values (cs : list engine_call) : list Z :=
  Backlight.driver_values (omap plain_call cs).

(** The text a trace leaves on label [o]. *)
Definition shown (o : obj) (cs : list engine_call) : option string :=
  rendered_text o (omap plain_call cs).

End BacklightEngine.

(** The automatic brightness switched on, with a sensor that reads 300
    and a map to 80 percent. *)
Definition engine_auto : BacklightEngine.engine_state :=
  {| BacklightEngine.settings :=
       {| Settings.drag := dragging; Settings.ds_manual_brightness := 65;
          Settings.ds_auto_brightness_enabled := true;
          Settings.ds_max_layers := 7 |};
     BacklightEngine.auto_brightness_timer := Some 2%nat |}.

Definition sensor_sample : BacklightEngine.sensor_env :=
  {| BacklightEngine.brightness_control_sensor_available := true;
     BacklightEngine.brightness_control_read_sensor := (0, 300);
     BacklightEngine.brightness_control_map_light_to_brightness := fun _ => 80 |}.

(** * Properties *)

(** ** Machine integers and text *)

Lemma to_int_id z : INT_MIN <= z <= INT_MAX -> to_int z = z.
Proof.
  unfold to_int, wrap_signed, INT_MIN, INT_MAX; intros H.
  change (2 ^ (32 - 1)) with 2147483648; change (2 ^ 32) with 4294967296.
  rewrite Z.mod_small; lia.
Qed.

Lemma to_int_range z : INT_MIN <= to_int z <= INT_MAX.
Proof.
  unfold to_int, wrap_signed, INT_MIN, INT_MAX.
  change (2 ^ (32 - 1)) with 2147483648; change (2 ^ 32) with 4294967296.
  pose proof (Z.mod_pos_bound (z + 2147483648) 4294967296); lia.
Qed.

Lemma to_int16_id z : - 32768 <= z <= 32767 -> to_int16 z = z.
Proof.
  unfold to_int16, wrap_signed; intros H.
  change (2 ^ (16 - 1)) with 32768; change (2 ^ 16) with 65536.
  rewrite Z.mod_small; lia.
Qed.

Lemma to_uint8_id z : 0 <= z <= 255 -> to_uint8 z = z.
Proof.
  unfold to_uint8, wrap_unsigned; intros H.
  change (2 ^ 8) with 256. rewrite Z.mod_small; lia.
Qed.

Lemma to_uint32_id z : 0 <= z <= 4294967295 -> to_uint32 z = z.
Proof.
  unfold to_uint32, wrap_unsigned; intros H.
  change (2 ^ 32) with 4294967296. rewrite Z.mod_small; lia.
Qed.

Lemma fmt_u_length fuel : forall (k : nat) n acc,
  (1 <= k)%nat -> 0 <= n < 10 ^ Z.of_nat k ->
  (String.length (fmt_u fuel n acc) <= String.length acc + k)%nat.
Proof.
  induction fuel as [|fuel IH]; intros k n acc Hk Hn; simpl.
  - lia.
  - destruct (Z.ltb_spec n 10) as [Hlt|Hge]; simpl; [lia|].
    destruct k as [|[|k]]; [lia| change (10 ^ Z.of_nat 1) with 10 in Hn; lia |].
    specialize (IH (S k) (n / 10) (String (digit_char (n mod 10)) acc)).
    simpl String.length in IH.
    assert (0 <= n / 10 < 10 ^ Z.of_nat (S k)).
    { replace (Z.of_nat (S (S k))) with (Z.succ (Z.of_nat (S k))) in Hn by lia.
      rewrite Z.pow_succ_r in Hn by lia.
      split; [apply Z.div_pos; lia | apply Z.div_lt_upper_bound; lia]. }
    specialize (IH ltac:(lia) H). lia.
Qed.

Lemma fmt_d_length (k : nat) n :
  (1 <= k)%nat -> 0 <= n < 10 ^ Z.of_nat k -> (String.length (fmt_d n) <= k)%nat.
Proof.
  intros Hk Hn. unfold fmt_d.
  destruct (Z.ltb_spec n 0); [lia|].
  apply (fmt_u_length 19 k n "" Hk Hn).
Qed.

Lemma length_append (a b : string) :
  String.length (a +++ b) = (String.length a + String.length b)%nat.
Proof. induction a as [|c a IH]; simpl; [reflexivity | now rewrite IH]. Qed.

Lemma substring_all (n : nat) : forall s,
  (String.length s <= n)%nat -> substring 0 n s = s.
Proof.
  induction n as [|n IH]; intros [|c s] H; simpl in *; try reflexivity; try lia.
  now rewrite IH by lia.
Qed.

Lemma snprintf_fits size s :
  (String.length s < size)%nat -> snprintf size s = s.
Proof. intros H. unfold snprintf. apply substring_all. lia. Qed.


(** ** What a trace leaves on a widget *)

Lemma omap_flat_map {A B C} (f : B -> option C) (g : A -> list B) (l : list A) :
  omap f (flat_map g l) = flat_map (fun a => omap f (g a)) l.
Proof.
  induction l as [|a l IH]; simpl; [reflexivity|].
  now rewrite omap_app, IH.
Qed.

Lemma flat_map_nil {A B} (h : A -> list B) (l : list A) :
  (forall j, In j l -> h j = []) -> flat_map h l = [].
Proof.
  induction l as [|a l IH]; intros H; simpl; [reflexivity|].
  rewrite (H a) by now left.
  rewrite IH; [reflexivity|]. intros j Hj. apply H. now right.
Qed.

Lemma flat_map_unique {A B} (h : A -> list B) (l : list A) (i : A) :
  List.NoDup l -> In i l -> (forall j, In j l -> j <> i -> h j = []) ->
  flat_map h l = h i.
Proof.
  induction l as [|a l IH]; intros Hnd Hin Hout; [destruct Hin|].
  simpl. inversion Hnd as [|? ? Hnotin Hnd']; subst.
  destruct Hin as [->|Hin].
  - rewrite (flat_map_nil h l); [now rewrite app_nil_r|].
    intros j Hj. apply Hout; [now right|].
    intros ->. contradiction.
  - rewrite (Hout a); [| now left | intros ->; contradiction].
    simpl. apply IH; [assumption..|].
    intros j Hj. apply Hout. now right.
Qed.

(** ** Backlight *)

Section BacklightProperties.
Import Backlight.

Lemma set_pwm_brightness_duty dev ret b :
  device_is_ready dev = true -> 0 <= b <= 100 ->
  driver_values (set_pwm_brightness (Some dev) ret b) = [100 - Z.max b 1].
Proof.
  intros Hready Hb. unfold set_pwm_brightness. rewrite Hready. simpl negb. cbv iota.
  assert (Hduty : to_uint8 (100 - (if b <? 1 then 1 else b)) = 100 - Z.max b 1).
  { destruct (Z.ltb_spec b 1); rewrite to_uint8_id; lia. }
  cbv zeta. rewrite Hduty.
  destruct (ret <? 0); reflexivity.
Qed.

End BacklightProperties.

(** ** Signal rate *)

Section SignalProperties.
Import Signal.

Lemma rate_x100_text_nonneg p :
  0 <= p <= INT_MAX ->
  rate_x100_text p
  = fmt_d (Z.quot p 100) +++ "." +++ fmt_d (Z.quot (Z.rem p 100) 10) +++ "Hz".
Proof.
  unfold INT_MAX. intros Hp. unfold rate_x100_text.
  destruct (Z.ltb_spec p 0); [lia|]. cbv zeta.
  apply snprintf_fits. rewrite !length_append. simpl String.length.
  assert (Hw : 0 <= Z.quot p 100 < 10 ^ Z.of_nat 8).
  { rewrite Z.quot_div_nonneg by lia. change (10 ^ Z.of_nat 8) with 100000000.
    split; [apply Z.div_pos; lia | apply Z.div_lt_upper_bound; lia]. }
  assert (Hf : 0 <= Z.quot (Z.rem p 100) 10 < 10 ^ Z.of_nat 1).
  { pose proof (Z.rem_bound_pos p 100 ltac:(lia) ltac:(lia)).
    rewrite Z.quot_div_nonneg by lia. change (10 ^ Z.of_nat 1) with 10.
    split; [apply Z.div_pos; lia | apply Z.div_lt_upper_bound; lia]. }
  pose proof (fmt_d_length 8 _ ltac:(lia) Hw).
  pose proof (fmt_d_length 1 _ ltac:(lia) Hf).
  lia.
Qed.

Lemma rendered_text_last o t cs :
  rendered_text o (cs ++ [lv_label_set_text o t]) = Some t.
Proof.
  unfold rendered_text. rewrite omap_app. simpl.
  rewrite Nat.eqb_refl. apply last_snoc.
Qed.

(** C6: the rate text made from the x100 integer payload is ["-.--Hz"]
    for every negative payload (so for the sentinel -1), ["12.3Hz"] for
    1234, and in general the whole part [payload / 100], a dot, the one
    digit [(payload % 100) / 10] and ["Hz"]; this is the text left on
    [rate_label] by the signal block of [pending_update_timer_cb]. *)
Theorem rate_x100_rendering sig_rssi p s o :
  INT_MIN <= p <= INT_MAX ->
  rate_label s = Some o ->
  rendered_text o (snd (pending_signal_update sig_rssi p s))
    = Some (rate_x100_text p)
  /\ (p < 0 -> rate_x100_text p = "-.--Hz")
  /\ (0 <= p ->
      rate_x100_text p
      = fmt_d (Z.quot p 100) +++ "." +++ fmt_d (Z.quot (Z.rem p 100) 10) +++ "Hz")
  /\ rate_x100_text (-1) = "-.--Hz"
  /\ rate_x100_text 1234 = "12.3Hz".
Proof.
  intros Hp Ho. split; [|split; [|split; [|split]]].
  - unfold pending_signal_update. cbn [snd set_signal rate_label].
    rewrite Ho. cbn [when_obj]. apply rendered_text_last.
  - intros Hneg. unfold rate_x100_text.
    destruct (Z.ltb_spec p 0); [reflexivity | lia].
  - intros Hpos. apply rate_x100_text_nonneg. lia.
  - reflexivity.
  - reflexivity.
Qed.

Lemma rate_x100_rendering_witness :
  rendered_text 3%nat (snd (pending_signal_update (-61) 1234 signal_widgets))
    = Some "12.3Hz".
Proof.
  destruct (rate_x100_rendering (-61) 1234 signal_widgets 3%nat) as [H _].
  - unfold INT_MIN, INT_MAX. lia.
  - reflexivity.
  - exact H.
Defined.

End SignalProperties.

(** ** Invalid input at the display-update entry points *)

Section InvalidInput.
Import Layer Signal.

Lemma rate_text_sentinel rate :
  F32.is_nan rate = true \/ F32.ltb rate F32.f_0 = true \/ F32.ltb F32.f_999_9 rate = true ->
  fst (rate_text rate) = "-.--Hz".
Proof.
  intros H. unfold rate_text.
  destruct (F32.ltb rate F32.f_0) eqn:Hneg; [reflexivity|].
  destruct H as [Hnan|[Hlt|Hbig]].
  - destruct rate; try discriminate Hnan. reflexivity.
  - discriminate Hlt.
  - rewrite Hbig. reflexivity.
Qed.

(** C9, as stated, fails for the layer: [display_update_layer 300] on a
    main screen showing layer 3 changes nothing and draws nothing; the
    cached layer stays 3, it is not clamped to 255 and no placeholder is
    shown. *)
Lemma display_update_layer_300_ignored :
  display_update_layer fixed_mode_idle 300 layer_sample = (layer_sample, [])
  /\ active_layer (fst (display_update_layer fixed_mode_idle 300 layer_sample)) = 3
  /\ active_layer (fst (display_update_layer fixed_mode_idle 300 layer_sample)) <> 255.
Proof. repeat split. vm_compute. discriminate. Qed.

(** C9, amended: a layer number outside 0..255 passed to
    [display_update_layer] is rejected, the call leaves every cached
    value and every widget as it was (nothing is clamped, no placeholder
    is shown); a rate that is NaN, negative or above 999.9 passed to
    [display_update_signal] leaves the text ["-.--Hz"] on the rate
    label.  Both functions are total. *)
Theorem invalid_input_rejected_or_sentinel :
  (forall fixed_mode_update layer s,
      layer < 0 \/ 255 < layer ->
      display_update_layer fixed_mode_update layer s = (s, []))
  /\ (forall rssi_val rate s o,
        rate_label s = Some o ->
        F32.is_nan rate = true \/ F32.ltb rate F32.f_0 = true
        \/ F32.ltb F32.f_999_9 rate = true ->
        rendered_text o (snd (display_update_signal rssi_val rate s))
          = Some "-.--Hz").
Proof.
  split.
  - intros f layer s H. unfold display_update_layer.
    destruct H as [H|H].
    + apply Z.ltb_lt in H. now rewrite H.
    + apply Z.ltb_lt in H. rewrite H. now rewrite orb_true_r.
  - intros rssi_val rate s o Ho Hbad.
    unfold display_update_signal. cbn [snd set_signal rate_label].
    rewrite Ho. cbn [when_obj].
    pose proof (rate_text_sentinel rate Hbad) as Ht.
    destruct (rate_text rate) as [text log]. simpl in Ht. subst text.
    rewrite app_assoc. apply rendered_text_last.
Qed.

Lemma invalid_input_rejected_or_sentinel_witness :
  display_update_layer fixed_mode_idle (-1) layer_sample = (layer_sample, [])
  /\ rendered_text 3%nat (snd (display_update_signal (-61) S754_nan signal_widgets))
     = Some "-.--Hz".
Proof.
  destruct invalid_input_rejected_or_sentinel as [Hl Hs]. split.
  - apply Hl. left. lia.
  - apply Hs; [reflexivity | left; reflexivity].
Defined.

End InvalidInput.

(** ** Transition controller *)

Section SwipeProperties.
Import Swipe.

Lemma ensure_lvgl_indev_registered_frame e s :
  let s' := fst (ensure_lvgl_indev_registered e s) in
  current_screen s' = current_screen s
  /\ pending_swipe s' = pending_swipe s
  /\ ks_runtime_channel s' = ks_runtime_channel s
  /\ ks_channel_initialized s' = ks_channel_initialized s
  /\ ui_interaction_active s' = ui_interaction_active s.
Proof.
  unfold ensure_lvgl_indev_registered.
  destruct (CONFIG_PROSPECTOR_TOUCH_ENABLED e), (lvgl_indev_registered s),
    (indev_ret e =? 0); cbn; auto.
Qed.

Lemma switch_screen_spec e from dest bg register s :
  let s' := fst (switch_screen e from dest bg register s) in
  current_screen s' = dest
  /\ pending_swipe s' = pending_swipe s
  /\ ks_runtime_channel s' = ks_runtime_channel s
  /\ ks_channel_initialized s' = ks_channel_initialized s
  /\ ui_interaction_active s' = ui_interaction_active s.
Proof.
  unfold switch_screen. destruct register.
  - pose proof (ensure_lvgl_indev_registered_frame e s) as H.
    destruct (ensure_lvgl_indev_registered e s) as [s1 c]. cbn in *. tauto.
  - cbn. auto.
Qed.

Lemma channel_of_eq s s' :
  ks_runtime_channel s' = ks_runtime_channel s ->
  ks_channel_initialized s' = ks_channel_initialized s ->
  channel_of s' = channel_of s.
Proof.
  unfold channel_of, scanner_get_runtime_channel. intros Hc Hi.
  rewrite Hi. destruct (ks_channel_initialized s); cbn; auto.
Qed.

Lemma ks_channel_decrement_screen s :
  current_screen (fst (ks_channel_decrement s)) = current_screen s.
Proof.
  unfold ks_channel_decrement, scanner_get_runtime_channel,
    ks_channel_change, scanner_set_runtime_channel.
  destruct (ks_channel_initialized s); reflexivity.
Qed.

Lemma ks_channel_increment_screen s :
  current_screen (fst (ks_channel_increment s)) = current_screen s.
Proof.
  unfold ks_channel_increment, scanner_get_runtime_channel,
    ks_channel_change, scanner_set_runtime_channel.
  destruct (ks_channel_initialized s); reflexivity.
Qed.

Lemma ks_channel_decrement_spec s :
  0 <= channel_of s <= 10 ->
  channel_of (fst (ks_channel_decrement s))
  = (if channel_of s =? 0 then CHANNEL_MAX else channel_of s - 1).
Proof.
  unfold channel_of, ks_channel_decrement, scanner_get_runtime_channel,
    ks_channel_change, scanner_set_runtime_channel, CHANNEL_MAX.
  destruct (ks_channel_initialized s); cbn; intros H; [|reflexivity].
  destruct (Z.ltb_spec 0 (ks_runtime_channel s)), (Z.eqb_spec (ks_runtime_channel s) 0);
    try lia; rewrite to_uint8_id by lia.
  - destruct (Z.ltb_spec 10 (ks_runtime_channel s - 1)); [lia | reflexivity].
  - reflexivity.
Qed.

Lemma ks_channel_increment_spec s :
  0 <= channel_of s <= 10 ->
  channel_of (fst (ks_channel_increment s))
  = (if channel_of s =? CHANNEL_MAX then 0 else channel_of s + 1).
Proof.
  unfold channel_of, ks_channel_increment, scanner_get_runtime_channel,
    ks_channel_change, scanner_set_runtime_channel, CHANNEL_MAX.
  destruct (ks_channel_initialized s); cbn; intros H; [|reflexivity].
  destruct (Z.ltb_spec (ks_runtime_channel s) 10), (Z.eqb_spec (ks_runtime_channel s) 10);
    try lia; rewrite to_uint8_id by lia.
  - destruct (Z.ltb_spec 10 (ks_runtime_channel s + 1)); [lia | reflexivity].
  - reflexivity.
Qed.

Lemma dispatch_swipe_screen e d s :
  current_screen (fst (dispatch_swipe e d s)) = spec_next (current_screen s) d.
Proof.
  unfold dispatch_swipe.
  destruct d, (current_screen s) eqn:Hsc; cbn [spec_next spec_table default fst];
    try assumption;
    try (match goal with
         | |- context [switch_screen ?e ?a ?b ?c ?r ?s] =>
             destruct (switch_screen_spec e a b c r s) as (H1 & _); exact H1
         end).
  - pose proof (ks_channel_decrement_screen s) as H1.
    destruct (ks_channel_decrement s) as [s1 c]. cbn in *. congruence.
  - pose proof (ks_channel_increment_screen s) as H1.
    destruct (ks_channel_increment s) as [s1 c]. cbn in *. congruence.
Qed.

Lemma dispatch_swipe_channel e d s :
  0 <= channel_of s <= 10 ->
  channel_of (fst (dispatch_swipe e d s))
  = spec_channel (current_screen s) d (channel_of s).
Proof.
  intros Hch. unfold dispatch_swipe.
  destruct d, (current_screen s) eqn:Hsc; cbn [spec_channel fst];
    try reflexivity;
    try (match goal with
         | |- context [switch_screen ?e ?a ?b ?c ?r ?s] =>
             destruct (switch_screen_spec e a b c r s) as (_ & _ & H3 & H4 & _);
             now apply channel_of_eq
         end).
  - pose proof (ks_channel_decrement_spec s Hch) as H2.
    destruct (ks_channel_decrement s) as [s1 c]. exact H2.
  - pose proof (ks_channel_increment_spec s Hch) as H2.
    destruct (ks_channel_increment s) as [s1 c]. exact H2.
Qed.

(** C3: a consumer tick that acts on the pending gesture moves
    [current_screen] exactly as the spec's table says: Main goes to
    DisplaySettings, KeyboardSelect, SystemSettings, PongWars on down,
    up, right, left, each of these returns to Main on its one return
    direction, and every other (screen, direction) pair leaves
    [current_screen] as it is; on KeyboardSelect, left and right change
    no screen and decrement and increment the channel filter. *)
Theorem swipe_transition_table e s :
  ui_interaction_active s = false ->
  transition_in_progress s = false ->
  let s' := fst (swipe_process_timer_cb e s) in
  current_screen s' = spec_next (current_screen s) (pending_swipe s)
  /\ (0 <= channel_of s <= 10 ->
      channel_of s'
      = spec_channel (current_screen s) (pending_swipe s) (channel_of s)).
Proof.
  intros Hui Htr. unfold swipe_process_timer_cb.
  destruct (pending_swipe s) eqn:Hp;
    [ cbn; destruct (current_screen s); split; reflexivity | ..].
  all: cbn [ui_interaction_active transition_in_progress set_pending_swipe
            set_transition_in_progress].
  all: rewrite Hui, Htr.
  all: match goal with
       | |- context [dispatch_swipe ?e0 ?d ?s0] =>
           pose proof (dispatch_swipe_screen e0 d s0) as Hd1;
           pose proof (dispatch_swipe_channel e0 d s0) as Hd2;
           assert (Hc0 : channel_of s0 = channel_of s)
             by (apply channel_of_eq; reflexivity);
           rewrite Hc0 in Hd2;
           change (current_screen s0) with (current_screen s) in Hd1, Hd2;
           destruct (dispatch_swipe e0 d s0) as [s1 c]
       end.
  all: cbn [fst] in Hd1, Hd2 |- *.
  all: split; [exact Hd1|].
  all: intros Hch; rewrite <- (Hd2 Hch); apply channel_of_eq; reflexivity.
Qed.

Lemma swipe_transition_table_witness :
  current_screen (fst (swipe_process_timer_cb touch_env
                         (set_pending_swipe SWIPE_DIRECTION_LEFT ui_main)))
  = SCREEN_PONG_WARS.
Proof.
  destruct (swipe_transition_table touch_env
              (set_pending_swipe SWIPE_DIRECTION_LEFT ui_main)) as [H _].
  - reflexivity.
  - reflexivity.
  - exact H.
Defined.

(** *** Debouncer *)

Lemma acted_app a b : acted (a ++ b) = (acted a + acted b)%nat.
Proof. unfold acted. now rewrite List.filter_app, List.length_app. Qed.

Lemma acted_dispatch e d s : acted (snd (dispatch_swipe e d s)) = 0%nat.
Proof.
  unfold dispatch_swipe, switch_screen, ensure_lvgl_indev_registered,
    ks_channel_decrement, ks_channel_increment, ks_channel_change,
    scanner_get_runtime_channel, scanner_set_runtime_channel.
  destruct d, (current_screen s), (CONFIG_PROSPECTOR_TOUCH_ENABLED e),
    (lvgl_indev_registered s), (indev_ret e =? 0), (ks_channel_initialized s);
    reflexivity.
Qed.

Lemma dispatch_swipe_pending e d s :
  pending_swipe (fst (dispatch_swipe e d s)) = pending_swipe s.
Proof.
  unfold dispatch_swipe, switch_screen, ensure_lvgl_indev_registered,
    ks_channel_decrement, ks_channel_increment, ks_channel_change,
    scanner_get_runtime_channel, scanner_set_runtime_channel.
  destruct d, (current_screen s), (CONFIG_PROSPECTOR_TOUCH_ENABLED e),
    (lvgl_indev_registered s), (indev_ret e =? 0), (ks_channel_initialized s);
    reflexivity.
Qed.

Lemma tick_clears e s :
  pending_swipe (fst (swipe_process_timer_cb e s)) = SWIPE_DIRECTION_NONE.
Proof.
  unfold swipe_process_timer_cb.
  destruct (pending_swipe s) eqn:Hp; [exact Hp|..].
  all: cbn [ui_interaction_active transition_in_progress set_pending_swipe
            set_transition_in_progress].
  all: destruct (ui_interaction_active s); [reflexivity|].
  all: destruct (transition_in_progress s); [reflexivity|].
  all: match goal with
       | |- context [dispatch_swipe ?e0 ?d ?s0] =>
           pose proof (dispatch_swipe_pending e0 d s0) as Hps;
           destruct (dispatch_swipe e0 d s0) as [s1 c]
       end.
  all: exact Hps.
Qed.

Lemma tick_acted e s :
  (acted (snd (swipe_process_timer_cb e s)) <= pending_count s)%nat.
Proof.
  unfold swipe_process_timer_cb, pending_count.
  destruct (pending_swipe s) eqn:Hp; [cbn; lia|..].
  all: cbn [ui_interaction_active transition_in_progress set_pending_swipe
            set_transition_in_progress].
  all: destruct (ui_interaction_active s); [cbn; lia|].
  all: destruct (transition_in_progress s); [cbn; lia|].
  all: match goal with
       | |- context [dispatch_swipe ?e0 ?d ?s0] =>
           pose proof (acted_dispatch e0 d s0) as Ha;
           destruct (dispatch_swipe e0 d s0) as [s1 c]
       end.
  all: cbn [snd] in Ha |- *.
  all: change (processing_swipe :: c) with ([processing_swipe] ++ c).
  all: rewrite acted_app, Ha; cbn; lia.
Qed.

Lemma tick_empty e s :
  pending_swipe s = SWIPE_DIRECTION_NONE -> swipe_process_timer_cb e s = (s, []).
Proof. intros H. unfold swipe_process_timer_cb. now rewrite H. Qed.

Lemma step_potential ev s :
  (acted (snd (step ev s)) + pending_count (fst (step ev s))
   <= (if is_gesture ev then 1 else 0) + pending_count s)%nat
  /\ (acted (snd (step ev s)) <= (if is_tick ev then 1 else 0))%nat.
Proof.
  destruct ev as [d|e|b]; cbn [step is_gesture is_tick].
  - unfold swipe_gesture_listener, pending_count.
    destruct (pending_swipe s) eqn:Hp; cbn; rewrite ?Hp; destruct d; cbn; lia.
  - pose proof (tick_acted e s). pose proof (tick_clears e s) as Hc.
    unfold pending_count at 1. rewrite Hc.
    unfold pending_count in *. destruct (pending_swipe s); lia.
  - cbn. unfold pending_count. cbn. lia.
Qed.

Lemma run_counts evs : forall s,
  (acted (snd (run evs s)) + pending_count (fst (run evs s))
   <= gestures evs + pending_count s)%nat
  /\ (acted (snd (run evs s)) <= ticks evs)%nat.
Proof.
  induction evs as [|ev evs IH]; intros s.
  - cbn. lia.
  - cbn [run]. pose proof (step_potential ev s) as [Hp Ht].
    destruct (step ev s) as [s1 c1]. specialize (IH s1) as [IHp IHt].
    destruct (run evs s1) as [s2 c2]. cbn [fst snd] in *.
    rewrite acted_app. unfold gestures, ticks in *. cbn [List.filter].
    destruct (is_gesture ev), (is_tick ev); cbn [List.length]; lia.
Qed.

(** C4: a gesture event that arrives while a gesture is pending is
    discarded and leaves the state as it was; every consumer tick leaves
    the pending cell empty and acts on at most one gesture, so a second
    tick with no new gesture does nothing; a gesture read while
    [ui_interaction_active] or [transition_in_progress] is set is
    dropped: no screen change, nothing acted upon, the cell empty and
    every other field untouched, hence nothing deferred; and over every
    sequence of gesture events, ticks and drags the number of gestures
    acted upon is at most the number of ticks and at most the number of
    gestures delivered (plus the one pending at the start). *)
Theorem gesture_debounce :
  (forall d s, pending_swipe s <> SWIPE_DIRECTION_NONE ->
               fst (swipe_gesture_listener (Some d) s) = s)
  /\ (forall e s,
        pending_swipe (fst (swipe_process_timer_cb e s)) = SWIPE_DIRECTION_NONE
        /\ (acted (snd (swipe_process_timer_cb e s)) <= 1)%nat)
  /\ (forall e e' s,
        swipe_process_timer_cb e' (fst (swipe_process_timer_cb e s))
        = (fst (swipe_process_timer_cb e s), []))
  /\ (forall e s,
        ui_interaction_active s = true \/ transition_in_progress s = true ->
        pending_swipe s <> SWIPE_DIRECTION_NONE ->
        fst (swipe_process_timer_cb e s) = set_pending_swipe SWIPE_DIRECTION_NONE s
        /\ current_screen (fst (swipe_process_timer_cb e s)) = current_screen s
        /\ acted (snd (swipe_process_timer_cb e s)) = 0%nat)
  /\ (forall evs s,
        (acted (snd (run evs s)) <= ticks evs)%nat
        /\ (acted (snd (run evs s)) <= gestures evs + pending_count s)%nat).
Proof.
  split; [|split; [|split; [|split]]].
  - intros d s Hp. unfold swipe_gesture_listener.
    destruct (pending_swipe s); [contradiction|reflexivity..].
  - intros e s. split; [apply tick_clears|].
    pose proof (tick_acted e s). unfold pending_count in *.
    destruct (pending_swipe s); lia.
  - intros e e' s. apply tick_empty, tick_clears.
  - intros e s Hflag Hp. unfold swipe_process_timer_cb.
    destruct (pending_swipe s) eqn:Hps; [contradiction|..].
    all: cbn [ui_interaction_active transition_in_progress set_pending_swipe].
    all: destruct (ui_interaction_active s); [repeat split|].
    all: destruct (transition_in_progress s); [repeat split|].
    all: destruct Hflag; discriminate.
  - intros evs s. pose proof (run_counts evs s) as [Hp Ht]. split; lia.
Qed.

Lemma gesture_debounce_witness :
  fst (swipe_gesture_listener (Some SWIPE_DIRECTION_UP)
         (set_pending_swipe SWIPE_DIRECTION_LEFT ui_main))
  = set_pending_swipe SWIPE_DIRECTION_LEFT ui_main
  /\ current_screen
       (fst (swipe_process_timer_cb touch_env
               (set_ui_interaction_active true
                  (set_pending_swipe SWIPE_DIRECTION_LEFT ui_main))))
     = SCREEN_MAIN.
Proof.
  destruct gesture_debounce as (Hl & _ & _ & Hf & _). split.
  - apply Hl. discriminate.
  - apply Hf; [left; reflexivity | discriminate].
Defined.

End SwipeProperties.

(** ** Battery layout *)

Section BatteryProperties.
Import Battery.








End BatteryProperties.

(** ** Battery bars: layout and hiding *)

Section BatteryLayoutProperties.
Import Battery BatteryLayout.
















End BatteryLayoutProperties.

(** ** Layer dial *)

Section LayerProperties.
Import Layer.

Lemma to_int_cases z :
  INT_MIN <= z < 2147483648 + 4294967296 ->
  to_int z = z \/ (2147483648 <= z /\ to_int z = z - 4294967296).
Proof.
  unfold INT_MIN. intros H.
  destruct (Z_lt_le_dec z 2147483648) as [Hlt|Hge].
  - left. apply to_int_id. unfold INT_MIN, INT_MAX. lia.
  - right. split; [assumption|].
    unfold to_int, wrap_signed.
    change (2 ^ (32 - 1)) with 2147483648; change (2 ^ 32) with 4294967296.
    replace (z + 2147483648) with (z - 2147483648 + 1 * 4294967296) by lia.
    rewrite Z.mod_add by lia. rewrite Z.mod_small; lia.
Qed.

Lemma update_window_start layer animate s :
  layer_slide_window_start (fst (update_layer_slide_display layer animate s))
  = (if to_int (layer - layer_slide_window_start s) <? SLIDE_LARGE_ZONE_START
     then to_int (layer - SLIDE_LARGE_ZONE_START)
     else if SLIDE_LARGE_ZONE_END <? to_int (layer - layer_slide_window_start s)
          then to_int (layer - SLIDE_LARGE_ZONE_END)
          else layer_slide_window_start s).
Proof.
  unfold update_layer_slide_display.
  destruct (ds_layer_slide_max s <=? layer); cbn [layer_slide_window_start
    set_ds_layer_slide_max];
    destruct (to_int (layer - layer_slide_window_start s) <? SLIDE_LARGE_ZONE_START);
    try reflexivity;
    destruct (SLIDE_LARGE_ZONE_END <? to_int (layer - layer_slide_window_start s));
    reflexivity.
Qed.

Lemma update_labels layer animate s :
  layer_slide_labels (fst (update_layer_slide_display layer animate s))
  = layer_slide_labels s.
Proof.
  unfold update_layer_slide_display.
  destruct (ds_layer_slide_max s <=? layer); cbn [layer_slide_window_start
    set_ds_layer_slide_max];
    destruct (to_int (layer - layer_slide_window_start s) <? SLIDE_LARGE_ZONE_START);
    try reflexivity;
    destruct (SLIDE_LARGE_ZONE_END <? to_int (layer - layer_slide_window_start s));
    reflexivity.
Qed.

Lemma textless_flat_map (f : nat -> list call) (l : list nat) :
  (forall i, textless (f i)) -> textless (flat_map f l).
Proof.
  intros H o. rewrite !omap_flat_map.
  split; apply flat_map_nil; intros j _; apply (H j o).
Qed.

Lemma update_calls layer animate s :
  exists c_max c_scroll,
    textless c_max /\ textless c_scroll
    /\ snd (update_layer_slide_display layer animate s)
       = let s' := fst (update_layer_slide_display layer animate s) in
         c_max
         ++ flat_map (fun i => when_obj (slide_label s' i)
                                 (slide_label_update layer animate s' i))
                     (seq 0 SLIDE_VISIBLE_COUNT)
         ++ slide_reset_positions s' ++ c_scroll ++ [LOG_DBG "Slide update"].
Proof.
  assert (Hscroll : forall s0 k, textless
            (flat_map (fun i => when_obj (slide_label s0 i)
                        (fun o => [lv_anim_del o (Some slide_scroll_anim_cb);
                                   lv_anim_start o slide_scroll_anim_cb k 0 150]))
                      (seq 0 SLIDE_VISIBLE_COUNT))).
  { intros s0 k. apply textless_flat_map. intros i o.
    destruct (slide_label s0 i); split; reflexivity. }
  assert (Hnil : textless []) by (intros o; split; reflexivity).
  assert (Hlog : forall m, textless [LOG_INF m]) by (intros m o; split; reflexivity).
  unfold update_layer_slide_display.
  destruct (ds_layer_slide_max s <=? layer); cbn [layer_slide_window_start
    set_ds_layer_slide_max];
    destruct (to_int (layer - layer_slide_window_start s) <? SLIDE_LARGE_ZONE_START);
    [| destruct (SLIDE_LARGE_ZONE_END <? to_int (layer - layer_slide_window_start s))
     | | destruct (SLIDE_LARGE_ZONE_END <? to_int (layer - layer_slide_window_start s)) ];
    cbn [fst snd andb];
    repeat match goal with
           | |- context [if ?b then _ else _] => destruct b
           end;
    eexists _, _; (split; [|split; [|reflexivity]]); auto.
Qed.

Lemma slide_label_update_foreign layer animate s j o' o :
  o' <> o ->
  omap (text_set o) (slide_label_update layer animate s j o') = []
  /\ omap (text_opa_set o) (slide_label_update layer animate s j o') = [].
Proof.
  intros Hne. apply Nat.eqb_neq in Hne.
  unfold slide_label_update, start_pulse_anim.
  generalize (to_int (layer_slide_window_start s + Z.of_nat j)). intros n.
  destruct (n <? 0), ((n =? layer) && (0 <=? n)), animate;
    cbn; rewrite Hne; split; reflexivity.
Qed.

Lemma slide_label_update_negative layer animate s i o :
  to_int (layer_slide_window_start s + Z.of_nat i) < 0 ->
  slide_label_update layer animate s i o
  = [lv_label_set_text o ""; lv_obj_set_style_text_opa o LV_OPA_TRANSP 0].
Proof.
  intros Hneg. unfold slide_label_update. cbv zeta.
  destruct (Z.leb_spec 0 (to_int (layer_slide_window_start s + Z.of_nat i))); [lia|].
  destruct (Z.ltb_spec (to_int (layer_slide_window_start s + Z.of_nat i)) 0); [|lia].
  reflexivity.
Qed.

Lemma slide_reset_positions_textless s : textless (slide_reset_positions s).
Proof.
  unfold slide_reset_positions. apply textless_flat_map. intros i o.
  destruct (slide_label s i); split; reflexivity.
Qed.

Lemma negative_slot_rendered layer animate s i o :
  (i < SLIDE_VISIBLE_COUNT)%nat ->
  labels_distinct (layer_slide_labels s) ->
  layer_slide_labels s !! i = Some (Some o) ->
  let r := update_layer_slide_display layer animate s in
  to_int (layer_slide_window_start (fst r) + Z.of_nat i) < 0 ->
  rendered_text o (snd r) = Some "" /\ rendered_text_opa o (snd r) = Some LV_OPA_TRANSP.
Proof.
  intros Hi Hdist Hlab r Hneg.
  destruct (update_calls layer animate s) as (c_max & c_scroll & Hmax & Hscr & Hcs).
  fold r in Hcs. cbv zeta in Hcs.
  pose proof (update_labels layer animate s) as Hl. fold r in Hl.
  set (s' := fst r) in *.
  assert (Hown : slide_label s' i = Some o).
  { unfold slide_label. now rewrite Hl, Hlab. }
  assert (Hforeign : forall j, In j (seq 0 SLIDE_VISIBLE_COUNT) -> j <> i ->
             omap (text_set o) (when_obj (slide_label s' j)
                                  (slide_label_update layer animate s' j)) = []
             /\ omap (text_opa_set o) (when_obj (slide_label s' j)
                                  (slide_label_update layer animate s' j)) = []).
  { intros j _ Hji. destruct (slide_label s' j) as [o'|] eqn:Hj; [|split; reflexivity].
    cbn [when_obj]. apply slide_label_update_foreign.
    intros ->. apply Hji. unfold slide_label in Hj. rewrite Hl in Hj.
    destruct (layer_slide_labels s !! j) as [[o2|]|] eqn:Hj2; try discriminate.
    cbn in Hj. injection Hj as ->. exact (Hdist j i o Hj2 Hlab). }
  assert (Hin : In i (seq 0 SLIDE_VISIBLE_COUNT)) by (apply in_seq; lia).
  pose proof (slide_reset_positions_textless s' o) as [Hp1 Hp2].
  destruct (Hmax o) as [Hm1 Hm2]. destruct (Hscr o) as [Hs1 Hs2].
  unfold rendered_text, rendered_text_opa. rewrite Hcs.
  rewrite !omap_app, !omap_flat_map, Hm1, Hm2, Hp1, Hp2, Hs1, Hs2.
  rewrite (flat_map_unique _ _ i (List.seq_NoDup _ _) Hin)
    by (intros j Hj Hji; apply (Hforeign j Hj Hji)).
  rewrite (flat_map_unique _ _ i (List.seq_NoDup _ _) Hin)
    by (intros j Hj Hji; apply (Hforeign j Hj Hji)).
  rewrite Hown. cbn [when_obj].
  rewrite slide_label_update_negative by exact Hneg.
  cbn. rewrite Nat.eqb_refl. split; reflexivity.
Qed.

(** C2: for every layer [L >= 0] and every prior window start, after
    [update_layer_slide_display L] the slot of the active layer,
    [L - layer_slide_window_start], lies in 2..6; the window start
    changes only when that slot was outside 2..6, and then it moves to
    the nearer zone boundary (slot 2 from the left, slot 6 from the
    right), which is the least shift that brings the slot into the zone
    (where [L - start] is a C [int], that is, does not overflow); and
    every slot whose layer number is negative is left with an empty text
    and a transparent text opacity. *)
Theorem slide_window_update layer animate s :
  0 <= layer <= INT_MAX ->
  INT_MIN <= layer_slide_window_start s <= INT_MAX ->
  labels_distinct (layer_slide_labels s) ->
  let ws := layer_slide_window_start s in
  let r := update_layer_slide_display layer animate s in
  let ws' := layer_slide_window_start (fst r) in
  SLIDE_LARGE_ZONE_START <= layer - ws' <= SLIDE_LARGE_ZONE_END
  /\ (ws' <> ws -> ~ (SLIDE_LARGE_ZONE_START <= layer - ws <= SLIDE_LARGE_ZONE_END))
  /\ (INT_MIN <= layer - ws <= INT_MAX ->
      (layer - ws < SLIDE_LARGE_ZONE_START -> layer - ws' = SLIDE_LARGE_ZONE_START)
      /\ (SLIDE_LARGE_ZONE_END < layer - ws -> layer - ws' = SLIDE_LARGE_ZONE_END)
      /\ (forall w, SLIDE_LARGE_ZONE_START <= layer - w <= SLIDE_LARGE_ZONE_END ->
                    Z.abs (ws' - ws) <= Z.abs (w - ws)))
  /\ (forall i o,
        (i < SLIDE_VISIBLE_COUNT)%nat ->
        layer_slide_labels s !! i = Some (Some o) ->
        ws' + Z.of_nat i < 0 ->
        rendered_text o (snd r) = Some ""
        /\ rendered_text_opa o (snd r) = Some LV_OPA_TRANSP).
Proof.
  intros Hlayer Hws Hdist ws r ws'.
  assert (Hws' : ws' = (if to_int (layer - ws) <? 2 then layer - 2
                        else if 6 <? to_int (layer - ws) then layer - 6 else ws)).
  { unfold ws', r. rewrite update_window_start. fold ws.
    unfold SLIDE_LARGE_ZONE_START, SLIDE_LARGE_ZONE_END.
    rewrite (to_int_id (layer - 2)), (to_int_id (layer - 6))
      by (unfold INT_MIN, INT_MAX in *; lia).
    reflexivity. }
  assert (Hcases : to_int (layer - ws) = layer - ws
                   \/ (2147483648 <= layer - ws
                       /\ to_int (layer - ws) = layer - ws - 4294967296)).
  { apply to_int_cases. unfold INT_MIN, INT_MAX in *. fold ws in Hws. lia. }
  assert (Hws0 : INT_MIN <= ws <= INT_MAX) by exact Hws.
  unfold SLIDE_LARGE_ZONE_START, SLIDE_LARGE_ZONE_END.
  unfold INT_MIN, INT_MAX in *.
  split; [|split; [|split]].
  - rewrite Hws'.
    destruct (Z.ltb_spec (to_int (layer - ws)) 2); [lia|].
    destruct (Z.ltb_spec 6 (to_int (layer - ws))); lia.
  - intros Hne Hin. apply Hne. rewrite Hws'.
    destruct Hcases as [Hc|[Hc1 Hc2]]; [rewrite Hc | lia].
    destruct (Z.ltb_spec (layer - ws) 2); [lia|].
    destruct (Z.ltb_spec 6 (layer - ws)); [lia|reflexivity].
  - intros Hno. rewrite to_int_id in Hws' by (unfold INT_MIN, INT_MAX; exact Hno).
    rewrite Hws'.
    destruct (Z.ltb_spec (layer - ws) 2); [|destruct (Z.ltb_spec 6 (layer - ws))];
      (split; [|split]); intros; lia.
  - intros i o Hi Hlab Hneg.
    apply (negative_slot_rendered layer animate s i o Hi Hdist Hlab).
    fold r. fold ws'.
    assert (Hlow : layer - 6 <= ws').
    { rewrite Hws'.
      destruct (Z.ltb_spec (to_int (layer - ws)) 2); [lia|].
      destruct (Z.ltb_spec 6 (to_int (layer - ws))); lia. }
    rewrite to_int_id by (unfold INT_MIN, INT_MAX; lia).
    exact Hneg.
Qed.

Lemma layer_sample_distinct : labels_distinct (layer_slide_labels layer_sample).
Proof.
  intros i j o Hi Hj.
  do 9 (destruct i as [|i]; [ do 9 (destruct j as [|j]; [cbn in *; congruence|]);
                               destruct j; discriminate Hj |]).
  destruct i; discriminate Hi.
Defined.

Lemma slide_window_update_witness :
  rendered_text 10%nat (snd (update_layer_slide_display 0 true layer_sample)) = Some ""
  /\ layer_slide_window_start (fst (update_layer_slide_display 0 true layer_sample)) = -2.
Proof.
  destruct (slide_window_update 0 true layer_sample) as (_ & _ & Hmin & Hneg).
  - unfold INT_MAX. lia.
  - unfold INT_MIN, INT_MAX. cbn. lia.
  - exact layer_sample_distinct.
  - split.
    + apply (Hneg 0%nat 10%nat); [unfold SLIDE_VISIBLE_COUNT; lia | reflexivity |].
      vm_compute. reflexivity.
    + reflexivity.
Defined.

End LayerProperties.

(** ** Pong Wars *)

Section PongWarsProperties.
Import PongWars.

(** *** Loops *)

Lemma fold_left_inv {S A} (P : S -> Prop) (f : S -> A -> S) (l : list A) :
  (forall s a, P s -> P (f s a)) -> forall s, P s -> P (fold_left f l s).
Proof.
  intros Hf. induction l as [|a l IH]; intros s Hs; [exact Hs|].
  simpl. apply IH, Hf, Hs.
Qed.

Lemma fold_left_seq_inv {S} (P : nat -> S -> Prop) (f : S -> nat -> S) (n : nat) :
  (forall k s, (k < n)%nat -> P k s -> P (Datatypes.S k) (f s k)) ->
  forall s, P 0%nat s -> P n (fold_left f (seq 0 n) s).
Proof.
  induction n as [|n IH]; intros Hf s Hs; [exact Hs|].
  rewrite seq_S, fold_left_app. simpl. apply Hf; [lia|].
  apply IH; [|exact Hs]. intros k s0 Hk. apply Hf. lia.
Qed.

(** *** Counting cells *)

Lemma cells_of_app tm a b : cells_of tm (a ++ b) = cells_of tm a + cells_of tm b.
Proof. unfold cells_of. rewrite count_occ_app. lia. Qed.

Lemma cells_of_one tm c : cells_of tm [c] = if c =? tm then 1 else 0.
Proof.
  unfold cells_of. simpl. destruct (Z.eq_dec c tm) as [->|Hne].
  - now rewrite Z.eqb_refl.
  - apply Z.eqb_neq in Hne. now rewrite Hne.
Qed.

Lemma cells_of_bound tm g : 0 <= cells_of tm g <= Z.of_nat (List.length g).
Proof. unfold cells_of. pose proof (count_occ_bound Z.eq_dec tm g). lia. Qed.

Lemma cells_of_insert tm g idx c v :
  g !! idx = Some c ->
  cells_of tm (<[idx := v]> g)
  = cells_of tm g - (if c =? tm then 1 else 0) + (if v =? tm then 1 else 0).
Proof.
  intros Hc. pose proof (lookup_lt_Some _ _ _ Hc) as Hlt.
  rewrite insert_take_drop by exact Hlt.
  rewrite <- (take_drop_middle g idx c Hc) at 3.
  change (v :: drop (Datatypes.S idx) g) with ([v] ++ drop (Datatypes.S idx) g).
  change (c :: drop (Datatypes.S idx) g) with ([c] ++ drop (Datatypes.S idx) g).
  rewrite !cells_of_app, !cells_of_one. lia.
Qed.

Lemma cells_total g :
  Forall (fun c => c = 0 \/ c = 1) g ->
  cells_of 0 g + cells_of 1 g = Z.of_nat (List.length g).
Proof.
  induction 1 as [|c g Hc _ IH]; [reflexivity|].
  change (c :: g) with ([c] ++ g). rewrite !cells_of_app, !cells_of_one.
  rewrite List.length_app. simpl List.length.
  destruct Hc as [-> | ->]; simpl; lia.
Qed.

(** *** [pw_init_grid] *)

Lemma half_grid_lookup gy gx :
  (gy < PW_GRID_H)%nat -> (gx < PW_GRID_W)%nat ->
  pw_half_grid !! (gy * PW_GRID_W + gx)%nat
  = Some (if (gx <? PW_GRID_W / 2)%nat then 0 else 1).
Proof.
  unfold PW_GRID_H, PW_GRID_W. intros Hy Hx.
  do 9 (destruct gy as [|gy]; [ do 12 (destruct gx as [|gx]; [reflexivity|]); lia |]).
  lia.
Qed.

Lemma pw_init_grid_cell_filled gy gx s :
  (gy < PW_GRID_H)%nat -> (gx < PW_GRID_W)%nat ->
  grid_filled (gy * PW_GRID_W + gx) s ->
  grid_filled (Datatypes.S (gy * PW_GRID_W + gx)) (pw_init_grid_cell gy gx s).
Proof.
  intros Hy Hx (Hlen & Htake & Hs1 & Hs2).
  set (n := (gy * PW_GRID_W + gx)%nat) in *.
  set (v := if (gx <? PW_GRID_W / 2)%nat then 0 else 1).
  assert (Hn : (n < PW_NUM_CELLS)%nat).
  { unfold n, PW_NUM_CELLS, PW_GRID_H, PW_GRID_W in *. nia. }
  pose proof (half_grid_lookup gy gx Hy Hx) as Hpat. fold n v in Hpat.
  assert (Hv : v = 0 \/ v = 1) by (unfold v; destruct (gx <? PW_GRID_W / 2)%nat; auto).
  assert (Hget : <[n := v]> (pw_grid s) !! n = Some v).
  { apply list_lookup_insert_eq. rewrite Hlen. exact Hn. }
  assert (Hb0 := cells_of_bound 0 (take n pw_half_grid)).
  assert (Hb1 := cells_of_bound 1 (take n pw_half_grid)).
  assert (Hlt : (List.length (take n pw_half_grid) <= 108)%nat).
  { rewrite length_take. unfold PW_NUM_CELLS, PW_GRID_H, PW_GRID_W in Hn.
    change (List.length pw_half_grid) with 108%nat. lia. }
  assert (Hstate :
    let s1 := set_pw_grid (<[n := v]> (pw_grid s)) s in
    let s2 := if grid_at s1 n =? 0 then set_pw_score1 (to_int (pw_score1 s1 + 1)) s1
              else set_pw_score2 (to_int (pw_score2 s1 + 1)) s1 in
    grid_filled (Datatypes.S n) s2).
  { cbv zeta. unfold grid_at. cbn [pw_grid set_pw_grid]. rewrite Hget. cbn [default from_option id].
    assert (Htk : take (Datatypes.S n) (<[n := v]> (pw_grid s))
                  = take (Datatypes.S n) pw_half_grid).
    { rewrite (take_S_r _ _ _ Hget), (take_S_r _ _ _ Hpat).
      rewrite take_insert_ge by lia. now rewrite Htake. }
    assert (Hc0 : cells_of 0 (take (Datatypes.S n) pw_half_grid)
                  = cells_of 0 (take n pw_half_grid) + (if v =? 0 then 1 else 0)).
    { now rewrite (take_S_r _ _ _ Hpat), cells_of_app, cells_of_one. }
    assert (Hc1 : cells_of 1 (take (Datatypes.S n) pw_half_grid)
                  = cells_of 1 (take n pw_half_grid) + (if v =? 1 then 1 else 0)).
    { now rewrite (take_S_r _ _ _ Hpat), cells_of_app, cells_of_one. }
    unfold grid_filled. rewrite Hc0, Hc1.
    destruct Hv as [Hv0|Hv1]; rewrite ?Hv0, ?Hv1 in *; cbn [Z.eqb Pos.eqb];
      cbn [pw_grid pw_score1 pw_score2 set_pw_score1 set_pw_score2 set_pw_grid];
      rewrite ?length_insert, ?to_int_id by (unfold INT_MIN, INT_MAX; lia);
      repeat split; try assumption; lia. }
  unfold pw_init_grid_cell. fold n v. cbv zeta in Hstate |- *.
  match goal with
  | |- context [cell_obj ?s2 n] => destruct (cell_obj s2 n)
  end; exact Hstate.
Qed.

Lemma pw_init_grid_filled s :
  List.length (pw_grid s) = PW_NUM_CELLS ->
  grid_filled PW_NUM_CELLS (pw_init_grid s).
Proof.
  intros Hlen. unfold pw_init_grid.
  apply (fold_left_seq_inv (fun gy s => grid_filled (gy * PW_GRID_W) s)).
  - intros gy s0 Hy H0.
    replace (Datatypes.S gy * PW_GRID_W)%nat with (gy * PW_GRID_W + PW_GRID_W)%nat
      by (unfold PW_GRID_W; lia).
    apply (fold_left_seq_inv (fun gx s => grid_filled (gy * PW_GRID_W + gx) s)
             (fun s gx => pw_init_grid_cell gy gx s)).
    + intros gx s1 Hx H1.
      replace (gy * PW_GRID_W + Datatypes.S gx)%nat
        with (Datatypes.S (gy * PW_GRID_W + gx)) by lia.
      now apply pw_init_grid_cell_filled.
    + now rewrite Nat.add_0_r.
  - repeat split; assumption || reflexivity.
Qed.

Lemma pw_init_grid_half s :
  List.length (pw_grid s) = PW_NUM_CELLS ->
  pw_grid (pw_init_grid s) = pw_half_grid
  /\ pw_score1 (pw_init_grid s) = 54 /\ pw_score2 (pw_init_grid s) = 54.
Proof.
  intros Hlen. destruct (pw_init_grid_filled s Hlen) as (Hl & Ht & H1 & H2).
  rewrite take_ge in Ht by (rewrite Hl; lia).
  rewrite (take_ge pw_half_grid) in Ht by (vm_compute; lia).
  rewrite H1, H2. repeat split; [exact Ht|..]; reflexivity.
Qed.

(** *** What each function leaves alone *)

Lemma quiet_from_refl s : quiet_from (trace s) s.
Proof. exists []. split; [now rewrite app_nil_r | constructor]. Qed.

Lemma quiet_from_emit t0 s c :
  is_alloc c = false -> quiet_from t0 s -> quiet_from t0 (emit c s).
Proof.
  intros Hc (d & E & Hd). exists (d ++ [c]). cbn. split; [now rewrite E, app_assoc|].
  apply Forall_app. split; [exact Hd | now constructor].
Qed.

Lemma quiet_from_same t0 s s' :
  trace s' = trace s -> quiet_from t0 s -> quiet_from t0 s'.
Proof. intros E (d & Ht & Hd). exists d. now rewrite E. Qed.

Lemma quiet_snoc t0 t c :
  is_alloc c = false ->
  (exists d, t = t0 ++ d /\ Forall (fun c => is_alloc c = false) d) ->
  exists d, t ++ [c] = t0 ++ d /\ Forall (fun c => is_alloc c = false) d.
Proof.
  intros Hc (d & -> & Hd). exists (d ++ [c]). split; [now rewrite app_assoc|].
  apply Forall_app. split; [exact Hd | now constructor].
Qed.

Ltac pw_cases :=
  repeat match goal with
         | |- context [match ?x with _ => _ end] => destruct x eqn:?
         end.

Ltac quiet :=
  unfold quiet_from in *; cbn in *;
  repeat (apply quiet_snoc; [reflexivity|]); assumption.

Lemma pw_init_grid_cell_frame t0 gy gx s :
  let s' := pw_init_grid_cell gy gx s in
  widgets s' = widgets s /\ pw_balls s' = pw_balls s
  /\ (quiet_from t0 s -> quiet_from t0 s').
Proof.
  unfold pw_init_grid_cell. cbv zeta. pw_cases; repeat split; try reflexivity;
    intros Hq; quiet.
Qed.

Lemma pw_init_grid_frame s :
  widgets (pw_init_grid s) = widgets s
  /\ pw_balls (pw_init_grid s) = pw_balls s
  /\ quiet_from (trace s) (pw_init_grid s).
Proof.
  unfold pw_init_grid.
  apply (fold_left_inv (fun s' => widgets s' = widgets s /\ pw_balls s' = pw_balls s
                                  /\ quiet_from (trace s) s')).
  - intros s0 gy H0. apply fold_left_inv; [|exact H0].
    intros s1 gx (Hw & Hb & Hq).
    destruct (pw_init_grid_cell_frame (trace s) gy gx s1) as (Hw' & Hb' & Hq').
    repeat split; [congruence | congruence | auto].
  - repeat split; try reflexivity. apply (quiet_from_refl s).
Qed.

Lemma pw_rand_range s : 0 <= fst (pw_rand s) <= 32767.
Proof.
  unfold pw_rand. cbn [fst].
  change 32767 with (Z.ones 15) at 1 2. rewrite Z.land_ones by lia.
  pose proof (Z.mod_pos_bound
                (Z.shiftr (to_uint32 (pw_rand_seed s * 1103515245 + 12345)) 16)
                (2 ^ 15) ltac:(lia)) as H.
  change (2 ^ 15) with 32768 in *. lia.
Qed.

Lemma pw_rand_shape s :
  exists r z, pw_rand s = (r, set_pw_rand_seed z s) /\ 0 <= r <= 32767.
Proof.
  pose proof (pw_rand_range s) as Hr. unfold pw_rand in *.
  eexists _, _. split; [reflexivity | exact Hr].
Qed.

Lemma rem_range r m : 0 <= r -> 0 < m -> 0 <= Z.rem r m < m.
Proof. intros. apply Z.rem_bound_pos; lia. Qed.

Lemma pw_select_random_palette_shape s :
  exists idx z t1 t2 b1 b2,
    (idx < 6)%nat
    /\ pw_color_palettes !! idx = Some (t1, t2, b1, b2)
    /\ pw_select_random_palette s
       = emit (LOG_INF ("Pong Wars palette: " +++ fmt_d (Z.of_nat idx)))
           (set_pw_color_ball2 b2
              (set_pw_color_ball1 b1
                 (set_pw_color_team2 t2
                    (set_pw_color_team1 t1 (set_pw_rand_seed z s))))).
Proof.
  destruct (pw_rand_shape s) as (r & z & E & Hr).
  pose proof (rem_range r PW_NUM_PALETTES ltac:(lia) ltac:(reflexivity)) as Hidx.
  unfold pw_select_random_palette. rewrite E.
  change PW_NUM_PALETTES with 6 in *.
  exists (Z.to_nat (Z.rem r 6)), z.
  rewrite Z2Nat.id by lia.
  assert (Hc : Z.rem r 6 = 0 \/ Z.rem r 6 = 1 \/ Z.rem r 6 = 2 \/ Z.rem r 6 = 3
               \/ Z.rem r 6 = 4 \/ Z.rem r 6 = 5) by lia.
  destruct Hc as [Hc|[Hc|[Hc|[Hc|[Hc|Hc]]]]]; rewrite Hc;
    eexists _, _, _, _; (split; [cbn; lia|]); split; reflexivity.
Qed.

Lemma pw_init_ball_shape i s :
  (i < PW_NUM_BALLS)%nat -> 40 <= pw_base_speed s <= 60 ->
  exists b z,
    pw_init_ball i s = set_pw_balls (<[i := b]> (pw_balls s)) (set_pw_rand_seed z s)
    /\ fresh_ball i (pw_base_speed s) b.
Proof.
  intros Hi Hv. unfold pw_init_ball.
  destruct (pw_rand_shape s) as (r1 & z1 & E1 & Hr1). rewrite E1.
  destruct (pw_rand_shape (set_pw_rand_seed z1 s)) as (r2 & z2 & E2 & Hr2). rewrite E2.
  destruct (pw_rand_shape (set_pw_rand_seed z2 (set_pw_rand_seed z1 s)))
    as (r3 & z3 & E3 & Hr3). rewrite E3.
  cbn [pw_base_speed set_pw_rand_seed pw_balls].
  eexists _, z3. split; [reflexivity|].
  pose proof (rem_range r2 10 ltac:(lia) ltac:(lia)) as H2.
  pose proof (rem_range r3 10 ltac:(lia) ltac:(lia)) as H3.
  set (v := pw_base_speed s) in *.
  rewrite (to_uint32_id (v + Z.rem r2 10 - 5)), (to_uint32_id (v + Z.rem r3 10 - 5)) by lia.
  rewrite (to_int_id (v + Z.rem r2 10 - 5)), (to_int_id (v + Z.rem r3 10 - 5))
    by (unfold INT_MIN, INT_MAX; lia).
  unfold fresh_ball. cbn [team x y dx dy].
  assert (Hteam : to_uint8 (Z.of_nat i) = Z.of_nat i)
    by (apply to_uint8_id; unfold PW_NUM_BALLS in Hi; lia).
  assert (Hdy : forall sy, sy = 1 \/ sy = -1 ->
            v - 5 <= Z.abs (to_int16 ((v + Z.rem r3 10 - 5) * sy)) <= v + 4).
  { intros sy [-> | ->]; rewrite to_int16_id; lia. }
  assert (Hsy : forall c : bool, (if c then 1 else -1) = 1 \/ (if c then 1 else -1) = -1)
    by (intros []; auto).
  split; [exact Hteam|]. unfold PW_NUM_BALLS, PW_ARENA_W, PW_ARENA_H in *.
  destruct i as [|[|i]]; [| |lia]; cbn [Nat.eqb andb].
  - split; [reflexivity|]. split; [reflexivity|].
    destruct (Z.rem r1 8 <? 4).
    + rewrite !to_int16_id by lia.
      destruct (Z.ltb_spec ((v + Z.rem r2 10 - 5) * 1) 0); [lia|].
      split; [lia|]. split; [lia|]. apply Hdy, Hsy.
    + rewrite (to_int16_id ((v + Z.rem r2 10 - 5) * -1)) by lia.
      destruct (Z.ltb_spec ((v + Z.rem r2 10 - 5) * -1) 0); [|lia].
      rewrite to_int16_id by lia.
      split; [lia|]. split; [lia|]. apply Hdy, Hsy.
  - split; [reflexivity|]. split; [reflexivity|].
    destruct (Z.rem r1 8 <? 4).
    + rewrite (to_int16_id ((v + Z.rem r2 10 - 5) * 1)) by lia.
      destruct (Z.ltb_spec 0 ((v + Z.rem r2 10 - 5) * 1)); [|lia].
      rewrite to_int16_id by lia.
      split; [lia|]. split; [lia|]. apply Hdy, Hsy.
    + rewrite !to_int16_id by lia.
      destruct (Z.ltb_spec 0 ((v + Z.rem r2 10 - 5) * -1)); [lia|].
      split; [lia|]. split; [lia|]. apply Hdy, Hsy.
Qed.

Lemma pw_init_balls_spec uptime s :
  List.length (pw_balls s) = PW_NUM_BALLS ->
  let s' := pw_init_balls uptime s in
  pw_grid s' = pw_grid s /\ pw_score1 s' = pw_score1 s /\ pw_score2 s' = pw_score2 s
  /\ widgets s' = widgets s
  /\ (forall t0, quiet_from t0 s -> quiet_from t0 s')
  /\ 40 <= pw_base_speed s' <= 60
  /\ (exists idx, (idx < 6)%nat /\ palette_is idx s')
  /\ (exists b0 b1, pw_balls s' = [b0; b1]
                    /\ fresh_ball 0 (pw_base_speed s') b0
                    /\ fresh_ball 1 (pw_base_speed s') b1)
  /\ pw_initialized s' = pw_initialized s /\ pw_timer s' = pw_timer s.
Proof.
  intros Hlen. unfold pw_init_balls.
  destruct (pw_balls s) as [|a0 [|a1 [|? ?]]] eqn:Hballs; try discriminate Hlen.
  destruct (pw_select_random_palette_shape (set_pw_rand_seed (to_uint32 uptime) s))
    as (idx & z0 & t1 & t2 & c1 & c2 & Hidx & Hpal & E0).
  rewrite E0. clear E0.
  match goal with
  | |- context [pw_rand ?s0] =>
      destruct (pw_rand_shape s0) as (r & z1 & E1 & Hr); rewrite E1; clear E1
  end.
  pose proof (rem_range r 21 ltac:(lia) ltac:(lia)) as Hr21.
  rewrite (to_int16_id (40 + Z.rem r 21)) by lia.
  cbn [fold_left seq PW_NUM_BALLS].
  match goal with
  | |- context [pw_init_ball 0 ?s0] =>
      destruct (pw_init_ball_shape 0 s0) as (b0 & z2 & E2 & Hb0);
        [unfold PW_NUM_BALLS; lia | cbn; lia | rewrite E2; clear E2]
  end.
  match goal with
  | |- context [pw_init_ball 1 ?s0] =>
      destruct (pw_init_ball_shape 1 s0) as (b1 & z3 & E3 & Hb1);
        [unfold PW_NUM_BALLS; lia | cbn; lia | rewrite E3; clear E3]
  end.
  cbn in Hb0, Hb1 |- *. rewrite Hballs. cbn.
  repeat split; try lia.
  - intros t0 Hq. quiet.
  - exists idx. split; [exact Hidx | exact Hpal].
  - exists b0, b1. repeat split; apply Hb0 || apply Hb1.
Qed.

(** *** Functions that only draw *)

Lemma emits_only_refl s : emits_only s s.
Proof.
  exists []. split; [|constructor]. rewrite app_nil_r. now destruct s.
Qed.

Lemma emits_only_step s s' c :
  is_alloc c = false -> emits_only s s' -> emits_only s (emit c s').
Proof.
  intros Hc (d & -> & Hd). exists (d ++ [c]). split.
  - unfold emit. cbn. now rewrite app_assoc.
  - apply Forall_app. split; [exact Hd | now constructor].
Qed.

Lemma emits_only_trans s1 s2 s3 :
  emits_only s1 s2 -> emits_only s2 s3 -> emits_only s1 s3.
Proof.
  intros (d1 & -> & H1) (d2 & -> & H2). exists (d1 ++ d2). split.
  - cbn. now rewrite app_assoc.
  - apply Forall_app. now split.
Qed.

Lemma emits_only_fold {A} (f : pw_state -> A -> pw_state) (l : list A) s :
  (forall s0 a, emits_only s0 (f s0 a)) -> emits_only s (fold_left f l s).
Proof.
  intros Hf. apply (fold_left_inv (emits_only s)); [|apply emits_only_refl].
  intros s0 a H0. apply (emits_only_trans _ _ _ H0), Hf.
Qed.

Ltac draws :=
  pw_cases; cbn;
  repeat (apply emits_only_step; [reflexivity|]); apply emits_only_refl.

Lemma pw_update_cell_color_draws gx gy tm s :
  emits_only s (pw_update_cell_color gx gy tm s).
Proof. unfold pw_update_cell_color. draws. Qed.

Lemma pw_update_ball_display_draws i s : emits_only s (pw_update_ball_display i s).
Proof. unfold pw_update_ball_display. draws. Qed.

Lemma pw_update_score_draws s : emits_only s (pw_update_score s).
Proof. unfold pw_update_score. draws. Qed.

Lemma pw_recolor_cells_draws s : emits_only s (pw_recolor_cells s).
Proof. unfold pw_recolor_cells. apply emits_only_fold. intros s0 idx. draws. Qed.

Lemma emits_only_game s s' : emits_only s s' -> game s' = game s.
Proof. intros (d & -> & _). reflexivity. Qed.

Lemma emits_only_widgets s s' : emits_only s s' -> widgets s' = widgets s.
Proof. intros (d & -> & _). reflexivity. Qed.

Lemma emits_only_quiet t0 s s' : emits_only s s' -> quiet_from t0 s -> quiet_from t0 s'.
Proof.
  intros (d & -> & Hd) (d0 & Ht & Hd0). exists (d0 ++ d). cbn. split.
  - now rewrite Ht, app_assoc.
  - apply Forall_app. now split.
Qed.

(** *** One ball, one tick *)

Lemma bounce_range p limit :
  2 * PW_BALL_RADIUS <= limit ->
  PW_BALL_RADIUS <= fst (bounce p limit) <= limit - PW_BALL_RADIUS.
Proof.
  unfold bounce, PW_BALL_RADIUS. intros H.
  destruct (Z.ltb_spec p 6); [cbn; lia|].
  destruct (Z.ltb_spec (limit - 6) p); cbn; lia.
Qed.

Lemma flip_team b : team (flip_dx b) = team b /\ team (flip_dy b) = team b.
Proof. split; reflexivity. Qed.

Lemma grid_ok_game s s' : game s' = game s -> grid_ok s -> grid_ok s'.
Proof.
  unfold game, grid_ok. intros [= Hg H1 H2 Hb]. now rewrite Hg, H1, H2.
Qed.

Lemma teams_ok_game s s' : game s' = game s -> teams_ok s -> teams_ok s'.
Proof. unfold game, teams_ok. intros [= Hg H1 H2 Hb]. now rewrite Hb. Qed.

Lemma pw_convert_cell_spec gx gy idx b s :
  let r := pw_convert_cell gx gy idx b s in
  team (fst r) = team b
  /\ pw_balls (snd r) = pw_balls s
  /\ widgets (snd r) = widgets s
  /\ pw_initialized (snd r) = pw_initialized s
  /\ (grid_ok s -> (idx < PW_NUM_CELLS)%nat -> team b = 0 \/ team b = 1 ->
      grid_at s idx <> team b -> grid_ok (snd r)).
Proof.
  unfold pw_convert_cell. cbv zeta.
  set (s1 := set_pw_grid (<[idx := team b]> (pw_grid s)) s).
  destruct (pw_update_cell_color_draws gx gy (team b) s1) as (d & -> & _).
  match goal with
  | |- context [pw_rand ?s0] =>
      destruct (pw_rand_shape s0) as (r & z & E & _); rewrite E; clear E
  end.
  split; [|split; [|split; [|split]]].
  - destruct (Z.rem r 3 =? 0); [reflexivity|].
    destruct (Z.rem r 3 =? 1); reflexivity.
  - destruct (team b =? 0); reflexivity.
  - destruct (team b =? 0); reflexivity.
  - destruct (team b =? 0); reflexivity.
  - intros (Hlen & Hall & H1 & H2) Hidx Hteam Hne.
    destruct (lookup_lt_is_Some_2 (pw_grid s) idx ltac:(rewrite Hlen; exact Hidx))
      as [c Hc].
    assert (Hcok : c = 0 \/ c = 1).
    { rewrite Forall_forall in Hall. apply Hall.
      apply list_elem_of_lookup. now exists idx. }
    unfold grid_at in Hne. rewrite Hc in Hne. cbn in Hne.
    pose proof (cells_of_insert 0 _ idx c (team b) Hc) as Hi0.
    pose proof (cells_of_insert 1 _ idx c (team b) Hc) as Hi1.
    pose proof (cells_of_bound 0 (pw_grid s)) as Hb0.
    pose proof (cells_of_bound 1 (pw_grid s)) as Hb1.
    rewrite Hlen in Hb0, Hb1. unfold PW_NUM_CELLS, PW_GRID_W, PW_GRID_H in Hb0, Hb1.
    cbn in Hb0, Hb1.
    assert (Hall' : Forall (fun c => c = 0 \/ c = 1) (<[idx := team b]> (pw_grid s))).
    { apply Forall_insert; assumption. }
    unfold grid_ok. subst s1.
    destruct Hteam as [Ht|Ht]; rewrite Ht in *; cbn [Z.eqb Pos.eqb];
      cbn [snd pw_grid pw_score1 pw_score2 set_pw_rand_seed set_pw_score1
           set_pw_score2 set_trace set_pw_grid];
      rewrite length_insert, Hi0, Hi1;
      (destruct Hcok as [-> | ->]; [|]); try congruence; cbn [Z.eqb Pos.eqb];
      rewrite !to_int_id by (unfold INT_MIN, INT_MAX; lia);
      repeat split; try assumption; lia.
Qed.

Lemma pw_step_ball_spec i s b :
  pw_balls s !! i = Some b ->
  exists b',
    pw_balls (pw_step_ball i s) = <[i := b']> (pw_balls s)
    /\ team b' = team b /\ in_arena b'
    /\ (grid_ok s -> team b = 0 \/ team b = 1 -> grid_ok (pw_step_ball i s))
    /\ widgets (pw_step_ball i s) = widgets s
    /\ pw_initialized (pw_step_ball i s) = pw_initialized s.
Proof.
  intros Hb. unfold pw_step_ball. rewrite Hb.
  pose proof (bounce_range (x b + Z.quot (dx b) 10) PW_ARENA_W
                ltac:(unfold PW_BALL_RADIUS, PW_ARENA_W; lia)) as Hx.
  pose proof (bounce_range (y b + Z.quot (dy b) 10) PW_ARENA_H
                ltac:(unfold PW_BALL_RADIUS, PW_ARENA_H; lia)) as Hy.
  destruct (bounce (x b + Z.quot (dx b) 10) PW_ARENA_W) as [nx fx].
  set (bx := if fx then flip_dx b else b).
  assert (Hbx : team bx = team b) by (unfold bx; destruct fx; reflexivity).
  destruct (bounce (y b + Z.quot (dy b) 10) PW_ARENA_H) as [ny fy].
  set (bxy := if fy then flip_dy bx else bx).
  assert (Hbxy : team bxy = team b) by (unfold bxy; destruct fy; exact Hbx).
  cbn [fst] in Hx, Hy. unfold PW_BALL_RADIUS, PW_ARENA_W, PW_ARENA_H in Hx, Hy.
  assert (Hgx : 0 <= Z.quot nx PW_CELL_SIZE < 12).
  { unfold PW_CELL_SIZE. rewrite Z.quot_div_nonneg by lia.
    split; [apply Z.div_pos; lia | apply Z.div_lt_upper_bound; lia]. }
  assert (Hgy : 0 <= Z.quot ny PW_CELL_SIZE < 9).
  { unfold PW_CELL_SIZE. rewrite Z.quot_div_nonneg by lia.
    split; [apply Z.div_pos; lia | apply Z.div_lt_upper_bound; lia]. }
  set (gx := Z.quot nx PW_CELL_SIZE) in *. set (gy := Z.quot ny PW_CELL_SIZE) in *.
  set (idx := Z.to_nat (gy * Z.of_nat PW_GRID_W + gx)).
  assert (Hidx : (idx < PW_NUM_CELLS)%nat).
  { unfold idx, PW_NUM_CELLS, PW_GRID_W, PW_GRID_H. cbn. lia. }
  assert (Hin : forall bf, team bf = team b ->
            in_arena (set_y (to_int16 ny) (set_x (to_int16 nx) bf))
            /\ team (set_y (to_int16 ny) (set_x (to_int16 nx) bf)) = team b).
  { intros bf Hbf. unfold in_arena, PW_BALL_RADIUS, PW_ARENA_W, PW_ARENA_H.
    cbn [x y team set_x set_y]. rewrite !to_int16_id by lia. repeat split; lia || exact Hbf. }
  assert (Hcond : (0 <=? gx) && (gx <? Z.of_nat PW_GRID_W) && (0 <=? gy)
                  && (gy <? Z.of_nat PW_GRID_H) = true).
  { change (Z.of_nat PW_GRID_W) with 12. change (Z.of_nat PW_GRID_H) with 9.
    destruct (Z.leb_spec 0 gx), (Z.ltb_spec gx 12), (Z.leb_spec 0 gy), (Z.ltb_spec gy 9);
      try lia; reflexivity. }
  rewrite Hcond.
  destruct (Z.eqb_spec (grid_at s idx) (team bxy)) as [Heq|Hne]; cbn [negb].
  - (* the cell already belongs to the ball's team *)
    exists (set_y (to_int16 ny) (set_x (to_int16 nx) bxy)).
    destruct (Hin bxy Hbxy) as [Ha Ht].
    match goal with
    | |- context [pw_update_ball_display i ?s0] =>
        destruct (pw_update_ball_display_draws i s0) as (d & -> & _)
    end.
    split; [reflexivity|]. split; [exact Ht|]. split; [exact Ha|].
    split; [|split; reflexivity].
    intros Hg _. exact Hg.
  - pose proof (pw_convert_cell_spec gx gy idx bxy s) as (Hct & Hcb & Hcw & Hci & Hcg).
    destruct (pw_convert_cell gx gy idx bxy s) as [bc sc] eqn:Ec. cbn [fst snd] in *.
    exists (set_y (to_int16 ny) (set_x (to_int16 nx) bc)).
    destruct (Hin bc ltac:(congruence)) as [Ha Ht].
    match goal with
    | |- context [pw_update_ball_display i ?s0] =>
        destruct (pw_update_ball_display_draws i s0) as (d & -> & _)
    end.
    cbn [pw_balls set_trace set_pw_balls pw_initialized].
    rewrite Hcb.
    split; [reflexivity|]. split; [exact Ht|]. split; [exact Ha|].
    split; [|split].
    + intros Hg Hteam. rewrite Hbxy in *. exact (Hcg Hg Hidx Hteam Hne).
    + exact Hcw.
    + exact Hci.
Qed.

(** *** A whole tick *)

Lemma pw_step_ball_none i s : pw_balls s !! i = None -> pw_step_ball i s = s.
Proof. intros H. unfold pw_step_ball. now rewrite H. Qed.

Lemma pw_step_unfold s :
  pw_step s = if negb (pw_initialized s) then s
              else pw_step_ball 1 (pw_step_ball 0 s).
Proof. reflexivity. Qed.

Lemma pw_step_scores_ok s : scores_ok s -> scores_ok (pw_step s).
Proof.
  intros [Hg (b0 & b1 & Hb & Ht0 & Ht1)]. rewrite pw_step_unfold.
  destruct (pw_initialized s); cbn [negb]; [|split; [exact Hg | now exists b0, b1]].
  destruct (pw_step_ball_spec 0 s b0 ltac:(now rewrite Hb))
    as (b0' & Hb' & Ht0' & _ & Hg' & _).
  rewrite Hb in Hb'. cbn in Hb'.
  specialize (Hg' Hg (or_introl Ht0)).
  destruct (pw_step_ball_spec 1 (pw_step_ball 0 s) b1 ltac:(now rewrite Hb'))
    as (b1' & Hb'' & Ht1' & _ & Hg'' & _).
  rewrite Hb' in Hb''. cbn in Hb''.
  split; [apply Hg''; [exact Hg' | right; exact Ht1]|].
  exists b0', b1'. repeat split; congruence.
Qed.

Lemma pw_step_in_arena s i b :
  (i < PW_NUM_BALLS)%nat -> pw_balls s !! i = Some b ->
  pw_initialized s = true \/ in_arena b ->
  exists b', pw_balls (pw_step s) !! i = Some b' /\ in_arena b'.
Proof.
  intros Hi Hb Hor. rewrite pw_step_unfold.
  destruct (pw_initialized s); cbn [negb];
    [| destruct Hor as [Hor|Hor]; [discriminate | now exists b]].
  pose proof (lookup_lt_Some _ _ _ Hb) as Hlen.
  unfold PW_NUM_BALLS in Hi. destruct i as [|[|i]]; [| |lia].
  - destruct (pw_step_ball_spec 0 s b Hb) as (b0' & Hb' & _ & Ha & _).
    assert (H0 : pw_balls (pw_step_ball 0 s) !! 0%nat = Some b0').
    { rewrite Hb'. apply list_lookup_insert_eq. exact Hlen. }
    exists b0'. split; [|exact Ha].
    destruct (pw_balls (pw_step_ball 0 s) !! 1%nat) as [b1|] eqn:H1.
    + destruct (pw_step_ball_spec 1 _ b1 H1) as (b1' & Hb'' & _).
      rewrite Hb''. rewrite list_lookup_insert_ne by lia. exact H0.
    + rewrite (pw_step_ball_none _ _ H1). exact H0.
  - destruct (lookup_lt_is_Some_2 (pw_balls s) 0 ltac:(lia)) as [b0 Hb0].
    destruct (pw_step_ball_spec 0 s b0 Hb0) as (b0' & Hb' & _).
    assert (H1 : pw_balls (pw_step_ball 0 s) !! 1%nat = Some b).
    { rewrite Hb'. rewrite list_lookup_insert_ne by lia. exact Hb. }
    destruct (pw_step_ball_spec 1 _ b H1) as (b1' & Hb'' & _ & Ha & _).
    exists b1'. split; [|exact Ha].
    rewrite Hb''. apply list_lookup_insert_eq.
    rewrite Hb', length_insert. exact Hlen.
Qed.

(** *** Reset, teardown and construction *)

Lemma pw_stop_timer_spec s :
  game (pw_stop_timer s) = game s /\ widgets (pw_stop_timer s) = widgets s
  /\ (forall t0, quiet_from t0 s -> quiet_from t0 (pw_stop_timer s)).
Proof.
  unfold pw_stop_timer. destruct (pw_timer s); repeat split; auto.
  intros t0 Hq. quiet.
Qed.

Lemma pw_reset_ball_draws i s : emits_only s (pw_reset_ball i s).
Proof.
  unfold pw_reset_ball. destruct (ball_obj s i); [|apply emits_only_refl].
  cbv zeta. eapply emits_only_trans; [|apply pw_update_ball_display_draws].
  repeat (apply emits_only_step; [reflexivity|]). apply emits_only_refl.
Qed.

Lemma pw_reset_score_labels_draws s : emits_only s (pw_reset_score_labels s).
Proof. unfold pw_reset_score_labels. cbv zeta. draws. Qed.

(** The second half of [pw_reset_game], after [pw_init_balls]: it
    redraws, sets [pw_initialized] and starts a timer. *)
Lemma pw_reset_redraw timer_result s3 :
  let s' :=
    emit (LOG_INF "Pong Wars reset! (new colors/speed)")
      (set_pw_timer timer_result
         (emit (lv_timer_create 33 timer_result)
            (set_pw_initialized true
               (pw_update_score
                  (pw_reset_score_labels
                     (fold_left (fun s i => pw_reset_ball i s) (seq 0 PW_NUM_BALLS)
                        (pw_recolor_cells s3))))))) in
  game s' = game s3 /\ widgets s' = widgets s3
  /\ pw_base_speed s' = pw_base_speed s3
  /\ (forall idx, palette_is idx s3 -> palette_is idx s')
  /\ (forall t0, quiet_from t0 s3 -> quiet_from t0 s')
  /\ pw_initialized s' = true.
Proof.
  assert (Hd : emits_only s3
            (pw_update_score
               (pw_reset_score_labels
                  (fold_left (fun s i => pw_reset_ball i s) (seq 0 PW_NUM_BALLS)
                     (pw_recolor_cells s3))))).
  { eapply emits_only_trans; [|apply pw_update_score_draws].
    eapply emits_only_trans; [|apply pw_reset_score_labels_draws].
    eapply emits_only_trans; [apply pw_recolor_cells_draws|].
    apply emits_only_fold. intros s0 i. apply pw_reset_ball_draws. }
  destruct Hd as (d & E & Hd). rewrite E. clear E. cbv zeta.
  split; [reflexivity|]. split; [reflexivity|]. split; [reflexivity|].
  split; [intros idx H; exact H|]. split; [|reflexivity].
  intros t0 (d0 & E0 & Hd0).
  exists (d0 ++ d ++ [lv_timer_create 33 timer_result;
                      LOG_INF "Pong Wars reset! (new colors/speed)"]).
  split.
  - cbn. rewrite E0. now rewrite <- !app_assoc.
  - apply Forall_app. split; [exact Hd0|]. apply Forall_app. split; [exact Hd|].
    repeat constructor.
Qed.

(** What [pw_reset_game] leaves when it runs. *)
Lemma pw_reset_game_spec uptime timer_result s :
  pw_initialized s = true -> pw_arena_container s <> None ->
  List.length (pw_grid s) = PW_NUM_CELLS -> List.length (pw_balls s) = PW_NUM_BALLS ->
  let s' := pw_reset_game uptime timer_result s in
  pw_grid s' = pw_half_grid /\ pw_score1 s' = 54 /\ pw_score2 s' = 54
  /\ 40 <= pw_base_speed s' <= 60
  /\ (exists idx, (idx < 6)%nat /\ palette_is idx s')
  /\ (exists b0 b1, pw_balls s' = [b0; b1]
                    /\ fresh_ball 0 (pw_base_speed s') b0
                    /\ fresh_ball 1 (pw_base_speed s') b1)
  /\ widgets s' = widgets s /\ quiet_from (trace s) s'
  /\ pw_initialized s' = true.
Proof.
  intros Hinit Harena Hlg Hlb. unfold pw_reset_game. rewrite Hinit. cbn [negb].
  destruct (pw_arena_container s) as [arena|]; [clear Harena | contradiction].
  cbv zeta.
  destruct (pw_stop_timer_spec (set_pw_initialized false s)) as (Hg1 & Hw1 & Hq1).
  generalize dependent (pw_stop_timer (set_pw_initialized false s)). intros s1 Hg1 Hw1 Hq1.
  assert (Hlg1 : List.length (pw_grid s1) = PW_NUM_CELLS)
    by (injection Hg1 as -> _ _ _; exact Hlg).
  assert (Hlb1 : List.length (pw_balls s1) = PW_NUM_BALLS)
    by (injection Hg1 as _ _ _ ->; exact Hlb).
  destruct (pw_init_grid_half s1 Hlg1) as (Hh & Hs1 & Hs2).
  destruct (pw_init_grid_frame s1) as (Hw2 & Hb2 & Hq2).
  generalize dependent (pw_init_grid s1). intros s2 Hh Hs1 Hs2 Hw2 Hb2 Hq2.
  destruct (pw_init_balls_spec uptime s2 ltac:(now rewrite Hb2))
    as (Hg3 & H31 & H32 & Hw3 & Hq3 & Hv & Hpal & Hballs & _).
  generalize dependent (pw_init_balls uptime s2).
  intros s3 Hg3 H31 H32 Hw3 Hq3 Hv Hpal Hballs.
  destruct (pw_reset_redraw timer_result s3) as (Hg & Hw & Hsp & Hp & Hq & Hi).
  match goal with
  | |- context [pw_initialized ?t = true] => generalize dependent t
  end.
  intros s' Hg Hw Hsp Hp Hq Hi.
  unfold game in Hg. injection Hg as Eg E1 E2 Eb.
  rewrite Eg, E1, E2, Eb, Hsp, Hw, Hw3, Hw2, Hw1, Hg3, H31, H32, Hh, Hs1, Hs2.
  split; [reflexivity|]. split; [reflexivity|]. split; [reflexivity|].
  split; [exact Hv|].
  split; [destruct Hpal as (idx & Hidx & Hpal); exists idx; split; [exact Hidx | now apply Hp]|].
  split; [exact Hballs|].
  split; [reflexivity|]. split; [|exact Hi].
  apply Hq, Hq3.
  destruct Hq2 as (d2 & Ed2 & F2).
  destruct (Hq1 (trace s) (quiet_from_refl (set_pw_initialized false s)))
    as (d1 & Ed1 & F1).
  exists (d1 ++ d2). split; [rewrite Ed2, Ed1; now rewrite app_assoc|].
  apply Forall_app. now split.
Qed.

(** *** The invariant along every run *)

Lemma grid_ok_sum s :
  grid_ok s -> pw_score1 s + pw_score2 s = Z.of_nat PW_NUM_CELLS.
Proof.
  intros (Hlen & Hall & H1 & H2). rewrite H1, H2, (cells_total _ Hall), Hlen.
  reflexivity.
Qed.

Lemma half_grid_ok s :
  pw_grid s = pw_half_grid -> pw_score1 s = 54 -> pw_score2 s = 54 -> grid_ok s.
Proof.
  intros Hg H1 H2. unfold grid_ok. rewrite Hg, H1, H2.
  split; [reflexivity|]. split; [|split; reflexivity].
  unfold pw_half_grid. apply Forall_forall. intros c Hc.
  apply list_elem_of_fmap in Hc as (idx & -> & _).
  destruct (idx mod PW_GRID_W <? PW_GRID_W / 2)%nat; auto.
Qed.

Lemma fresh_teams_ok s b0 b1 v :
  pw_balls s = [b0; b1] -> fresh_ball 0 v b0 -> fresh_ball 1 v b1 -> teams_ok s.
Proof.
  intros Hb (H0 & _) (H1 & _). exists b0, b1. repeat split; assumption.
Qed.

Lemma scores_ok_game s s' : game s' = game s -> scores_ok s -> scores_ok s'.
Proof.
  intros Hg [H1 H2]. split; [now apply (grid_ok_game s) | now apply (teams_ok_game s)].
Qed.

Lemma scores_ok_lengths s :
  scores_ok s ->
  List.length (pw_grid s) = PW_NUM_CELLS /\ List.length (pw_balls s) = PW_NUM_BALLS.
Proof.
  intros [(Hlen & _) (b0 & b1 & Hb & _)]. split; [exact Hlen | now rewrite Hb].
Qed.

Lemma pw_timer_cb_scores_ok s : scores_ok s -> scores_ok (pw_timer_cb s).
Proof.
  intros H. unfold pw_timer_cb. destruct (pw_initialized s); cbn [negb]; [|exact H].
  cbv zeta.
  assert (H1 : scores_ok (pw_step (set_frame_count (to_uint16 (frame_count s + 1)) s))).
  { apply pw_step_scores_ok. exact H. }
  match goal with
  | |- context [if ?c then _ else _] => destruct c
  end; [|exact H1].
  eapply scores_ok_game; [|exact H1].
  apply emits_only_game, pw_update_score_draws.
Qed.

Lemma pw_reset_game_scores_ok uptime timer_result s :
  scores_ok s -> scores_ok (pw_reset_game uptime timer_result s).
Proof.
  intros H. destruct (scores_ok_lengths s H) as [Hlg Hlb].
  destruct (pw_initialized s) eqn:Hinit;
    [| unfold pw_reset_game; rewrite Hinit; exact H].
  destruct (pw_arena_container s) as [arena|] eqn:Harena;
    [| unfold pw_reset_game; rewrite Hinit, Harena; exact H].
  destruct (pw_reset_game_spec uptime timer_result s Hinit
              ltac:(rewrite Harena; discriminate) Hlg Hlb)
    as (Hg & H1 & H2 & _ & _ & (b0 & b1 & Hb & Hf0 & Hf1) & _).
  split; [now apply half_grid_ok | exact (fresh_teams_ok _ b0 b1 _ Hb Hf0 Hf1)].
Qed.

Lemma pw_tap_handler_scores_ok uptime timer_result s :
  scores_ok s -> scores_ok (pw_tap_handler uptime timer_result s).
Proof. intros H. unfold pw_tap_handler. apply pw_reset_game_scores_ok. exact H. Qed.

Lemma destroy_pong_wars_widgets_scores_ok s :
  scores_ok s -> scores_ok (destroy_pong_wars_widgets s).
Proof.
  intros H. eapply scores_ok_game; [|exact H].
  unfold destroy_pong_wars_widgets. cbv zeta.
  destruct (pw_stop_timer_spec (set_pw_initialized false (set_pong_wars_active false s)))
    as (Hg & _).
  generalize dependent (pw_stop_timer
                          (set_pw_initialized false (set_pong_wars_active false s))).
  intros s1 Hg. exact Hg.
Qed.

Lemma pw_create_cell_game a gy gx s : game (pw_create_cell a gy gx s) = game s.
Proof. unfold pw_create_cell. cbv zeta. pw_cases; reflexivity. Qed.

Lemma pw_create_ball_game a i s : game (pw_create_ball a i s) = game s.
Proof.
  unfold pw_create_ball. cbv zeta. destruct (default None (new_balls a !! i)); [|reflexivity].
  match goal with
  | |- context [pw_update_ball_display i ?s0] =>
      rewrite (emits_only_game _ _ (pw_update_ball_display_draws i s0))
  end.
  reflexivity.
Qed.

Lemma pw_create_labels_game screen a s : game (pw_create_labels screen a s) = game s.
Proof. unfold pw_create_labels. cbv zeta. pw_cases; reflexivity. Qed.

Lemma pw_create_arena_game screen a s : game (pw_create_arena screen a s) = game s.
Proof. unfold pw_create_arena. cbv zeta. pw_cases; reflexivity. Qed.

Lemma pw_create_hint_game screen a s : game (pw_create_hint screen a s) = game s.
Proof. unfold pw_create_hint. cbv zeta. pw_cases; reflexivity. Qed.

Lemma fold_game {A} (f : pw_state -> A -> pw_state) (l : list A) s :
  (forall s0 a, game (f s0 a) = game s0) -> game (fold_left f l s) = game s.
Proof.
  intros Hf. apply (fold_left_inv (fun s' => game s' = game s)); [|reflexivity].
  intros s0 a H0. now rewrite Hf.
Qed.

Lemma create_pong_wars_widgets_game uptime screen a s :
  game (create_pong_wars_widgets uptime screen a s)
  = game (pw_init_balls uptime
            (pw_init_grid
               (set_pw_initialized false
                  (emit (LOG_INF "Creating Pong Wars (smooth version)...") s)))).
Proof.
  unfold create_pong_wars_widgets. cbv zeta.
  generalize (pw_init_balls uptime
                (pw_init_grid
                   (set_pw_initialized false
                      (emit (LOG_INF "Creating Pong Wars (smooth version)...") s)))).
  intros s4.
  change (game (set_pw_timer (new_timer a) ?x)) with (game x).
  etransitivity; [apply pw_create_hint_game|].
  etransitivity; [apply emits_only_game, pw_update_score_draws|].
  etransitivity; [apply fold_game; intros; apply pw_create_ball_game|].
  etransitivity; [apply (fold_game (fun s gy => fold_left _ _ s));
                  intros; apply fold_game; intros; apply pw_create_cell_game|].
  etransitivity; [apply pw_create_arena_game|].
  etransitivity; [apply pw_create_labels_game|].
  reflexivity.
Qed.

Lemma create_pong_wars_widgets_scores_ok uptime screen a s :
  arrays_ok s -> scores_ok (create_pong_wars_widgets uptime screen a s).
Proof.
  intros (Hlg & _ & _ & Hlb).
  eapply scores_ok_game; [apply create_pong_wars_widgets_game|].
  set (s1 := set_pw_initialized false
               (emit (LOG_INF "Creating Pong Wars (smooth version)...") s)).
  assert (Hlg1 : List.length (pw_grid s1) = PW_NUM_CELLS) by exact Hlg.
  assert (Hlb1 : List.length (pw_balls s1) = PW_NUM_BALLS) by exact Hlb.
  clearbody s1.
  destruct (pw_init_grid_half s1 Hlg1) as (Hh & Hs1 & Hs2).
  destruct (pw_init_grid_frame s1) as (_ & Hb2 & _).
  generalize dependent (pw_init_grid s1). intros s2 Hh Hs1 Hs2 Hb2.
  destruct (pw_init_balls_spec uptime s2 ltac:(now rewrite Hb2))
    as (Hg3 & H31 & H32 & _ & _ & _ & _ & (b0 & b1 & Hb & Hf0 & Hf1) & _).
  generalize dependent (pw_init_balls uptime s2). intros s3 Hg3 H31 H32 Hb Hf0 Hf1.
  split; [apply half_grid_ok; congruence | exact (fresh_teams_ok _ b0 b1 _ Hb Hf0 Hf1)].
Qed.

Lemma reachable_scores_ok s : reachable s -> scores_ok s.
Proof.
  induction 1.
  - now apply create_pong_wars_widgets_scores_ok.
  - now apply pw_step_scores_ok.
  - now apply pw_timer_cb_scores_ok.
  - now apply pw_reset_game_scores_ok.
  - now apply pw_tap_handler_scores_ok.
  - now apply destroy_pong_wars_widgets_scores_ok.
Qed.

(** *** The three claims *)

(** C1: [pw_init_grid] leaves [pw_score1 + pw_score2] equal to the
    number of grid cells (12 * 9 = 108), and in every reachable state of
    the simulation the sum is 108 and stays 108 after [pw_step], after
    the move of each single ball within a step (so after each cell
    conversion) and after [pw_reset_game]. *)
Theorem score_sum_invariant :
  Z.of_nat PW_NUM_CELLS = 108
  /\ (forall s, List.length (pw_grid s) = PW_NUM_CELLS ->
                pw_score1 (pw_init_grid s) + pw_score2 (pw_init_grid s)
                = Z.of_nat PW_NUM_CELLS)
  /\ (forall s, reachable s ->
        pw_score1 s + pw_score2 s = Z.of_nat PW_NUM_CELLS
        /\ pw_score1 (pw_step s) + pw_score2 (pw_step s) = Z.of_nat PW_NUM_CELLS
        /\ (forall i, (i < PW_NUM_BALLS)%nat ->
              pw_score1 (pw_step_ball i s) + pw_score2 (pw_step_ball i s)
              = Z.of_nat PW_NUM_CELLS)
        /\ (forall uptime timer_result,
              pw_score1 (pw_reset_game uptime timer_result s)
              + pw_score2 (pw_reset_game uptime timer_result s)
              = Z.of_nat PW_NUM_CELLS)).
Proof.
  split; [reflexivity|]. split.
  - intros s Hlen. destruct (pw_init_grid_half s Hlen) as (_ & -> & ->). reflexivity.
  - intros s Hr. pose proof (reachable_scores_ok s Hr) as Hok.
    split; [apply grid_ok_sum, Hok|].
    split; [apply grid_ok_sum, (pw_step_scores_ok s Hok)|].
    split.
    + intros i Hi. apply grid_ok_sum.
      destruct Hok as [Hg (b0 & b1 & Hb & Ht0 & Ht1)].
      unfold PW_NUM_BALLS in Hi. destruct i as [|[|i]]; [| |lia].
      * destruct (pw_step_ball_spec 0 s b0 ltac:(now rewrite Hb)) as (_ & _ & _ & _ & H & _).
        apply H; [exact Hg | now left].
      * destruct (pw_step_ball_spec 1 s b1 ltac:(now rewrite Hb)) as (_ & _ & _ & _ & H & _).
        apply H; [exact Hg | now right].
    + intros uptime timer_result.
      apply grid_ok_sum, (pw_reset_game_scores_ok uptime timer_result s Hok).
Qed.

Lemma pw_boot_arrays_ok : arrays_ok pw_boot.
Proof. repeat split. Defined.

Lemma score_sum_invariant_witness :
  pw_score1 (pw_step pw_sample) + pw_score2 (pw_step pw_sample) = Z.of_nat PW_NUM_CELLS.
Proof.
  destruct score_sum_invariant as (_ & _ & H).
  destruct (H pw_sample) as (_ & Hstep & _).
  - apply reach_create. exact pw_boot_arrays_ok.
  - exact Hstep.
Defined.

(** C7: from every initialized simulation state (with its arena
    container, which is where the reset is triggered), [pw_reset_game]
    leaves a valid initial state: in every row the left six columns
    belong to team 0 and the right six to team 1, the scores are 54 and
    54, the base speed lies in 40..60, the four colours are one of the
    six rows of [pw_color_palettes], the two balls start on their own
    halves with every velocity component within the jitter of the base
    speed; the cell and ball widgets are the same objects as before and
    no call made by the reset creates or frees a widget. *)
Theorem pw_reset_game_valid uptime timer_result s :
  pw_initialized s = true -> pw_arena_container s <> None -> arrays_ok s ->
  let s' := pw_reset_game uptime timer_result s in
  (forall gy gx, (gy < PW_GRID_H)%nat -> (gx < PW_GRID_W)%nat ->
                 grid_at s' (gy * PW_GRID_W + gx) = if (gx <? 6)%nat then 0 else 1)
  /\ pw_score1 s' = 54 /\ pw_score2 s' = 54
  /\ 40 <= pw_base_speed s' <= 60
  /\ (exists idx, (idx < List.length pw_color_palettes)%nat /\ palette_is idx s')
  /\ (exists b0 b1, pw_balls s' = [b0; b1]
                    /\ fresh_ball 0 (pw_base_speed s') b0
                    /\ fresh_ball 1 (pw_base_speed s') b1)
  /\ pw_cell_objs s' = pw_cell_objs s /\ pw_ball_objs s' = pw_ball_objs s
  /\ (exists d, trace s' = trace s ++ d /\ Forall (fun c => is_alloc c = false) d)
  /\ pw_initialized s' = true.
Proof.
  intros Hinit Harena (Hlg & _ & _ & Hlb).
  destruct (pw_reset_game_spec uptime timer_result s Hinit Harena Hlg Hlb)
    as (Hg & H1 & H2 & Hv & Hp & Hb & Hw & Hq & Hi).
  cbv zeta. unfold widgets in Hw. injection Hw as Hc Hbo _ _ _.
  split.
  { intros gy gx Hy Hx. unfold grid_at. rewrite Hg, (half_grid_lookup gy gx Hy Hx).
    reflexivity. }
  split; [exact H1|]. split; [exact H2|]. split; [exact Hv|].
  split; [exact Hp|]. split; [exact Hb|]. split; [exact Hc|]. split; [exact Hbo|].
  split; [exact Hq | exact Hi].
Qed.

Lemma pw_reset_game_valid_witness :
  pw_score1 (pw_reset_game 99 (Some 2%nat) pw_sample) = 54
  /\ pw_score2 (pw_reset_game 99 (Some 2%nat) pw_sample) = 54.
Proof.
  destruct (pw_reset_game_valid 99 (Some 2%nat) pw_sample) as (_ & H1 & H2 & _).
  - vm_compute. reflexivity.
  - vm_compute. discriminate.
  - unfold arrays_ok. vm_compute. repeat split.
  - split; assumption.
Defined.

(** C10: for every ball, a call of [pw_step] from a state where the
    ball lies within the arena (and every call in an initialized
    simulation, wherever the ball was) leaves its position with
    [PW_BALL_RADIUS <= x <= PW_ARENA_W - PW_BALL_RADIUS] and
    [PW_BALL_RADIUS <= y <= PW_ARENA_H - PW_BALL_RADIUS]. *)
Theorem pw_step_keeps_balls_in_arena s i b :
  (i < PW_NUM_BALLS)%nat -> pw_balls s !! i = Some b ->
  pw_initialized s = true \/ in_arena b ->
  exists b',
    pw_balls (pw_step s) !! i = Some b'
    /\ PW_BALL_RADIUS <= x b' <= PW_ARENA_W - PW_BALL_RADIUS
    /\ PW_BALL_RADIUS <= y b' <= PW_ARENA_H - PW_BALL_RADIUS.
Proof. exact (pw_step_in_arena s i b). Qed.

Lemma pw_step_keeps_balls_in_arena_witness :
  exists b',
    pw_balls (pw_step pw_sample) !! 1%nat = Some b'
    /\ PW_BALL_RADIUS <= x b' <= PW_ARENA_W - PW_BALL_RADIUS
    /\ PW_BALL_RADIUS <= y b' <= PW_ARENA_H - PW_BALL_RADIUS.
Proof.
  apply (pw_step_keeps_balls_in_arena pw_sample 1%nat
           {| x := 180; y := 90; dx := -51; dy := -55; team := 1 |}).
  - unfold PW_NUM_BALLS. lia.
  - vm_compute. reflexivity.
  - left. vm_compute. reflexivity.
Defined.

End PongWarsProperties.

(** ** Checks over a range of integers, and text that fits *)

Lemma all_from_spec n : forall p f,
  all_from n p f = true -> forall q, p <= q < p + Z.of_nat n -> f q = true.
Proof.
  induction n as [|n IH]; intros p f H q Hq; [lia|].
  cbn [all_from] in H. apply andb_true_iff in H as [H0 H1].
  destruct (Z.eq_dec q p) as [->|Hne]; [exact H0|].
  apply (IH (p + 1) f H1). lia.
Qed.

Lemma rendered_text_single o t : rendered_text o [lv_label_set_text o t] = Some t.
Proof. apply (rendered_text_last o t []). Qed.

Lemma fmt_d_length_signed (k : nat) n :
  (1 <= k)%nat -> - 10 ^ Z.of_nat k < n < 10 ^ Z.of_nat k ->
  (String.length (fmt_d n) <= S k)%nat.
Proof.
  intros Hk Hn. destruct (Z_lt_le_dec n 0) as [Hneg|Hpos].
  - unfold fmt_d. destruct (Z.ltb_spec n 0); [|lia].
    pose proof (fmt_u_length 19 k (- n) "" Hk ltac:(lia)) as H1.
    cbn [String.length] in *. lia.
  - pose proof (fmt_d_length k n Hk ltac:(lia)). lia.
Qed.

(** ** Pong Wars: play, teardown and construction *)

Section PongWarsPlayProperties.
Import PongWars PongWarsPlay.

Ltac pw_cases :=
  repeat match goal with
         | |- context [match ?x with _ => _ end] => destruct x eqn:?
         end.

Lemma to_int16_neg_abs v :
  - 32768 <= v <= 32767 -> Z.abs (to_int16 (- v)) = Z.abs v.
Proof.
  intros H. destruct (Z.eq_dec v (-32768)) as [->|Hne]; [reflexivity|].
  rewrite to_int16_id by lia. lia.
Qed.

Lemma to_int16_range v : - 32768 <= to_int16 v <= 32767.
Proof.
  unfold to_int16, wrap_signed.
  change (2 ^ (16 - 1)) with 32768. change (2 ^ 16) with 65536.
  pose proof (Z.mod_pos_bound (v + 32768) 65536 ltac:(lia)). lia.
Qed.

Lemma flip_dx_speed b0 b :
  int16_velocity b -> same_speed b0 b ->
  int16_velocity (flip_dx b) /\ same_speed b0 (flip_dx b).
Proof.
  intros [Hx Hy] (H1 & H2 & H3). unfold int16_velocity, same_speed, flip_dx.
  cbn [dx dy team set_dx]. rewrite to_int16_neg_abs by exact Hx.
  pose proof (to_int16_range (- dx b)). tauto.
Qed.

Lemma flip_dy_speed b0 b :
  int16_velocity b -> same_speed b0 b ->
  int16_velocity (flip_dy b) /\ same_speed b0 (flip_dy b).
Proof.
  intros [Hx Hy] (H1 & H2 & H3). unfold int16_velocity, same_speed, flip_dy.
  cbn [dx dy team set_dy]. rewrite to_int16_neg_abs by exact Hy.
  pose proof (to_int16_range (- dy b)). tauto.
Qed.

Lemma pw_convert_cell_speed gx gy idx b0 b s :
  int16_velocity b -> same_speed b0 b ->
  int16_velocity (fst (pw_convert_cell gx gy idx b s))
  /\ same_speed b0 (fst (pw_convert_cell gx gy idx b s)).
Proof.
  intros Hv Hs. unfold pw_convert_cell. cbv zeta.
  match goal with
  | |- context [pw_rand ?s0] =>
      destruct (pw_rand_shape s0) as (r & z & E & _); rewrite E; clear E
  end.
  cbn [fst].
  destruct (Z.rem r 3 =? 0); [now apply flip_dx_speed|].
  destruct (Z.rem r 3 =? 1); [now apply flip_dy_speed|].
  destruct (flip_dx_speed b0 b Hv Hs) as [Hv' Hs']. now apply flip_dy_speed.
Qed.

Lemma pw_step_ball_speed i s b :
  pw_balls s !! i = Some b -> int16_velocity b ->
  exists b',
    pw_balls (pw_step_ball i s) = <[i := b']> (pw_balls s)
    /\ int16_velocity b' /\ same_speed b b'.
Proof.
  intros Hb Hv. unfold pw_step_ball. rewrite Hb.
  destruct (bounce (x b + Z.quot (dx b) 10) PW_ARENA_W) as [nx fx].
  assert (Hbx : int16_velocity (if fx then flip_dx b else b)
                /\ same_speed b (if fx then flip_dx b else b)).
  { destruct fx; [apply flip_dx_speed|]; repeat split; auto; apply Hv. }
  generalize dependent (if fx then flip_dx b else b). intros bx [Hvx Hsx].
  destruct (bounce (y b + Z.quot (dy b) 10) PW_ARENA_H) as [ny fy].
  assert (Hbxy : int16_velocity (if fy then flip_dy bx else bx)
                 /\ same_speed b (if fy then flip_dy bx else bx)).
  { destruct fy; [now apply flip_dy_speed | now split]. }
  generalize dependent (if fy then flip_dy bx else bx). intros bxy [Hvy Hsy].
  assert (Hset : forall bf, int16_velocity bf /\ same_speed b bf ->
            int16_velocity (set_y (to_int16 ny) (set_x (to_int16 nx) bf))
            /\ same_speed b (set_y (to_int16 ny) (set_x (to_int16 nx) bf))).
  { intros bf H. exact H. }
  match goal with
  | |- context [if ?c then _ else _] => destruct c
  end.
  - match goal with
    | |- context [if ?c then _ else _] => destruct c
    end.
    + pose proof (pw_convert_cell_speed
                    (Z.quot nx PW_CELL_SIZE) (Z.quot ny PW_CELL_SIZE)
                    (Z.to_nat (Z.quot ny PW_CELL_SIZE * Z.of_nat PW_GRID_W
                               + Z.quot nx PW_CELL_SIZE)) b bxy s Hvy Hsy) as Hc.
      pose proof (pw_convert_cell_spec
                    (Z.quot nx PW_CELL_SIZE) (Z.quot ny PW_CELL_SIZE)
                    (Z.to_nat (Z.quot ny PW_CELL_SIZE * Z.of_nat PW_GRID_W
                               + Z.quot nx PW_CELL_SIZE)) bxy s) as (_ & Hcb & _).
      destruct (pw_convert_cell _ _ _ bxy s) as [bc sc]. cbn [fst snd] in *.
      match goal with
      | |- context [pw_update_ball_display i ?s0] =>
          destruct (pw_update_ball_display_draws i s0) as (d & -> & _)
      end.
      eexists. cbn [pw_balls set_trace set_pw_balls]. rewrite Hcb.
      split; [reflexivity | apply Hset, Hc].
    + match goal with
      | |- context [pw_update_ball_display i ?s0] =>
          destruct (pw_update_ball_display_draws i s0) as (d & -> & _)
      end.
      eexists. split; [reflexivity | apply Hset; now split].
  - match goal with
    | |- context [pw_update_ball_display i ?s0] =>
        destruct (pw_update_ball_display_draws i s0) as (d & -> & _)
    end.
    eexists. split; [reflexivity | apply Hset; now split].
Qed.

Lemma pw_step_speed s i b :
  (i < PW_NUM_BALLS)%nat -> pw_balls s !! i = Some b -> int16_velocity b ->
  exists b', pw_balls (pw_step s) !! i = Some b'
             /\ int16_velocity b' /\ same_speed b b'.
Proof.
  intros Hi Hb Hv. rewrite pw_step_unfold.
  destruct (pw_initialized s); cbn [negb];
    [| exists b; repeat split; auto; apply Hv].
  pose proof (lookup_lt_Some _ _ _ Hb) as Hlen.
  unfold PW_NUM_BALLS in Hi. destruct i as [|[|i]]; [| |lia].
  - destruct (pw_step_ball_speed 0 s b Hb Hv) as (b0' & Hb' & Hv' & Hs').
    assert (H0 : pw_balls (pw_step_ball 0 s) !! 0%nat = Some b0').
    { rewrite Hb'. apply list_lookup_insert_eq. exact Hlen. }
    exists b0'. split; [|now split].
    destruct (pw_balls (pw_step_ball 0 s) !! 1%nat) as [b1|] eqn:H1.
    + destruct (pw_step_ball_spec 1 _ b1 H1) as (b1' & Hb'' & _).
      rewrite Hb''. rewrite list_lookup_insert_ne by lia. exact H0.
    + rewrite (pw_step_ball_none _ _ H1). exact H0.
  - destruct (lookup_lt_is_Some_2 (pw_balls s) 0 ltac:(lia)) as [b0 Hb0].
    destruct (pw_step_ball_spec 0 s b0 Hb0) as (b0' & Hb' & _).
    assert (H1 : pw_balls (pw_step_ball 0 s) !! 1%nat = Some b).
    { rewrite Hb'. rewrite list_lookup_insert_ne by lia. exact Hb. }
    destruct (pw_step_ball_speed 1 _ b H1 Hv) as (b1' & Hb'' & Hv' & Hs').
    exists b1'. split; [|now split].
    rewrite Hb''. apply list_lookup_insert_eq.
    rewrite Hb', length_insert. exact Hlen.
Qed.

Lemma pw_timer_cb_balls s :
  pw_balls (pw_timer_cb s)
  = pw_balls (pw_step (set_frame_count (to_uint16 (frame_count s + 1)) s)).
Proof.
  unfold pw_timer_cb. rewrite !pw_step_unfold. cbn [pw_initialized set_frame_count].
  destruct (pw_initialized s); cbn [negb]; [|reflexivity].
  match goal with
  | |- context [if ?c then _ else _] => destruct c
  end; [|reflexivity].
  match goal with
  | |- context [pw_update_score ?s0] =>
      destruct (pw_update_score_draws s0) as (d & -> & _)
  end.
  reflexivity.
Qed.

(** X1: a tick never changes how fast a ball moves.  For every ball
    whose velocity components are [int16_t] values, after [pw_step], and
    after a whole timer tick [pw_timer_cb], the ball has the same
    absolute velocity along each axis (wall and cell bounces only flip
    signs) and the same team. *)
Theorem pw_tick_keeps_speed s i b :
  (i < PW_NUM_BALLS)%nat -> pw_balls s !! i = Some b -> int16_velocity b ->
  (exists b', pw_balls (pw_step s) !! i = Some b'
              /\ int16_velocity b' /\ same_speed b b')
  /\ (exists b', pw_balls (pw_timer_cb s) !! i = Some b'
                 /\ int16_velocity b' /\ same_speed b b').
Proof.
  intros Hi Hb Hv. split; [exact (pw_step_speed s i b Hi Hb Hv)|].
  rewrite pw_timer_cb_balls.
  exact (pw_step_speed (set_frame_count _ s) i b Hi Hb Hv).
Qed.

Lemma pw_tick_keeps_speed_witness :
  exists b', pw_balls (pw_timer_cb pw_sample) !! 1%nat = Some b'
             /\ int16_velocity b'
             /\ same_speed {| x := 180; y := 90; dx := -51; dy := -55; team := 1 |} b'.
Proof.
  apply (pw_tick_keeps_speed pw_sample 1%nat
           {| x := 180; y := 90; dx := -51; dy := -55; team := 1 |}).
  - unfold PW_NUM_BALLS. lia.
  - vm_compute. reflexivity.
  - unfold int16_velocity. cbn. lia.
Defined.

Lemma pw_convert_cell_quiet t0 gx gy idx b s :
  quiet_from t0 s -> quiet_from t0 (snd (pw_convert_cell gx gy idx b s)).
Proof.
  intros Hq. unfold pw_convert_cell. cbv zeta.
  assert (H1 : quiet_from t0
            (pw_update_cell_color gx gy (team b)
               (set_pw_grid (<[idx := team b]> (pw_grid s)) s))).
  { eapply emits_only_quiet; [apply pw_update_cell_color_draws|].
    eapply quiet_from_same; [|exact Hq]. reflexivity. }
  generalize dependent (pw_update_cell_color gx gy (team b)
                          (set_pw_grid (<[idx := team b]> (pw_grid s)) s)).
  intros s1 H1.
  match goal with
  | |- context [pw_rand ?s0] =>
      destruct (pw_rand_shape s0) as (r & z & E & _); rewrite E; clear E
  end.
  cbn [snd]. eapply quiet_from_same; [|exact H1].
  destruct (team b =? 0); reflexivity.
Qed.

Lemma pw_step_ball_quiet t0 i s :
  quiet_from t0 s ->
  quiet_from t0 (pw_step_ball i s) /\ widgets (pw_step_ball i s) = widgets s.
Proof.
  intros Hq. destruct (pw_balls s !! i) as [b|] eqn:Hb;
    [| rewrite (pw_step_ball_none _ _ Hb); now split].
  split; [| now destruct (pw_step_ball_spec i s b Hb) as (_ & _ & _ & _ & _ & Hw & _)].
  unfold pw_step_ball. rewrite Hb.
  destruct (bounce (x b + Z.quot (dx b) 10) PW_ARENA_W) as [nx fx].
  destruct (bounce (y b + Z.quot (dy b) 10) PW_ARENA_H) as [ny fy].
  set (bxy := if fy then flip_dy (if fx then flip_dx b else b)
              else if fx then flip_dx b else b).
  assert (Hc : forall p : pw_ball * pw_state, quiet_from t0 (snd p) ->
            quiet_from t0
              (let '(b0, s0) := p in
               pw_update_ball_display i
                 (set_pw_balls
                    (<[i := set_y (to_int16 ny) (set_x (to_int16 nx) b0)]> (pw_balls s0))
                    s0))).
  { intros [b0 s0] H0. cbn [snd] in H0.
    eapply emits_only_quiet; [apply pw_update_ball_display_draws|].
    eapply quiet_from_same; [|exact H0]. reflexivity. }
  match goal with
  | |- context [if ?c then _ else _] => destruct c
  end; [|apply (Hc (bxy, s)); exact Hq].
  match goal with
  | |- context [if ?c then _ else _] => destruct c
  end; [|apply (Hc (bxy, s)); exact Hq].
  apply (Hc (pw_convert_cell _ _ _ bxy s)). now apply pw_convert_cell_quiet.
Qed.

Lemma pw_step_quiet t0 s :
  quiet_from t0 s -> quiet_from t0 (pw_step s) /\ widgets (pw_step s) = widgets s.
Proof.
  intros Hq. rewrite pw_step_unfold. destruct (pw_initialized s); cbn [negb]; [|now split].
  destruct (pw_step_ball_quiet t0 0 s Hq) as [H0 W0].
  destruct (pw_step_ball_quiet t0 1 _ H0) as [H1 W1].
  split; [exact H1 | congruence].
Qed.

(** X2: the game never allocates while it runs.  A physics step
    [pw_step] and a whole timer tick [pw_timer_cb] leave every widget
    pointer (cells, balls, arena, score labels) as it was, and none of
    the calls they make creates, deletes or cleans a widget: cells are
    converted by recolouring only. *)
Theorem pw_tick_never_allocates s :
  (widgets (pw_step s) = widgets s /\ quiet_from (trace s) (pw_step s))
  /\ (widgets (pw_timer_cb s) = widgets s /\ quiet_from (trace s) (pw_timer_cb s)).
Proof.
  split.
  - destruct (pw_step_quiet (trace s) s (quiet_from_refl s)) as [Hq Hw].
    split; [exact Hw | exact Hq].
  - unfold pw_timer_cb. destruct (pw_initialized s); cbn [negb].
    + cbv zeta.
      destruct (pw_step_quiet (trace s)
                  (set_frame_count (to_uint16 (frame_count s + 1)) s)
                  (quiet_from_refl s)) as [Hq Hw].
      match goal with
      | |- context [if ?c then _ else _] => destruct c
      end; [|split; [exact Hw | exact Hq]].
      match goal with
      | |- context [pw_update_score ?s0] =>
          pose proof (pw_update_score_draws s0) as Hd
      end.
      split.
      * rewrite (emits_only_widgets _ _ Hd). exact Hw.
      * exact (emits_only_quiet _ _ _ Hd Hq).
    + split; [reflexivity | exact (quiet_from_refl s)].
Qed.

(** X3: teardown stops the game for good.  After
    [destroy_pong_wars_widgets] the simulation is not initialized, the
    pause flag for background updates is cleared, no timer and no widget
    pointer is left, the frame timer was deleted exactly when there was
    one, and a late timer tick, physics step, tap or reset changes
    nothing (a tap only logs). *)
Theorem destroy_pong_wars_widgets_stops_game s :
  let s' := destroy_pong_wars_widgets s in
  pw_initialized s' = false /\ pong_wars_active s' = false
  /\ pw_timer s' = None /\ pw_arena_container s' = None
  /\ pw_score_label1 s' = None /\ pw_score_label2 s' = None
  /\ (forall idx, cell_obj s' idx = None) /\ (forall i, ball_obj s' i = None)
  /\ trace s' = trace s
                ++ match pw_timer s with Some t => [lv_timer_del t] | None => [] end
                ++ [LOG_INF "Pong Wars destroyed"]
  /\ pw_step s' = s' /\ pw_timer_cb s' = s'
  /\ (forall uptime timer_result,
        pw_reset_game uptime timer_result s' = s'
        /\ pw_tap_handler uptime timer_result s'
           = emit (LOG_INF "Pong Wars: tap detected, resetting...") s').
Proof.
  assert (Hrep : forall {A} (n i : nat), default (@None A) (replicate n None !! i) = None).
  { intros A n i. destruct (replicate n None !! i) as [o|] eqn:E; [|reflexivity].
    apply lookup_replicate in E as [-> _]. reflexivity. }
  cbv zeta.
  assert (Hf : destroy_pong_wars_widgets s
               = emit (LOG_INF "Pong Wars destroyed")
                   (set_pw_score_label2 None
                      (set_pw_score_label1 None
                         (set_pw_arena_container None
                            (set_pw_ball_objs (replicate PW_NUM_BALLS None)
                               (set_pw_cell_objs (replicate PW_NUM_CELLS None)
                                  (set_pw_timer None
                                     (set_trace
                                        (trace s
                                         ++ match pw_timer s with
                                            | Some t => [lv_timer_del t]
                                            | None => []
                                            end)
                                        (set_pw_initialized false
                                           (set_pong_wars_active false s)))))))))).
  { unfold destroy_pong_wars_widgets, pw_stop_timer.
    cbn [pw_timer set_pong_wars_active set_pw_initialized].
    destruct (pw_timer s) eqn:E; [reflexivity|].
    rewrite app_nil_r. destruct s; cbn in E |- *. now subst. }
  assert (Hi : pw_initialized (destroy_pong_wars_widgets s) = false)
    by (rewrite Hf; reflexivity).
  split; [exact Hi|].
  split; [rewrite Hf; reflexivity|]. split; [rewrite Hf; reflexivity|].
  split; [rewrite Hf; reflexivity|]. split; [rewrite Hf; reflexivity|].
  split; [rewrite Hf; reflexivity|].
  split; [intros idx; rewrite Hf; apply Hrep|].
  split; [intros i; rewrite Hf; apply Hrep|].
  split; [rewrite Hf; cbn; now rewrite <- app_assoc|].
  clear Hf. generalize dependent (destroy_pong_wars_widgets s). intros s' Hi.
  split; [unfold pw_step; now rewrite Hi|].
  split; [unfold pw_timer_cb; now rewrite Hi|].
  intros uptime timer_result.
  split; [unfold pw_reset_game; now rewrite Hi|].
  unfold pw_tap_handler, pw_reset_game. cbn [pw_initialized emit set_trace].
  now rewrite Hi.
Qed.

Lemma fold_base_speed {A} (f : pw_state -> A -> pw_state) (l : list A) s :
  (forall s0 a, pw_base_speed (f s0 a) = pw_base_speed s0) ->
  pw_base_speed (fold_left f l s) = pw_base_speed s.
Proof.
  intros Hf. apply (fold_left_inv (fun s' => pw_base_speed s' = pw_base_speed s));
    [|reflexivity].
  intros s0 a H0. now rewrite Hf.
Qed.

Lemma emits_only_base_speed s s' :
  emits_only s s' -> pw_base_speed s' = pw_base_speed s.
Proof. intros (d & -> & _). reflexivity. Qed.

Lemma pw_create_cell_base_speed a gy gx s :
  pw_base_speed (pw_create_cell a gy gx s) = pw_base_speed s.
Proof. unfold pw_create_cell. cbv zeta. pw_cases; reflexivity. Qed.

Lemma pw_create_ball_base_speed a i s :
  pw_base_speed (pw_create_ball a i s) = pw_base_speed s.
Proof.
  unfold pw_create_ball. cbv zeta. destruct (default None (new_balls a !! i)); [|reflexivity].
  match goal with
  | |- context [pw_update_ball_display i ?s1] =>
      rewrite (emits_only_base_speed _ _ (pw_update_ball_display_draws i s1))
  end.
  reflexivity.
Qed.

Lemma pw_create_labels_base_speed screen a s :
  pw_base_speed (pw_create_labels screen a s) = pw_base_speed s.
Proof. unfold pw_create_labels. cbv zeta. pw_cases; reflexivity. Qed.

Lemma pw_create_arena_base_speed screen a s :
  pw_base_speed (pw_create_arena screen a s) = pw_base_speed s.
Proof. unfold pw_create_arena. cbv zeta. pw_cases; reflexivity. Qed.

Lemma pw_create_hint_base_speed screen a s :
  pw_base_speed (pw_create_hint screen a s) = pw_base_speed s.
Proof. unfold pw_create_hint. cbv zeta. pw_cases; reflexivity. Qed.

Lemma create_pong_wars_widgets_base_speed uptime screen a s :
  pw_base_speed (create_pong_wars_widgets uptime screen a s)
  = pw_base_speed
      (pw_init_balls uptime
         (pw_init_grid
            (set_pw_initialized false
               (emit (LOG_INF "Creating Pong Wars (smooth version)...") s)))).
Proof.
  unfold create_pong_wars_widgets. cbv zeta.
  generalize (pw_init_balls uptime
                (pw_init_grid
                   (set_pw_initialized false
                      (emit (LOG_INF "Creating Pong Wars (smooth version)...") s)))).
  intros s4.
  change (pw_base_speed (emit ?c (set_pw_timer (new_timer a) ?x)))
    with (pw_base_speed x).
  change (pw_base_speed (emit ?c (set_pong_wars_active true (set_pw_initialized true ?x))))
    with (pw_base_speed x).
  etransitivity; [apply pw_create_hint_base_speed|].
  etransitivity; [apply emits_only_base_speed, pw_update_score_draws|].
  etransitivity; [apply fold_base_speed; intros; apply pw_create_ball_base_speed|].
  change (pw_base_speed (emit ?c ?x)) with (pw_base_speed x).
  etransitivity; [apply (fold_base_speed (fun s gy => fold_left _ _ s));
                  intros; apply fold_base_speed; intros;
                  apply pw_create_cell_base_speed|].
  etransitivity; [apply pw_create_arena_base_speed|].
  etransitivity; [apply pw_create_labels_base_speed|].
  reflexivity.
Qed.

(** X4: building the screen always starts a valid game, whatever the
    widget creations return (also when some or all of them fail).  From
    any state with the arrays of the C file, [create_pong_wars_widgets]
    leaves the simulation initialized, background updates paused, the
    frame timer set to what [lv_timer_create] returned, the grid split
    half and half with scores 54 and 54, a base speed in 40..60 and the
    two balls on their own halves, moving towards each other within the
    jitter of the base speed. *)
Theorem create_pong_wars_widgets_starts_game uptime screen a s :
  arrays_ok s ->
  let s' := create_pong_wars_widgets uptime screen a s in
  pw_initialized s' = true /\ pong_wars_active s' = true
  /\ pw_timer s' = new_timer a
  /\ pw_grid s' = pw_half_grid /\ pw_score1 s' = 54 /\ pw_score2 s' = 54
  /\ 40 <= pw_base_speed s' <= 60
  /\ exists b0 b1, pw_balls s' = [b0; b1]
                   /\ fresh_ball 0 (pw_base_speed s') b0
                   /\ fresh_ball 1 (pw_base_speed s') b1.
Proof.
  intros (Hlg & _ & _ & Hlb). cbv zeta.
  split; [reflexivity|]. split; [reflexivity|]. split; [reflexivity|].
  pose proof (create_pong_wars_widgets_game uptime screen a s) as Hg.
  pose proof (create_pong_wars_widgets_base_speed uptime screen a s) as Hv.
  set (s1 := set_pw_initialized false
               (emit (LOG_INF "Creating Pong Wars (smooth version)...") s)) in *.
  assert (Hlg1 : List.length (pw_grid s1) = PW_NUM_CELLS) by exact Hlg.
  assert (Hlb1 : List.length (pw_balls s1) = PW_NUM_BALLS) by exact Hlb.
  clearbody s1.
  destruct (pw_init_grid_half s1 Hlg1) as (Hh & Hs1 & Hs2).
  destruct (pw_init_grid_frame s1) as (_ & Hb2 & _).
  generalize dependent (pw_init_grid s1). intros s2 Hg Hv Hh Hs1 Hs2 Hb2.
  destruct (pw_init_balls_spec uptime s2 ltac:(now rewrite Hb2))
    as (Hg3 & H31 & H32 & _ & _ & Hsp & _ & Hballs & _).
  generalize dependent (pw_init_balls uptime s2).
  intros s3 Hg Hv Hg3 H31 H32 Hsp Hballs.
  generalize dependent (create_pong_wars_widgets uptime screen a s).
  intros s' Hg Hv. unfold game in Hg. injection Hg as Eg E1 E2 Eb.
  rewrite Eg, E1, E2, Eb, Hv.
  split; [congruence|]. split; [congruence|]. split; [congruence|].
  split; [exact Hsp | exact Hballs].
Qed.

Lemma create_pong_wars_widgets_starts_game_witness :
  pw_score1 pw_sample = 54 /\ pw_score2 pw_sample = 54
  /\ 40 <= pw_base_speed pw_sample <= 60.
Proof.
  destruct (create_pong_wars_widgets_starts_game 123456 0%nat pw_alloc_sample pw_boot)
    as (_ & _ & _ & _ & H1 & H2 & Hv & _).
  - unfold arrays_ok. vm_compute. repeat split.
  - split; [exact H1 | split; [exact H2 | exact Hv]].
Defined.

End PongWarsPlayProperties.

(** ** Gestures: runs of events *)

Section SwipeRunProperties.
Import Swipe SwipeRun.

Ltac settle :=
  cbn; repeat split; intros; auto; try lia; try discriminate.

Lemma registrations_app a b :
  registrations (a ++ b) = (registrations a + registrations b)%nat
  /\ register_calls (a ++ b) = (register_calls a + register_calls b)%nat.
Proof.
  unfold registrations, register_calls.
  now rewrite !List.filter_app, !List.length_app.
Qed.

Lemma dispatch_swipe_registers e d s :
  let r := dispatch_swipe e d s in
  (registrations (snd r) <= register_calls (snd r))%nat
  /\ (register_calls (snd r) <= if lvgl_indev_registered s then 0 else 1)%nat
  /\ (lvgl_indev_registered s = true -> lvgl_indev_registered (fst r) = true)
  /\ (registrations (snd r) = 1%nat -> lvgl_indev_registered (fst r) = true)
  /\ transition_in_progress (fst r) = transition_in_progress s
  /\ ui_interaction_active (fst r) = ui_interaction_active s.
Proof.
  unfold dispatch_swipe, switch_screen, ensure_lvgl_indev_registered,
    ks_channel_decrement, ks_channel_increment, ks_channel_change,
    scanner_get_runtime_channel, scanner_set_runtime_channel,
    registrations, register_calls.
  destruct d, (current_screen s), (CONFIG_PROSPECTOR_TOUCH_ENABLED e),
    (lvgl_indev_registered s) eqn:Hr, (indev_ret e =? 0) eqn:Hret,
    (ks_channel_initialized s);
    cbn; rewrite ?Hret, ?Hr; cbn; repeat split; auto; try lia; discriminate.
Qed.

Lemma step_registers ev s :
  let r := step ev s in
  (registrations (snd r) <= register_calls (snd r))%nat
  /\ (register_calls (snd r) <= if lvgl_indev_registered s then 0 else 1)%nat
  /\ (lvgl_indev_registered s = true -> lvgl_indev_registered (fst r) = true)
  /\ (registrations (snd r) = 1%nat -> lvgl_indev_registered (fst r) = true)
  /\ (transition_in_progress s = false -> transition_in_progress (fst r) = false).
Proof.
  destruct ev as [d|e|b]; cbn [step].
  - unfold swipe_gesture_listener.
    destruct (pending_swipe s), (lvgl_indev_registered s) eqn:Hr; settle.
  - unfold swipe_process_timer_cb.
    destruct (pending_swipe s) eqn:Hp;
      [destruct (lvgl_indev_registered s) eqn:Hr; settle|..].
    all: cbn [ui_interaction_active transition_in_progress set_pending_swipe
              set_transition_in_progress].
    all: destruct (ui_interaction_active s);
      [destruct (lvgl_indev_registered s) eqn:Hr; settle|].
    all: destruct (transition_in_progress s);
      [destruct (lvgl_indev_registered s) eqn:Hr; settle|].
    all: match goal with
         | |- context [dispatch_swipe ?e0 ?d ?s0] =>
             pose proof (dispatch_swipe_registers e0 d s0) as (H1 & H2 & H3 & H4 & _);
             destruct (dispatch_swipe e0 d s0) as [s1 c]
         end.
    all: cbn [fst snd lvgl_indev_registered set_transition_in_progress
              set_pending_swipe transition_in_progress] in *.
    all: change (processing_swipe :: c) with ([processing_swipe] ++ c).
    all: destruct (registrations_app [processing_swipe] c) as [-> ->].
    all: repeat split; auto.
  - destruct (lvgl_indev_registered s) eqn:Hr; settle.
Qed.

Lemma run_registers evs : forall s,
  let r := run evs s in
  (registrations (snd r) <= register_calls (snd r))%nat
  /\ (registrations (snd r) <= if lvgl_indev_registered s then 0 else 1)%nat
  /\ (lvgl_indev_registered s = true ->
      lvgl_indev_registered (fst r) = true /\ register_calls (snd r) = 0%nat)
  /\ (registrations (snd r) = 1%nat -> lvgl_indev_registered (fst r) = true)
  /\ (transition_in_progress s = false -> transition_in_progress (fst r) = false).
Proof.
  induction evs as [|ev evs IH]; intros s.
  - destruct (lvgl_indev_registered s) eqn:Hr; settle.
  - cbn [run]. pose proof (step_registers ev s) as (H1 & H2 & H3 & H4 & H5).
    destruct (step ev s) as [s1 c1]. specialize (IH s1) as (I1 & I2 & I3 & I4 & I5).
    destruct (run evs s1) as [s2 c2]. cbn [fst snd] in *.
    destruct (registrations_app c1 c2) as [-> ->].
    destruct (lvgl_indev_registered s) eqn:Hs.
    + specialize (H3 eq_refl). rewrite H3 in *. destruct (I3 eq_refl) as [I3a I3b].
      repeat split; auto; lia.
    + destruct (lvgl_indev_registered s1) eqn:Hs1.
      * destruct (I3 eq_refl) as [I3a I3b].
        repeat split; auto; try lia; discriminate.
      * assert (registrations c1 = 0%nat).
        { destruct (registrations c1) as [|[|n]] eqn:E; [reflexivity| |lia].
          specialize (H4 eq_refl). discriminate. }
        repeat split; auto; try lia; try discriminate.
        intros Hone. apply I4. lia.
Qed.

(** X5: touch input is registered with LVGL at most once.  Over every
    sequence of gestures, ticks and drags, at most one call of
    [touch_handler_register_lvgl_indev] succeeds; once
    [lvgl_indev_registered] is set it stays set and the registration is
    never called again; and a successful registration leaves the flag
    set (a failed one is retried on a later transition). *)
Theorem lvgl_indev_registered_at_most_once evs s :
  let r := run evs s in
  (registrations (snd r) <= 1)%nat
  /\ (lvgl_indev_registered s = true ->
      lvgl_indev_registered (fst r) = true /\ register_calls (snd r) = 0%nat)
  /\ (registrations (snd r) = 1%nat -> lvgl_indev_registered (fst r) = true).
Proof.
  pose proof (run_registers evs s) as (_ & H2 & H3 & H4 & _). cbv zeta in *.
  split; [destruct (lvgl_indev_registered s); lia|]. split; assumption.
Qed.

Lemma lvgl_indev_registered_at_most_once_witness :
  register_calls
    (snd (run [Gesture SWIPE_DIRECTION_DOWN; Tick touch_env]
            (set_lvgl_indev_registered true ui_main))) = 0%nat.
Proof.
  destruct (lvgl_indev_registered_at_most_once
              [Gesture SWIPE_DIRECTION_DOWN; Tick touch_env]
              (set_lvgl_indev_registered true ui_main)) as (_ & H & _).
  destruct (H eq_refl) as [_ H0]. exact H0.
Defined.

(** X6: the gesture path never locks up.  From a state where no
    transition is in progress, no sequence of gestures, ticks and drags
    leaves [transition_in_progress] set; and whenever the run ends with
    the pending cell empty and no slider drag active, the next gesture
    is taken and acted upon by the next tick. *)
Theorem gesture_path_never_locks evs s :
  transition_in_progress s = false ->
  let s1 := fst (run evs s) in
  transition_in_progress s1 = false
  /\ (forall d e,
        d <> SWIPE_DIRECTION_NONE ->
        pending_swipe s1 = SWIPE_DIRECTION_NONE ->
        ui_interaction_active s1 = false ->
        acted (snd (run [Gesture d; Tick e] s1)) = 1%nat
        /\ current_screen (fst (run [Gesture d; Tick e] s1))
           = spec_next (current_screen s1) d).
Proof.
  intros Ht. pose proof (run_registers evs s) as (_ & _ & _ & _ & H5).
  cbv zeta in *. specialize (H5 Ht).
  generalize dependent (fst (run evs s)). intros s1 Ht1.
  split; [exact Ht1|]. intros d e Hd Hp Hu.
  cbn [run step]. unfold swipe_gesture_listener. rewrite Hp.
  unfold swipe_process_timer_cb.
  cbn [pending_swipe set_pending_swipe ui_interaction_active transition_in_progress].
  rewrite Hu, Ht1.
  destruct d; [contradiction|..].
  all: match goal with
       | |- context [dispatch_swipe ?e0 ?d ?s0] =>
           pose proof (acted_dispatch e0 d s0) as Ha;
           pose proof (dispatch_swipe_screen e0 d s0) as Hs;
           destruct (dispatch_swipe e0 d s0) as [s2 c]
       end.
  all: cbn [fst snd app current_screen set_transition_in_progress
            set_pending_swipe] in *.
  all: split; [|exact Hs].
  all: change (LOG_INF "[ISR] Swipe event received" :: processing_swipe :: c ++ [])
         with ([LOG_INF "[ISR] Swipe event received"; processing_swipe] ++ c ++ []).
  all: rewrite !acted_app, Ha; reflexivity.
Qed.

Lemma gesture_path_never_locks_witness :
  acted (snd (run [Gesture SWIPE_DIRECTION_UP; Tick touch_env]
                (fst (run [Gesture SWIPE_DIRECTION_DOWN; Tick touch_env; Drag true;
                           Gesture SWIPE_DIRECTION_LEFT; Tick touch_env; Drag false]
                        ui_main)))) = 1%nat.
Proof.
  destruct (gesture_path_never_locks
              [Gesture SWIPE_DIRECTION_DOWN; Tick touch_env; Drag true;
               Gesture SWIPE_DIRECTION_LEFT; Tick touch_env; Drag false]
              ui_main eq_refl) as [_ H].
  destruct (H SWIPE_DIRECTION_UP touch_env) as [Ha _];
    [discriminate | reflexivity | reflexivity | exact Ha].
Defined.

(** X7: every screen reached from Main is left by the opposite swipe.
    From Main at rest, a swipe in any of the four directions followed by
    a tick leaves Main, and the opposite swipe followed by a tick comes
    back to Main, with the pending cell empty and no transition in
    progress. *)
Theorem swipe_there_and_back e1 e2 d s :
  d <> SWIPE_DIRECTION_NONE ->
  current_screen s = SCREEN_MAIN ->
  pending_swipe s = SWIPE_DIRECTION_NONE ->
  ui_interaction_active s = false ->
  transition_in_progress s = false ->
  let mid := fst (run [Gesture d; Tick e1] s) in
  let back := fst (run [Gesture d; Tick e1; Gesture (opposite d); Tick e2] s) in
  current_screen mid <> SCREEN_MAIN
  /\ current_screen back = SCREEN_MAIN
  /\ pending_swipe back = SWIPE_DIRECTION_NONE
  /\ transition_in_progress back = false.
Proof.
  intros Hd Hs Hp Hu Ht.
  destruct s as [cs so tp ps ui reg ch ci]. cbn in Hs, Hp, Hu, Ht. subst.
  destruct e1 as [t1 r1], e2 as [t2 r2].
  destruct d; [contradiction|..]; cbv zeta;
    unfold run, step, swipe_gesture_listener, swipe_process_timer_cb,
      dispatch_swipe, switch_screen, ensure_lvgl_indev_registered;
    cbn;
    destruct t1, reg, (r1 =? 0); cbn; destruct t2; cbn;
    try destruct (r2 =? 0); cbn; repeat split; discriminate.
Qed.

Lemma swipe_there_and_back_witness :
  current_screen
    (fst (run [Gesture SWIPE_DIRECTION_LEFT; Tick touch_env;
               Gesture SWIPE_DIRECTION_RIGHT; Tick touch_env] ui_main))
  = SCREEN_MAIN.
Proof.
  destruct (swipe_there_and_back touch_env touch_env SWIPE_DIRECTION_LEFT ui_main
              ltac:(discriminate) eq_refl eq_refl eq_refl eq_refl) as (_ & H & _).
  exact H.
Defined.

Lemma increments_channel n : forall s,
  0 <= channel_of s <= 10 ->
  channel_of (increments n s) = (channel_of s + Z.of_nat n) mod 11.
Proof.
  induction n as [|n IH]; intros s Hc.
  - change (increments 0 s) with s. change (Z.of_nat 0) with 0.
    rewrite Z.add_0_r, Z.mod_small; lia.
  - change (increments (S n) s) with (fst (ks_channel_increment (increments n s))).
    specialize (IH s Hc).
    pose proof (Z.mod_pos_bound (channel_of s + Z.of_nat n) 11 ltac:(lia)) as Hb.
    rewrite ks_channel_increment_spec by (rewrite IH; lia).
    rewrite IH. unfold CHANNEL_MAX.
    replace (channel_of s + Z.of_nat (S n)) with (channel_of s + Z.of_nat n + 1) by lia.
    rewrite (Z.add_mod (channel_of s + Z.of_nat n) 1 11) by lia.
    generalize dependent ((channel_of s + Z.of_nat n) mod 11). intros m _ Hm.
    change (1 mod 11) with 1.
    destruct (Z.eqb_spec m 10) as [->|Hne]; [reflexivity|].
    rewrite Z.mod_small; lia.
Qed.

(** X8: stepping the channel filter is a cycle over 0..10.  For a
    channel in 0..10, an increment followed by a decrement (a right
    swipe then a left swipe on the keyboard list), and a decrement
    followed by an increment, give the channel back; [n] increments add
    [n] modulo 11, so eleven of them give it back too. *)
Theorem channel_steps_cycle s :
  0 <= channel_of s <= 10 ->
  channel_of (fst (ks_channel_decrement (fst (ks_channel_increment s)))) = channel_of s
  /\ channel_of (fst (ks_channel_increment (fst (ks_channel_decrement s)))) = channel_of s
  /\ (forall n, channel_of (increments n s) = (channel_of s + Z.of_nat n) mod 11)
  /\ channel_of (increments 11 s) = channel_of s.
Proof.
  intros Hc.
  pose proof (ks_channel_increment_spec s Hc) as Hi.
  pose proof (ks_channel_decrement_spec s Hc) as Hd.
  unfold CHANNEL_MAX in *.
  split; [|split; [|split]].
  - rewrite ks_channel_decrement_spec
      by (rewrite Hi; destruct (Z.eqb_spec (channel_of s) 10); lia).
    rewrite Hi. unfold CHANNEL_MAX.
    destruct (Z.eqb_spec (channel_of s) 10) as [E|E]; [rewrite E; reflexivity|].
    destruct (Z.eqb_spec (channel_of s + 1) 0); lia.
  - rewrite ks_channel_increment_spec
      by (rewrite Hd; destruct (Z.eqb_spec (channel_of s) 0); lia).
    rewrite Hd. unfold CHANNEL_MAX.
    destruct (Z.eqb_spec (channel_of s) 0) as [E|E]; [rewrite E; reflexivity|].
    destruct (Z.eqb_spec (channel_of s - 1) 10); lia.
  - intros n. now apply increments_channel.
  - rewrite increments_channel by exact Hc.
    change (Z.of_nat 11) with (1 * 11). rewrite Z.mod_add by lia.
    apply Z.mod_small. lia.
Qed.

Lemma channel_steps_cycle_witness :
  channel_of (increments 11 (set_ks_runtime_channel 4 (set_ks_channel_initialized true ui_main)))
  = 4.
Proof.
  destruct (channel_steps_cycle
              (set_ks_runtime_channel 4 (set_ks_channel_initialized true ui_main)))
    as (_ & _ & _ & H).
  - cbn. lia.
  - exact H.
Defined.

(** X9: the channel filter read back is always a valid one.  Before
    any channel was set, [scanner_get_runtime_channel] answers 10
    ("All") whatever the stored byte; [ks_channel_change c] leaves [c]
    when [c <= 10] and 0 otherwise; and from any stored byte, also one
    above 10, an increment or a decrement leaves a channel in 0..10. *)
Theorem channel_always_valid s c :
  0 <= ks_runtime_channel s <= 255 -> 0 <= c <= 255 ->
  (ks_channel_initialized s = false -> channel_of s = CHANNEL_ALL)
  /\ channel_of (fst (ks_channel_change c s)) = (if CHANNEL_MAX <? c then 0 else c)
  /\ 0 <= channel_of (fst (ks_channel_increment s)) <= CHANNEL_MAX
  /\ 0 <= channel_of (fst (ks_channel_decrement s)) <= CHANNEL_MAX.
Proof.
  intros Hs Hc.
  unfold channel_of, ks_channel_increment, ks_channel_decrement,
    scanner_get_runtime_channel, ks_channel_change, scanner_set_runtime_channel,
    CHANNEL_MAX, CHANNEL_ALL.
  split; [intros ->; reflexivity|]. split; [reflexivity|].
  assert (Hclamp : forall v, 0 <= v <= 255 ->
            0 <= (if 10 <? to_uint8 v then 0 else to_uint8 v) <= 10).
  { intros v Hv. rewrite to_uint8_id by lia. destruct (Z.ltb_spec 10 v); lia. }
  destruct (ks_channel_initialized s); cbn.
  - split; apply Hclamp.
    + destruct (Z.ltb_spec (ks_runtime_channel s) 10); lia.
    + destruct (Z.ltb_spec 0 (ks_runtime_channel s)); lia.
  - split; apply Hclamp; lia.
Qed.

Lemma channel_always_valid_witness :
  0 <= channel_of (fst (ks_channel_decrement
                          (set_ks_runtime_channel 200
                             (set_ks_channel_initialized true ui_main)))) <= CHANNEL_MAX.
Proof.
  destruct (channel_always_valid
              (set_ks_runtime_channel 200 (set_ks_channel_initialized true ui_main)) 3)
    as (_ & _ & _ & H).
  - cbn. lia.
  - lia.
  - exact H.
Defined.

End SwipeRunProperties.

(** ** Layer dial: numbers, animations and teardown *)

Section LayerDialProperties.
Import Layer LayerDial.

Lemma update_slide_max layer animate s :
  ds_layer_slide_max (fst (update_layer_slide_display layer animate s))
  = (if ds_layer_slide_max s <=? layer then to_uint8 (to_int (layer + 1))
     else ds_layer_slide_max s).
Proof.
  unfold update_layer_slide_display.
  destruct (ds_layer_slide_max s <=? layer); cbn [layer_slide_window_start
    set_ds_layer_slide_max];
    destruct (to_int (layer - layer_slide_window_start s) <? SLIDE_LARGE_ZONE_START);
    try reflexivity;
    destruct (SLIDE_LARGE_ZONE_END <? to_int (layer - layer_slide_window_start s));
    reflexivity.
Qed.

(** X10: the dial's colour range grows with the layers seen.  After
    [update_layer_slide_display L] with [0 <= L <= 254],
    [ds_layer_slide_max] is the larger of its old value and [L + 1], so
    it exceeds [L] and never shrinks; at [L = 255] the new value
    [L + 1] does not fit the [uint8_t] and the maximum becomes 0. *)
Theorem slide_max_expands layer animate s :
  0 <= ds_layer_slide_max s <= 255 ->
  let m' := ds_layer_slide_max (fst (update_layer_slide_display layer animate s)) in
  (0 <= layer <= 254 -> m' = Z.max (ds_layer_slide_max s) (layer + 1))
  /\ (layer = 255 -> m' = 0).
Proof.
  intros Hm. cbv zeta. rewrite update_slide_max. split.
  - intros Hl. destruct (Z.leb_spec (ds_layer_slide_max s) layer); [|lia].
    rewrite to_int_id by (unfold INT_MIN, INT_MAX; lia).
    rewrite to_uint8_id by lia. lia.
  - intros ->. destruct (Z.leb_spec (ds_layer_slide_max s) 255); [reflexivity|lia].
Qed.

Lemma slide_max_expands_witness :
  ds_layer_slide_max (fst (update_layer_slide_display 9 true layer_sample)) = 10.
Proof.
  destruct (slide_max_expands 9 true layer_sample) as [H _].
  - cbn. lia.
  - apply H. lia.
Defined.

Lemma update_window_range layer animate s :
  0 <= layer <= 255 ->
  INT_MIN <= layer_slide_window_start s <= INT_MAX ->
  layer - 6 <= layer_slide_window_start (fst (update_layer_slide_display layer animate s))
            <= layer - 2.
Proof.
  intros Hl Hws. rewrite update_window_start.
  unfold SLIDE_LARGE_ZONE_START, SLIDE_LARGE_ZONE_END.
  rewrite (to_int_id (layer - 2)), (to_int_id (layer - 6))
    by (unfold INT_MIN, INT_MAX; lia).
  destruct (to_int_cases (layer - layer_slide_window_start s)
              ltac:(unfold INT_MIN, INT_MAX in *; lia)) as [Hc|[Hc1 Hc2]];
    rewrite Hc || rewrite Hc2;
    repeat match goal with
           | |- context [if ?a <? ?b then _ else _] => destruct (Z.ltb_spec a b)
           end; unfold INT_MIN, INT_MAX in *; lia.
Qed.

Lemma slot_trace layer animate s i o :
  (i < SLIDE_VISIBLE_COUNT)%nat ->
  labels_distinct (layer_slide_labels s) ->
  layer_slide_labels s !! i = Some (Some o) ->
  let r := update_layer_slide_display layer animate s in
  omap (text_set o) (snd r)
  = omap (text_set o) (slide_label_update layer animate (fst r) i o)
  /\ omap (text_opa_set o) (snd r)
     = omap (text_opa_set o) (slide_label_update layer animate (fst r) i o).
Proof.
  intros Hi Hdist Hlab r.
  destruct (update_calls layer animate s) as (c_max & c_scroll & Hmax & Hscr & Hcs).
  fold r in Hcs. cbv zeta in Hcs.
  pose proof (update_labels layer animate s) as Hl. fold r in Hl.
  set (s' := fst r) in *.
  assert (Hown : slide_label s' i = Some o).
  { unfold slide_label. now rewrite Hl, Hlab. }
  assert (Hforeign : forall j, In j (seq 0 SLIDE_VISIBLE_COUNT) -> j <> i ->
             omap (text_set o) (when_obj (slide_label s' j)
                                  (slide_label_update layer animate s' j)) = []
             /\ omap (text_opa_set o) (when_obj (slide_label s' j)
                                  (slide_label_update layer animate s' j)) = []).
  { intros j _ Hji. destruct (slide_label s' j) as [o'|] eqn:Hj; [|split; reflexivity].
    cbn [when_obj]. apply slide_label_update_foreign.
    intros ->. apply Hji. unfold slide_label in Hj. rewrite Hl in Hj.
    destruct (layer_slide_labels s !! j) as [[o2|]|] eqn:Hj2; try discriminate.
    cbn in Hj. injection Hj as ->. exact (Hdist j i o Hj2 Hlab). }
  assert (Hin : In i (seq 0 SLIDE_VISIBLE_COUNT)) by (apply in_seq; lia).
  pose proof (slide_reset_positions_textless s' o) as [Hp1 Hp2].
  destruct (Hmax o) as [Hm1 Hm2]. destruct (Hscr o) as [Hs1 Hs2].
  rewrite Hcs.
  rewrite !omap_app, !omap_flat_map, Hm1, Hm2, Hp1, Hp2, Hs1, Hs2.
  rewrite (flat_map_unique _ _ i (List.seq_NoDup _ _) Hin)
    by (intros j Hj Hji; apply (Hforeign j Hj Hji)).
  rewrite (flat_map_unique _ _ i (List.seq_NoDup _ _) Hin)
    by (intros j Hj Hji; apply (Hforeign j Hj Hji)).
  rewrite Hown. cbn [when_obj app omap]. rewrite !app_nil_r. split; reflexivity.
Qed.

(** X11: the dial shows consecutive layer numbers around the active
    one.  After [update_layer_slide_display L] with [0 <= L <= 255],
    every slot [i] whose layer number [start + i] is not negative shows
    that number in full, and its text opacity is full for the active
    layer and the slot's own dimmed value (20, 40 or 70 percent, by
    distance from the centre) for every other one. *)
Theorem dial_shows_numbers layer animate s i o :
  0 <= layer <= 255 ->
  INT_MIN <= layer_slide_window_start s <= INT_MAX ->
  labels_distinct (layer_slide_labels s) ->
  (i < SLIDE_VISIBLE_COUNT)%nat ->
  layer_slide_labels s !! i = Some (Some o) ->
  let r := update_layer_slide_display layer animate s in
  let n := layer_slide_window_start (fst r) + Z.of_nat i in
  0 <= n ->
  rendered_text o (snd r) = Some (fmt_d n)
  /\ rendered_text_opa o (snd r)
     = Some (if n =? layer then LV_OPA_COVER else get_slide_slot_opa (Z.of_nat i)).
Proof.
  intros Hl Hws Hdist Hi Hlab r n Hn.
  destruct (slot_trace layer animate s i o Hi Hdist Hlab) as [Ht Ho].
  fold r in Ht, Ho.
  pose proof (update_window_range layer animate s Hl Hws) as Hr. fold r in Hr.
  unfold rendered_text, rendered_text_opa. rewrite Ht, Ho.
  unfold slide_label_update. cbv zeta. fold n.
  unfold SLIDE_VISIBLE_COUNT in Hi.
  rewrite (to_int_id n) by (unfold INT_MIN, INT_MAX, n; lia).
  destruct (Z.leb_spec 0 n); [|lia]. destruct (Z.ltb_spec n 0); [lia|].
  rewrite snprintf_fits
    by (pose proof (fmt_d_length 3 n ltac:(lia) ltac:(unfold n; cbn; lia)); lia).
  rewrite andb_true_r.
  destruct (n =? layer); [destruct animate|]; cbn; rewrite Nat.eqb_refl; split; reflexivity.
Qed.

Lemma dial_shows_numbers_witness :
  rendered_text 14%nat (snd (update_layer_slide_display 9 true layer_sample))
  = Some "7".
Proof.
  destruct (dial_shows_numbers 9 true layer_sample 4 14%nat) as [H _].
  - lia.
  - unfold INT_MIN, INT_MAX. cbn. lia.
  - exact layer_sample_distinct.
  - unfold SLIDE_VISIBLE_COUNT. lia.
  - reflexivity.
  - vm_compute. discriminate.
  - exact H.
Defined.

Lemma animations_app a b :
  animations (a ++ b) = (animations a + animations b)%nat.
Proof. unfold animations. now rewrite List.filter_app, List.length_app. Qed.

Lemma animations_flat_map {A} (f : A -> list call) (l : list A) :
  (forall a, animations (f a) = 0%nat) -> animations (flat_map f l) = 0%nat.
Proof.
  intros H. induction l as [|a l IH]; [reflexivity|].
  simpl. now rewrite animations_app, H, IH.
Qed.

Lemma update_still layer s :
  animations (snd (update_layer_slide_display layer false s)) = 0%nat.
Proof.
  assert (Hlab : forall s0, animations
            (flat_map (fun i => when_obj (slide_label s0 i)
                                  (slide_label_update layer false s0 i))
                      (seq 0 SLIDE_VISIBLE_COUNT)) = 0%nat).
  { intros s0. apply animations_flat_map. intros i.
    destruct (slide_label s0 i) as [o|]; [|reflexivity]. cbn [when_obj].
    unfold slide_label_update. cbv zeta.
    generalize (to_int (layer_slide_window_start s0 + Z.of_nat i)). intros n.
    destruct (n <? 0), ((n =? layer) && (0 <=? n)); reflexivity. }
  assert (Hpos : forall s0, animations (slide_reset_positions s0) = 0%nat).
  { intros s0. unfold slide_reset_positions. apply animations_flat_map. intros i.
    destruct (slide_label s0 i); reflexivity. }
  unfold update_layer_slide_display.
  destruct (ds_layer_slide_max s <=? layer); cbn [layer_slide_window_start
    set_ds_layer_slide_max];
    destruct (to_int (layer - layer_slide_window_start s) <? SLIDE_LARGE_ZONE_START);
    [| destruct (SLIDE_LARGE_ZONE_END <? to_int (layer - layer_slide_window_start s))
     | | destruct (SLIDE_LARGE_ZONE_END <? to_int (layer - layer_slide_window_start s)) ];
    cbn [fst snd andb];
    rewrite !animations_app, Hlab, Hpos; reflexivity.
Qed.

Lemma update_pulsed layer animate s :
  let r := update_layer_slide_display layer animate s in
  pulsed (snd r)
  = flat_map (fun i => omap pulse_target
                         (when_obj (slide_label (fst r) i)
                                   (slide_label_update layer animate (fst r) i)))
             (seq 0 SLIDE_VISIBLE_COUNT).
Proof.
  assert (Hpos : forall s0, omap pulse_target (slide_reset_positions s0) = []).
  { intros s0. unfold slide_reset_positions. rewrite omap_flat_map.
    apply flat_map_nil. intros i _. destruct (slide_label s0 i); reflexivity. }
  assert (Hscroll : forall s0 k, omap pulse_target
            (flat_map (fun i => when_obj (slide_label s0 i)
                        (fun o => [lv_anim_del o (Some slide_scroll_anim_cb);
                                   lv_anim_start o slide_scroll_anim_cb k 0 150]))
                      (seq 0 SLIDE_VISIBLE_COUNT)) = []).
  { intros s0 k. rewrite omap_flat_map. apply flat_map_nil. intros i _.
    destruct (slide_label s0 i); reflexivity. }
  cbv zeta. unfold pulsed, update_layer_slide_display.
  destruct (ds_layer_slide_max s <=? layer); cbn [layer_slide_window_start
    set_ds_layer_slide_max];
    destruct (to_int (layer - layer_slide_window_start s) <? SLIDE_LARGE_ZONE_START);
    [| destruct (SLIDE_LARGE_ZONE_END <? to_int (layer - layer_slide_window_start s))
     | | destruct (SLIDE_LARGE_ZONE_END <? to_int (layer - layer_slide_window_start s)) ];
    cbn [fst snd andb];
    repeat match goal with
           | |- context [if ?b then _ else _] => destruct b
           end;
    rewrite !omap_app, ?Hpos, ?Hscroll, omap_flat_map; cbn [omap pulse_target app];
    rewrite ?app_nil_r; reflexivity.
Qed.

Lemma update_pulses_active layer s :
  0 <= layer <= 255 ->
  INT_MIN <= layer_slide_window_start s <= INT_MAX ->
  let r := update_layer_slide_display layer true s in
  pulsed (snd r)
  = match slide_label s (Z.to_nat (layer - layer_slide_window_start (fst r))) with
    | Some o => [o]
    | None => []
    end.
Proof.
  intros Hl Hws r. unfold r. rewrite update_pulsed. fold r.
  pose proof (update_window_range layer true s Hl Hws) as Hr. fold r in Hr.
  pose proof (update_labels layer true s) as Hlab. fold r in Hlab.
  set (ws' := layer_slide_window_start (fst r)) in *.
  set (i0 := Z.to_nat (layer - ws')).
  assert (Hin : In i0 (seq 0 SLIDE_VISIBLE_COUNT))
    by (apply in_seq; unfold SLIDE_VISIBLE_COUNT, i0; lia).
  rewrite (flat_map_unique _ _ i0 (List.seq_NoDup _ _) Hin).
  - unfold slide_label. rewrite Hlab.
    destruct (default None (layer_slide_labels s !! i0)) as [o|]; [|reflexivity].
    cbn [when_obj]. unfold slide_label_update. cbv zeta. fold ws'.
    rewrite (to_int_id (ws' + Z.of_nat i0)) by (unfold INT_MIN, INT_MAX, i0; lia).
    replace (ws' + Z.of_nat i0) with layer by (unfold i0; lia).
    rewrite Z.eqb_refl.
    destruct (Z.leb_spec 0 layer); [|lia]. destruct (Z.ltb_spec layer 0); [lia|].
    reflexivity.
  - intros j Hj Hne. apply in_seq in Hj. unfold SLIDE_VISIBLE_COUNT in Hj.
    destruct (slide_label (fst r) j) as [o|]; [|reflexivity].
    cbn [when_obj]. unfold slide_label_update. cbv zeta. fold ws'.
    rewrite (to_int_id (ws' + Z.of_nat j)) by (unfold INT_MIN, INT_MAX; lia).
    destruct (Z.eqb_spec (ws' + Z.of_nat j) layer) as [E|E];
      [exfalso; apply Hne; unfold i0; lia|].
    cbn [andb]. destruct (ws' + Z.of_nat j <? 0); reflexivity.
Qed.

(** X12: only a change of layer animates the dial, and it pulses the
    active numeral once.  In slide mode, [display_update_layer L] with
    the layer that is already active starts no animation at all (no
    pulse, no scroll); with a new layer [0 <= L <= 255], on the main
    screen, the pulse animation is started on exactly one widget, the
    label in the slot of the active layer (and on none if that slot has
    no label). *)
Theorem layer_change_pulses_once fixed_mode_update layer s :
  ds_layer_slide_mode s = true ->
  let r := display_update_layer fixed_mode_update layer s in
  (active_layer s = layer -> animations (snd r) = 0%nat)
  /\ (active_layer s <> layer ->
      current_screen s = SCREEN_MAIN -> 0 <= layer <= 255 ->
      INT_MIN <= layer_slide_window_start s <= INT_MAX ->
      pulsed (snd r)
      = match slide_label s (Z.to_nat (layer - layer_slide_window_start (fst r))) with
        | Some o => [o]
        | None => []
        end).
Proof.
  intros Hmode r. unfold r, display_update_layer. split.
  - intros <-.
    destruct ((active_layer s <? 0) || (255 <? active_layer s)); [reflexivity|].
    cbn [current_screen set_active_layer ds_layer_slide_mode active_layer].
    destruct (negb (screen_state_eqb (current_screen s) SCREEN_MAIN)); [reflexivity|].
    rewrite Hmode, Z.eqb_refl. cbn [negb].
    pose proof (update_still (active_layer s) (set_active_layer (active_layer s) s)) as H.
    destruct (update_layer_slide_display _ false _) as [s1 c]. exact H.
  - intros Hne Hmain Hl Hws.
    destruct (Z.ltb_spec layer 0); [lia|]. destruct (Z.ltb_spec 255 layer); [lia|].
    cbn [orb current_screen set_active_layer ds_layer_slide_mode active_layer].
    rewrite Hmain, Hmode. cbn [screen_state_eqb negb].
    destruct (Z.eqb_spec (active_layer s) layer) as [E|_]; [contradiction|]. cbn [negb].
    pose proof (update_pulses_active layer (set_active_layer layer s) Hl Hws) as Hp.
    cbv zeta in Hp.
    destruct (update_layer_slide_display layer true (set_active_layer layer s))
      as [s1 c]. exact Hp.
Qed.

Lemma layer_change_pulses_once_witness :
  pulsed (snd (display_update_layer fixed_mode_idle 9 layer_sample)) = [16%nat].
Proof.
  destruct (layer_change_pulses_once fixed_mode_idle 9 layer_sample eq_refl) as [_ H].
  apply H.
  - cbn. lia.
  - reflexivity.
  - lia.
  - unfold INT_MIN, INT_MAX. cbn. lia.
Defined.

Lemma deleted_labels (g : nat -> option obj) (l : list nat) :
  deleted (flat_map (fun i => when_obj (g i) (fun o => [lv_anim_del o None; lv_obj_del o])) l)
  = omap g l.
Proof.
  unfold deleted. induction l as [|i l IH]; [reflexivity|].
  cbn [flat_map]. rewrite omap_app, IH.
  change (omap g (i :: l))
    with (match g i with Some o => o :: omap g l | None => omap g l end).
  destruct (g i); reflexivity.
Qed.

Lemma no_labels_no_calls (s : layer_state) (f : nat -> obj -> list call) (l : list nat) :
  (forall i, slide_label s i = None) ->
  flat_map (fun i => when_obj (slide_label s i) (f i)) l = [].
Proof. intros H. apply flat_map_nil. intros i _. now rewrite H. Qed.

(** X13: the dial's teardown frees every label once and later updates
    touch nothing.  [destroy_layer_slide_widgets] deletes exactly the
    labels that exist, each once and in slot order, leaves all nine
    slots empty and the window start at 0, and keeps the cached layer;
    a layer update that arrives afterwards acts on no widget at all (it
    only logs). *)
Theorem destroy_layer_slide_widgets_clears s :
  let r := destroy_layer_slide_widgets s in
  deleted (snd r) = omap (slide_label s) (seq 0 SLIDE_VISIBLE_COUNT)
  /\ (forall i, slide_label (fst r) i = None)
  /\ layer_slide_window_start (fst r) = 0
  /\ active_layer (fst r) = active_layer s
  /\ (forall layer animate,
        Forall (fun c => call_target c = None)
               (snd (update_layer_slide_display layer animate (fst r)))).
Proof.
  cbv zeta. unfold destroy_layer_slide_widgets. cbn [fst snd].
  assert (Hnone : forall s0 i,
            slide_label (set_layer_slide_labels (replicate SLIDE_VISIBLE_COUNT None) s0) i
            = None).
  { intros s0 i. unfold slide_label. cbn [layer_slide_labels set_layer_slide_labels].
    destruct (replicate SLIDE_VISIBLE_COUNT None !! i) as [o|] eqn:E; [|reflexivity].
    apply lookup_replicate in E as [-> _]. reflexivity. }
  split; [apply deleted_labels|]. split; [intros i; apply Hnone|].
  split; [reflexivity|]. split; [reflexivity|].
  intros layer animate.
  set (s0 := set_layer_slide_window_start 0
               (set_layer_slide_labels (replicate SLIDE_VISIBLE_COUNT None) s)).
  unfold update_layer_slide_display.
  destruct (ds_layer_slide_max s0 <=? layer); cbn [layer_slide_window_start
    set_ds_layer_slide_max];
    destruct (to_int (layer - layer_slide_window_start s0) <? SLIDE_LARGE_ZONE_START);
    [| destruct (SLIDE_LARGE_ZONE_END <? to_int (layer - layer_slide_window_start s0))
     | | destruct (SLIDE_LARGE_ZONE_END <? to_int (layer - layer_slide_window_start s0)) ];
    cbn [fst snd andb];
    repeat match goal with
           | |- context [if ?b then _ else _] => destruct b
           end;
    unfold slide_reset_positions;
    rewrite !no_labels_no_calls by (intros i; apply Hnone);
    repeat constructor.
Qed.

Lemma hue_of_range layer max_layer :
  0 <= layer <= 255 -> 0 <= hue_of layer max_layer < 360.
Proof.
  intros Hl. unfold hue_of. cbv zeta.
  rewrite to_int_id by (unfold INT_MIN, INT_MAX; lia).
  destruct (max_layer <=? 0) eqn:E; Z.to_euclidean_division_equations; nia.
Qed.

Lemma get_slide_layer_color_hue layer max_layer :
  0 <= layer <= 255 ->
  get_slide_layer_color layer max_layer
  = get_slide_layer_color (hue_of layer max_layer) 360.
Proof.
  intros Hl. pose proof (hue_of_range layer max_layer Hl) as Hh.
  unfold get_slide_layer_color. cbv zeta. fold (hue_of layer max_layer).
  change (360 <=? 0) with false. cbv iota.
  replace (Z.rem (Z.quot (to_int (hue_of layer max_layer * 360)) 360) 360)
    with (hue_of layer max_layer); [reflexivity|].
  rewrite to_int_id by (unfold INT_MIN, INT_MAX; lia).
  rewrite Z.quot_mul by lia. symmetry. apply Z.rem_small. lia.
Qed.

Lemma every_hue_pastel :
  all_from 360 0 (fun h => is_pastel (get_slide_layer_color h 360)) = true.
Proof. vm_compute. reflexivity. Qed.

(** X27: the active layer's colour is always a bright pastel.  For
    every layer 0..255 and every maximum, the colour computed by
    [get_slide_layer_color] (HSV with saturation 0.4 and value 1.0,
    converted in binary32) has each of its red, green and blue channels
    in 153..255 and the strongest one at 255; and it depends on the
    layer and the maximum only through the hue
    [(layer * 360 / max) % 360]. *)
Theorem slide_layer_color_pastel layer max_layer :
  0 <= layer <= 255 ->
  let c := get_slide_layer_color layer max_layer in
  153 <= red c <= 255 /\ 153 <= green c <= 255 /\ 153 <= blue c <= 255
  /\ Z.max (red c) (Z.max (green c) (blue c)) = 255
  /\ c = get_slide_layer_color (hue_of layer max_layer) 360.
Proof.
  intros Hl. cbv zeta.
  pose proof (get_slide_layer_color_hue layer max_layer Hl) as Hc.
  pose proof (hue_of_range layer max_layer Hl) as Hh.
  pose proof (all_from_spec _ _ _ every_hue_pastel (hue_of layer max_layer)
                ltac:(lia)) as Hok.
  cbv beta in Hok. rewrite <- Hc in Hok. unfold is_pastel in Hok.
  apply andb_true_iff in Hok as [Hok Hmax]. apply andb_true_iff in Hok as [Hok Hb].
  apply andb_true_iff in Hok as [Hr Hg].
  apply Z.leb_le in Hr, Hg, Hb. apply Z.eqb_eq in Hmax.
  repeat split; try assumption; lia.
Qed.

Lemma slide_layer_color_pastel_witness :
  Z.max (red (get_slide_layer_color 3 7))
        (Z.max (green (get_slide_layer_color 3 7)) (blue (get_slide_layer_color 3 7)))
  = 255.
Proof.
  destruct (slide_layer_color_pastel 3 7 ltac:(lia)) as (_ & _ & _ & H & _).
  exact H.
Defined.

End LayerDialProperties.

(** ** Battery bars: values shown and updates off screen *)

Section BatteryShownProperties.
Import Battery.

Lemma count_active_range bat0 bat1 bat2 bat3 :
  0 <= count_active [bat0; bat1; bat2; bat3] <= 4.
Proof.
  unfold count_active. cbn [fold_left].
  destruct (0 <? bat0), (0 <? bat1), (0 <? bat2), (0 <? bat3); cbn; lia.
Qed.

Lemma update_slot_pct_foreign count values s j o :
  widget_at (kb_bat_pct s) j <> Some o ->
  omap (text_set o) (update_slot count values s j) = [].
Proof.
  intros Hne. unfold update_slot. cbv zeta.
  destruct ((0 <? count) && (Z.of_nat j <? count)), (0 <? default 0 (values !! j));
    cbn [andb];
    destruct (widget_at (kb_bat_bar s) j), (widget_at (kb_bat_pct s) j) as [p|],
      (widget_at (kb_bat_name s) j), (widget_at (kb_bat_nc_bar s) j),
      (widget_at (kb_bat_nc_label s) j); cbn; try reflexivity;
    destruct (Nat.eqb_spec p o) as [->|_]; try reflexivity; contradiction.
Qed.

Lemma update_slot_pct_own count values s i o v :
  widget_at (kb_bat_pct s) i = Some o ->
  values !! i = Some v -> 0 < v -> Z.of_nat i < count ->
  omap (text_set o) (update_slot count values s i) = [snprintf 16 (fmt_d v)].
Proof.
  intros Ho Hv Hpos Hcount. unfold update_slot. cbv zeta. rewrite Hv, Ho.
  cbn [default from_option id].
  destruct (Z.ltb_spec 0 count); [|lia]. destruct (Z.ltb_spec (Z.of_nat i) count); [|lia].
  destruct (Z.ltb_spec 0 v); [|lia]. cbn [andb].
  destruct (widget_at (kb_bat_bar s) i), (widget_at (kb_bat_name s) i),
    (widget_at (kb_bat_nc_bar s) i), (widget_at (kb_bat_nc_label s) i);
    cbn; rewrite Nat.eqb_refl; reflexivity.
Qed.

(** X14: a connected battery shows its percentage.  After
    [display_update_keyboard_battery_4], every slot [i] below the active
    count whose value [v] is positive has the decimal text of [v] on its
    percentage label (whether or not the layout was recomputed by the
    same call), provided the label belongs to that slot only. *)
Theorem battery_percentage_shown bat0 bat1 bat2 bat3 s i o v :
  let values := [bat0; bat1; bat2; bat3] in
  let r := display_update_keyboard_battery_4 bat0 bat1 bat2 bat3 s in
  widget_at (kb_bat_pct s) i = Some o ->
  (forall j, widget_at (kb_bat_pct s) j = Some o -> j = i) ->
  values !! i = Some v -> 0 < v <= INT_MAX ->
  Z.of_nat i < count_active values ->
  rendered_text o (snd r) = Some (fmt_d v)
  /\ active_battery_count (fst r) = count_active values
  /\ battery_values (fst r) = values.
Proof.
  intros values r Ho Huniq Hv Hpos Hcount.
  assert (Hi : In i (seq 0 MAX_KB_BATTERIES)).
  { apply in_seq. apply lookup_lt_Some in Hv. cbn in Hv. unfold MAX_KB_BATTERIES. lia. }
  assert (Hfit : snprintf 16 (fmt_d v) = fmt_d v).
  { apply snprintf_fits.
    pose proof (fmt_d_length 10 v ltac:(lia)
                  ltac:(unfold INT_MAX in Hpos; change (10 ^ Z.of_nat 10) with 10000000000; lia)).
    lia. }
  assert (Hloop : forall s', kb_bat_pct s' = kb_bat_pct s ->
            omap (text_set o)
              (flat_map (update_slot (count_active values) values s')
                        (seq 0 MAX_KB_BATTERIES)) = [fmt_d v]).
  { intros s' Hs'. rewrite omap_flat_map.
    rewrite (flat_map_unique _ _ i (List.seq_NoDup _ _) Hi).
    - rewrite (update_slot_pct_own _ _ _ _ _ v); rewrite ?Hs'; auto; [now rewrite Hfit | lia].
    - intros j _ Hji. apply update_slot_pct_foreign. rewrite Hs'.
      intros Hj. apply Hji, Huniq, Hj. }
  unfold r, display_update_keyboard_battery_4. fold values.
  cbn [active_battery_count set_battery_values].
  destruct (negb (count_active values =? active_battery_count s)) eqn:Hchg;
    cbn [fst snd]; unfold rendered_text.
  - rewrite omap_app, Hloop by reflexivity. rewrite last_snoc.
    repeat split.
  - cbn [app]. rewrite Hloop by reflexivity.
    apply negb_false_iff, Z.eqb_eq in Hchg. repeat split. now rewrite Hchg.
Qed.

Lemma battery_percentage_shown_witness :
  rendered_text 25%nat (snd (Battery.display_update_keyboard_battery_4 80 63 12 0 battery_two))
  = Some "63".
Proof.
  destruct (battery_percentage_shown 80 63 12 0 battery_two 1 25%nat 63) as [H _].
  - reflexivity.
  - intros j Hj. do 4 (destruct j as [|j]; [cbn in Hj; congruence|]). discriminate Hj.
  - reflexivity.
  - unfold INT_MAX. lia.
  - vm_compute. reflexivity.
  - exact H.
Defined.

(** X15: battery updates that arrive while the bars do not exist are
    cached and draw nothing.  When every battery widget pointer is
    NULL (any screen but Main), [display_update_keyboard_battery_4]
    stores the four values and the active count, which is the number of
    positive values and lies in 0..4, and none of its calls acts on a
    widget. *)
Theorem battery_update_off_screen bat0 bat1 bat2 bat3 s :
  (forall i, widget_at (kb_bat_bar s) i = None) ->
  (forall i, widget_at (kb_bat_pct s) i = None) ->
  (forall i, widget_at (kb_bat_name s) i = None) ->
  (forall i, widget_at (kb_bat_nc_bar s) i = None) ->
  (forall i, widget_at (kb_bat_nc_label s) i = None) ->
  let r := display_update_keyboard_battery_4 bat0 bat1 bat2 bat3 s in
  battery_values (fst r) = [bat0; bat1; bat2; bat3]
  /\ active_battery_count (fst r) = count_active [bat0; bat1; bat2; bat3]
  /\ 0 <= active_battery_count (fst r) <= Z.of_nat MAX_KB_BATTERIES
  /\ Forall (fun c => Layer.call_target c = None) (snd r).
Proof.
  intros H1 H2 H3 H4 H5.
  pose proof (count_active_range bat0 bat1 bat2 bat3) as Hrange.
  assert (Hslot : forall count values s',
            kb_bat_bar s' = kb_bat_bar s -> kb_bat_pct s' = kb_bat_pct s ->
            kb_bat_name s' = kb_bat_name s -> kb_bat_nc_bar s' = kb_bat_nc_bar s ->
            kb_bat_nc_label s' = kb_bat_nc_label s ->
            flat_map (update_slot count values s') (seq 0 MAX_KB_BATTERIES) = []
            /\ flat_map (reposition_slot count s') (seq 0 MAX_KB_BATTERIES) = []).
  { intros count values s' E1 E2 E3 E4 E5.
    split; apply flat_map_nil; intros i _.
    - unfold update_slot. rewrite E1, E2, E3, E4, E5, H1, H2, H3, H4, H5.
      repeat match goal with
             | |- context [if ?b then _ else _] => destruct b
             end; reflexivity.
    - unfold reposition_slot. rewrite E1, E2, E3, E4, E5, H1, H2, H3, H4, H5.
      destruct (select_layout count). reflexivity. }
  cbv zeta. unfold display_update_keyboard_battery_4.
  cbn [active_battery_count set_battery_values].
  destruct (negb (count_active [bat0; bat1; bat2; bat3] =? active_battery_count s)) eqn:Hchg;
    cbn [fst snd battery_values active_battery_count set_battery_values
         set_active_battery_count].
  - split; [reflexivity|]. split; [reflexivity|].
    split; [change (Z.of_nat MAX_KB_BATTERIES) with 4; exact Hrange|].
    match goal with
    | |- context [flat_map (update_slot ?c ?v ?s')] =>
        destruct (Hslot c v s') as [-> _]; try reflexivity
    end.
    rewrite app_nil_r.
    destruct (0 <? count_active [bat0; bat1; bat2; bat3]); [|constructor].
    unfold reposition_battery_widgets.
    match goal with
    | |- context [flat_map (reposition_slot ?c ?s')] =>
        destruct (Hslot c [] s') as [_ ->]; try reflexivity
    end.
    repeat constructor.
  - apply negb_false_iff, Z.eqb_eq in Hchg.
    split; [reflexivity|]. split; [now rewrite Hchg|].
    split; [rewrite <- Hchg; change (Z.of_nat MAX_KB_BATTERIES) with 4; exact Hrange|].
    match goal with
    | |- context [flat_map (update_slot ?c ?v ?s')] =>
        destruct (Hslot c v s') as [-> _]; try reflexivity
    end.
    constructor.
Qed.

Lemma battery_update_off_screen_witness :
  active_battery_count
    (fst (display_update_keyboard_battery_4 90 0 45 30 battery_off_screen)) = 3.
Proof.
  destruct (battery_update_off_screen 90 0 45 30 battery_off_screen)
    as (_ & H & _); try (intros i; do 4 (destruct i as [|i]; [reflexivity|]); reflexivity).
  exact H.
Defined.

End BatteryShownProperties.

(** ** Signal: bars, RSSI text and the restored rate *)

Section SignalShownProperties.
Import Signal SignalRestore.

(** X16: more signal never shows fewer bars.  [rssi_to_bars] is
    monotone with values in 0..5; it shows at least [k] bars (1..5)
    exactly from [-100 + 10 k] dBm on; and the bar colour is a grey
    whose level, [32 (bars + 1)], grows with the bars. *)
Theorem rssi_to_bars_monotone a b :
  a <= b ->
  0 <= rssi_to_bars a <= rssi_to_bars b /\ rssi_to_bars b <= 5
  /\ (forall k, 1 <= k <= 5 -> (k <= rssi_to_bars a <-> - 100 + 10 * k <= a))
  /\ get_rssi_color (rssi_to_bars a)
     = lv_color_make (32 * (rssi_to_bars a + 1)) (32 * (rssi_to_bars a + 1))
                     (32 * (rssi_to_bars a + 1)).
Proof.
  intros Hab. unfold rssi_to_bars.
  repeat match goal with
         | |- context [if ?x <=? ?y then _ else _] => destruct (Z.leb_spec x y)
         end; try lia; (split; [lia|]); (split; [lia|]);
    (split; [intros k Hk; lia | reflexivity]).
Qed.

Lemma rssi_to_bars_monotone_witness :
  0 <= rssi_to_bars (-75) <= rssi_to_bars (-52).
Proof.
  destruct (rssi_to_bars_monotone (-75) (-52)) as (H & _); [lia | exact H].
Defined.

(** X17: the RSSI label always shows the whole reading.  For every
    [int8_t] value, [display_update_signal] and the signal block of
    [pending_update_timer_cb] leave the text ["<rssi>dBm"] on
    [rssi_label], untruncated, and cache the value. *)
Theorem rssi_text_shown rssi_val rate sig_rate_x100 s o :
  - 128 <= rssi_val <= 127 ->
  rssi_label s = Some o -> rate_label s <> Some o ->
  rendered_text o (snd (display_update_signal rssi_val rate s))
    = Some (fmt_d rssi_val +++ "dBm")
  /\ rendered_text o (snd (pending_signal_update rssi_val sig_rate_x100 s))
     = Some (fmt_d rssi_val +++ "dBm")
  /\ rssi (fst (display_update_signal rssi_val rate s)) = rssi_val
  /\ rssi (fst (pending_signal_update rssi_val sig_rate_x100 s)) = rssi_val.
Proof.
  intros Hr Ho Hne.
  assert (Hfit : snprintf 16 (fmt_d rssi_val +++ "dBm") = fmt_d rssi_val +++ "dBm").
  { apply snprintf_fits. rewrite length_append. cbn [String.length].
    pose proof (fmt_d_length_signed 3 rssi_val ltac:(lia)
                  ltac:(change (10 ^ Z.of_nat 3) with 1000; lia)). lia. }
  assert (Hown : forall s', rssi_bar s' = rssi_bar s -> rssi_label s' = rssi_label s ->
            omap (text_set o) (show_rssi rssi_val s') = [fmt_d rssi_val +++ "dBm"]).
  { intros s' E1 E2. unfold show_rssi. rewrite E1, E2, Ho, Hfit.
    destruct (rssi_bar s); cbn; rewrite Nat.eqb_refl; reflexivity. }
  assert (Hother : forall log text,
            omap (text_set o) log = [] ->
            omap (text_set o)
              (when_obj (rate_label s) (fun w => log ++ [lv_label_set_text w text])) = []).
  { intros log text Hlog. destruct (rate_label s) as [w|]; [|reflexivity].
    cbn [when_obj]. rewrite omap_app, Hlog. cbn.
    destruct (Nat.eqb_spec w o) as [->|_]; [now contradiction Hne | reflexivity]. }
  assert (Hlog : omap (text_set o) (snd (rate_text rate)) = []).
  { unfold rate_text.
    repeat match goal with
           | |- context [if ?b then _ else _] => destruct b
           end; reflexivity. }
  unfold rendered_text, display_update_signal, pending_signal_update.
  cbn [fst snd rssi set_signal rate_label].
  rewrite !omap_app, !Hown by reflexivity.
  split; [|split; [|split; reflexivity]].
  - destruct (rate_text rate) as [text log]. cbn [snd] in Hlog.
    rewrite (Hother log text Hlog). reflexivity.
  - pose proof (Hother [] (rate_x100_text sig_rate_x100) eq_refl) as Hx.
    cbn [app] in Hx. rewrite Hx. reflexivity.
Qed.

Lemma rssi_text_shown_witness :
  rendered_text 2%nat (snd (display_update_signal (-61) F32.f_10 signal_widgets))
  = Some "-61dBm".
Proof.
  destruct (rssi_text_shown (-61) F32.f_10 0 signal_widgets 2%nat) as [H _].
  - lia.
  - reflexivity.
  - discriminate.
  - exact H.
Defined.

Lemma restores_every_payload :
  all_from (Z.to_nat 99991) 0 restores_nearest_tenth = true.
Proof. vm_compute. reflexivity. Qed.

Lemma rate_x100_text_tenths t :
  0 <= t <= 9999 ->
  rate_x100_text (10 * t)
  = fmt_d (Z.quot t 10) +++ "." +++ fmt_d (Z.rem t 10) +++ "Hz".
Proof.
  intros Ht. rewrite rate_x100_text_nonneg by (unfold INT_MAX; lia).
  replace (Z.quot (10 * t) 100) with (Z.quot t 10)
    by (Z.to_euclidean_division_equations; lia).
  replace (Z.quot (Z.rem (10 * t) 100) 10) with (Z.rem t 10)
    by (Z.to_euclidean_division_equations; lia).
  reflexivity.
Qed.

(** X18: the rate restored from the cache is the payload rounded to the
    nearest tenth.  For every payload [0 <= p <= 99990] (up to 999.9
    Hz), when the signal block of [pending_update_timer_cb] has cached
    [(float)p / 100] and the main screen later restores it with
    [display_update_signal(rssi, rate_hz)], the rate label shows the
    text of the payload rounded to the nearest tenth, halves up (the
    live path truncates to the tenth); both texts are the same whenever
    the hundredths digit is below 5. *)
Theorem restored_rate_rounds p sig_rssi s o :
  0 <= p <= 99990 -> rate_label s = Some o ->
  let live := pending_signal_update sig_rssi p s in
  let restored := display_update_signal (rssi (fst live)) (rate_hz (fst live)) (fst live) in
  rendered_text o (snd restored) = Some (rate_x100_text (10 * nearest_tenth p))
  /\ (p mod 10 < 5 -> rendered_text o (snd restored) = rendered_text o (snd live)).
Proof.
  intros Hp Ho live restored.
  pose proof (all_from_spec _ _ _ restores_every_payload p
                ltac:(rewrite Z2Nat.id; lia)) as Hok.
  unfold restores_nearest_tenth in Hok. cbv zeta in Hok.
  apply andb_true_iff in Hok as [Hok Hten]. apply andb_true_iff in Hok as [Hneg Hbig].
  apply negb_true_iff in Hneg, Hbig. apply Z.eqb_eq in Hten.
  assert (Ht : 0 <= nearest_tenth p <= 9999).
  { unfold nearest_tenth. split; [apply Z.div_pos; lia|].
    apply Z.lt_succ_r, Z.div_lt_upper_bound; lia. }
  assert (Hres : rendered_text o (snd restored)
                 = Some (rate_x100_text (10 * nearest_tenth p))).
  { unfold restored, live, pending_signal_update, display_update_signal.
    cbn [fst snd set_signal rate_label rate_hz rssi]. rewrite Ho. cbn [when_obj].
    fold (cached_rate p). unfold rate_text. rewrite Hneg, Hbig, Hten.
    destruct (Z.ltb_spec 9999 (nearest_tenth p)); [lia|].
    rewrite app_assoc, rendered_text_last.
    rewrite rate_x100_text_tenths by exact Ht.
    rewrite snprintf_fits; [reflexivity|].
    rewrite !length_append. cbn [String.length].
    pose proof (fmt_d_length 3 (Z.quot (nearest_tenth p) 10) ltac:(lia)
                  ltac:(rewrite Z.quot_div_nonneg by lia;
                        change (10 ^ Z.of_nat 3) with 1000;
                        split; [apply Z.div_pos; lia | apply Z.div_lt_upper_bound; lia])).
    pose proof (fmt_d_length 1 (Z.rem (nearest_tenth p) 10) ltac:(lia)
                  ltac:(rewrite Z.rem_mod_nonneg by lia;
                        change (10 ^ Z.of_nat 1) with 10;
                        apply Z.mod_pos_bound; lia)).
    lia. }
  split; [exact Hres|].
  intros Hlow. rewrite Hres.
  unfold live, pending_signal_update. cbn [snd set_signal rate_label].
  rewrite Ho. cbn [when_obj]. rewrite rendered_text_last. f_equal.
  rewrite rate_x100_text_tenths by exact Ht.
  rewrite rate_x100_text_nonneg by (unfold INT_MAX; lia).
  unfold nearest_tenth.
  replace (Z.quot ((p + 5) / 10) 10) with (Z.quot p 100)
    by (Z.to_euclidean_division_equations; lia).
  replace (Z.rem ((p + 5) / 10) 10) with (Z.quot (Z.rem p 100) 10)
    by (Z.to_euclidean_division_equations; lia).
  reflexivity.
Qed.

Lemma restored_rate_rounds_witness :
  rendered_text 3%nat
    (snd (display_update_signal (-61) (cached_rate 1236)
            (fst (pending_signal_update (-61) 1236 signal_widgets))))
  = Some "12.4Hz"
  /\ rendered_text 3%nat (snd (pending_signal_update (-61) 1236 signal_widgets))
     = Some "12.3Hz".
Proof.
  destruct (restored_rate_rounds 1236 (-61) signal_widgets 3%nat) as [H _].
  - lia.
  - reflexivity.
  - split; [exact H | vm_compute; reflexivity].
Defined.

End SignalShownProperties.

(** ** Slider drag *)

Section SliderProperties.
Import Slider.

Lemma drag_value_clamped px s :
  min_val s <= max_val s -> min_val s <= drag_value px s <= max_val s.
Proof.
  intros H. unfold drag_value. cbv zeta.
  repeat match goal with
         | |- context [if ?a <? ?b then _ else _] => destruct (Z.ltb_spec a b)
         end; lia.
Qed.

Lemma is_obj_refl o : is_obj (Some o) o = true.
Proof. cbn. apply Nat.eqb_refl. Qed.

Lemma omap_lvgl cs : omap lvgl_call (map lvgl cs) = cs.
Proof. induction cs as [|c cs IH]; [reflexivity|]. cbn. now rewrite IH. Qed.

(** X19: a drag never takes a slider out of its range.  On
    [LV_EVENT_PRESSING] for the slider being dragged (not cancelled),
    with the start value inside [min_val..max_val] and a track of
    positive width (the handler divides by [slider_width]), the stored
    current value stays inside the range and is the one value set on the
    slider; and when the slider is the brightness slider (with its value
    label, a ready backlight and a range within 0..100) and the drag is
    not cancelled by this event, the LED driver receives exactly one
    duty, [100 - max(value, 1)]. *)
Theorem slider_drag_stays_in_range e slider px py s :
  indev_point e = Some (px, py) ->
  active_slider s = Some slider -> drag_cancelled s = false ->
  min_val s <= start_value s <= max_val s ->
  0 < slider_width s ->
  let r := ds_custom_slider_drag_cb e LV_EVENT_PRESSING slider s in
  min_val s <= current_value (fst r) <= max_val s
  /\ slider_values slider (snd r) = [current_value (fst r)]
  /\ min_val (fst r) = min_val s /\ max_val (fst r) = max_val s
  /\ start_value (fst r) = start_value s
  /\ (ds_brightness_slider s = Some slider -> ds_brightness_value s <> None ->
      (exists dev, backlight_dev e = Some dev /\ Backlight.device_is_ready dev = true) ->
      0 <= min_val s -> max_val s <= 100 ->
      drag_cancelled (fst r) = false ->
      duties (snd r) = [100 - Z.max (current_value (fst r)) 1]).
Proof.
  intros Hp Ha Hc Hs Hw. cbv zeta.
  unfold ds_custom_slider_drag_cb, drag_pressing. rewrite Hp, Ha, Hc, is_obj_refl.
  cbn [negb]. cbv zeta.
  pose proof (drag_value_clamped px s ltac:(lia)) as Hv.
  destruct ((SLIDER_SWIPE_THRESHOLD <? abs32 (to_int (py - start_y s)))
            && (to_int (abs32 (to_int (px - start_x s)) * 2)
                <? abs32 (to_int (py - start_y s)))).
  - cbn [fst snd current_value set_drag min_val max_val start_value drag_cancelled].
    unfold slider_values. cbn. rewrite Nat.eqb_refl.
    repeat split; try lia; intros; discriminate.
  - cbn [fst snd current_value set_drag min_val max_val start_value drag_cancelled
         ds_brightness_slider ds_brightness_value ds_layer_slider ds_layer_value].
    split; [exact Hv|]. split.
    { unfold slider_values. cbn [omap slider_value_set]. cbn. rewrite Nat.eqb_refl.
      destruct (label_of (ds_brightness_slider s) (ds_brightness_value s) slider);
        [|destruct (label_of (ds_layer_slider s) (ds_layer_value s) slider)]; cbn;
        try reflexivity.
      f_equal. induction (Backlight.set_pwm_brightness _ _ _) as [|c cs IH];
        [reflexivity | exact IH]. }
    split; [reflexivity|]. split; [reflexivity|]. split; [reflexivity|].
    intros Hb Hl (dev & Hdev & Hready) Hmin Hmax _.
    unfold label_of. rewrite Hb, is_obj_refl.
    destruct (ds_brightness_value s) as [label|]; [|contradiction].
    unfold duties.
    change (omap lvgl_call (?a :: lvgl ?b :: map lvgl ?cs))
      with (b :: omap lvgl_call (map lvgl cs)).
    rewrite omap_lvgl. cbn [Backlight.driver_values].
    rewrite Hdev, to_uint8_id by lia.
    apply set_pwm_brightness_duty; [exact Hready | lia].
Qed.

Lemma slider_drag_stays_in_range_witness :
  duties (snd (ds_custom_slider_drag_cb (touch_at 160 62) LV_EVENT_PRESSING 40%nat dragging))
  = [5].
Proof.
  destruct (slider_drag_stays_in_range (touch_at 160 62) 40%nat 160 62 dragging
              eq_refl eq_refl eq_refl ltac:(cbn; lia) ltac:(cbn; lia))
    as (_ & _ & _ & _ & _ & H).
  apply (H eq_refl ltac:(discriminate));
    [eexists; split; reflexivity | cbn; lia | cbn; lia | reflexivity].
Defined.

Lemma to_int_small z : - 2147483648 <= z <= 2147483647 -> to_int z = z.
Proof. intros H. apply to_int_id. unfold INT_MIN, INT_MAX. lia. Qed.

Lemma drag_value_plain px s :
  - 32768 <= px <= 32767 -> - 32768 <= start_x s <= 32767 ->
  0 <= min_val s <= start_value s -> start_value s <= max_val s <= 32767 ->
  0 < slider_width s <= 32767 ->
  drag_value px s
  = Z.max (min_val s)
      (Z.min (max_val s)
         (start_value s
          + Z.quot ((px - start_x s) * (max_val s - min_val s)) (slider_width s))).
Proof.
  intros Hpx Hsx Hmin Hmax Hw. unfold drag_value. cbv zeta.
  rewrite (to_int_small (px - start_x s)) by lia.
  rewrite (to_int_small (max_val s - min_val s)) by lia.
  assert (Hprod : - 2147385345 <= (px - start_x s) * (max_val s - min_val s)
                  <= 2147385345) by nia.
  rewrite (to_int_small ((px - start_x s) * (max_val s - min_val s))) by lia.
  assert (Hq : - 2147385345
               <= Z.quot ((px - start_x s) * (max_val s - min_val s)) (slider_width s)
               <= 2147385345).
  { revert Hprod. generalize ((px - start_x s) * (max_val s - min_val s)). intros z Hz.
    Z.to_euclidean_division_equations. nia. }
  rewrite (to_int_small (Z.quot _ _)) by lia.
  rewrite (to_int_small (start_value s + _)) by lia.
  generalize (start_value s
              + Z.quot ((px - start_x s) * (max_val s - min_val s)) (slider_width s)).
  intros v.
  destruct (Z.ltb_spec v (min_val s));
    match goal with
    | |- context [if ?a <? ?b then _ else _] => destruct (Z.ltb_spec a b)
    end; lia.
Qed.

(** X20: the slider follows the finger.  With screen coordinates and
    slider values that fit 16 bits and a track of positive width, the
    value computed for a touch is monotone in the touch's x (dragging
    right never lowers it), it is the start value while the finger has
    not moved, and dragging right by the track's width or more gives the
    maximum, left by the width or more the minimum. *)
Theorem slider_drag_follows_finger px1 px2 s :
  - 32768 <= px1 <= 32767 -> - 32768 <= px2 <= 32767 ->
  - 32768 <= start_x s <= 32767 ->
  0 <= min_val s <= start_value s -> start_value s <= max_val s <= 32767 ->
  0 < slider_width s <= 32767 ->
  (px1 <= px2 -> drag_value px1 s <= drag_value px2 s)
  /\ drag_value (start_x s) s = start_value s
  /\ (start_x s + slider_width s <= px2 -> drag_value px2 s = max_val s)
  /\ (px1 <= start_x s - slider_width s -> drag_value px1 s = min_val s).
Proof.
  intros H1 H2 Hsx Hmin Hmax Hw.
  rewrite (drag_value_plain px1), (drag_value_plain px2), (drag_value_plain (start_x s))
    by assumption.
  set (range := max_val s - min_val s). assert (Hr : 0 <= range) by (unfold range; lia).
  split; [|split; [|split]].
  - intros Hle.
    pose proof (Z.quot_le_mono ((px1 - start_x s) * range) ((px2 - start_x s) * range)
                  (slider_width s) ltac:(lia) ltac:(nia)). lia.
  - rewrite Z.sub_diag, Z.mul_0_l, Z.quot_0_l by lia. lia.
  - intros Hfar.
    pose proof (Z.quot_le_mono (range * slider_width s) ((px2 - start_x s) * range)
                  (slider_width s) ltac:(lia) ltac:(nia)) as Hq.
    rewrite Z.quot_mul in Hq by lia. unfold range in *. lia.
  - intros Hfar.
    pose proof (Z.quot_le_mono ((px1 - start_x s) * range) (- range * slider_width s)
                  (slider_width s) ltac:(lia) ltac:(nia)) as Hq.
    rewrite Z.quot_mul in Hq by lia. unfold range in *. lia.
Qed.

Lemma slider_drag_follows_finger_witness :
  drag_value 120 dragging <= drag_value 160 dragging
  /\ drag_value 32000 dragging = 100.
Proof.
  destruct (slider_drag_follows_finger 120 32000 dragging) as (_ & _ & Hmax & _);
    try (cbn; lia).
  destruct (slider_drag_follows_finger 120 160 dragging) as (Hmono & _);
    try (cbn; lia).
  split; [apply Hmono; lia | apply Hmax; cbn; lia].
Defined.

(** X21: a vertical swipe over a slider cancels the drag and lets the
    swipe through.  When the finger has moved more than 30 pixels
    vertically and more than twice as far as horizontally, the
    [LV_EVENT_PRESSING] event puts the slider back to its start value,
    marks the drag cancelled and clears [ui_interaction_active]; every
    further [LV_EVENT_PRESSING] event then changes nothing, and the
    release sends no [LV_EVENT_VALUE_CHANGED]. *)
Theorem slider_swipe_cancels_drag e slider px py s :
  indev_point e = Some (px, py) ->
  active_slider s = Some slider -> drag_cancelled s = false ->
  SLIDER_SWIPE_THRESHOLD < abs32 (to_int (py - start_y s)) ->
  to_int (abs32 (to_int (px - start_x s)) * 2) < abs32 (to_int (py - start_y s)) ->
  let r := ds_custom_slider_drag_cb e LV_EVENT_PRESSING slider s in
  slider_values slider (snd r) = [start_value s]
  /\ current_value (fst r) = start_value s
  /\ drag_cancelled (fst r) = true
  /\ ui_interaction_active (fst r) = false
  /\ (forall e', ds_custom_slider_drag_cb e' LV_EVENT_PRESSING slider (fst r)
                 = (fst r, []))
  /\ (forall e' p, indev_point e' = Some p ->
        let r' := ds_custom_slider_drag_cb e' LV_EVENT_RELEASED slider (fst r) in
        value_changed_sent (snd r') = 0%nat
        /\ slider_values slider (snd r') = [start_value s]
        /\ active_slider (fst r') = None).
Proof.
  intros Hp Ha Hc Hy Hx. cbv zeta.
  assert (Hr : ds_custom_slider_drag_cb e LV_EVENT_PRESSING slider s
               = (set_drag (Some slider) (start_value s) true false s,
                  [lvgl (LOG_INF "Vertical swipe detected on slider - cancelling drag");
                   lv_slider_set_value slider (start_value s)])).
  { unfold ds_custom_slider_drag_cb, drag_pressing.
    rewrite Hp, Ha, Hc, is_obj_refl. cbn [negb]. cbv zeta.
    apply Z.ltb_lt in Hy, Hx. now rewrite Hy, Hx. }
  rewrite Hr. cbn [fst snd].
  split; [unfold slider_values; cbn; now rewrite Nat.eqb_refl|].
  split; [reflexivity|]. split; [reflexivity|]. split; [reflexivity|].
  split.
  - intros e'. unfold ds_custom_slider_drag_cb, drag_pressing.
    cbn [active_slider set_drag drag_cancelled]. rewrite is_obj_refl.
    destruct (indev_point e') as [[px' py']|]; reflexivity.
  - intros e' [px' py'] Hp'. unfold ds_custom_slider_drag_cb, drag_released.
    rewrite Hp'. cbn [active_slider set_drag drag_cancelled current_value].
    rewrite is_obj_refl. cbn [negb fst snd].
    unfold slider_values. cbn. rewrite Nat.eqb_refl. repeat split.
Qed.

Lemma slider_swipe_cancels_drag_witness :
  ui_interaction_active
    (fst (ds_custom_slider_drag_cb (touch_at 105 120) LV_EVENT_PRESSING 40%nat dragging))
  = false.
Proof.
  destruct (slider_swipe_cancels_drag (touch_at 105 120) 40%nat 105 120 dragging
              eq_refl eq_refl eq_refl ltac:(vm_compute; reflexivity)
              ltac:(vm_compute; reflexivity)) as (_ & _ & _ & H & _).
  exact H.
Defined.

(** X22: a release always frees the gesture path.  With an active
    input device, [LV_EVENT_RELEASED] on any slider clears
    [ui_interaction_active], the active slider and the cancel mark;
    [LV_EVENT_VALUE_CHANGED] is sent exactly when the released slider is
    the one being dragged and the drag was not cancelled, after the
    slider was set to the value computed by the drag.  A press sets
    [ui_interaction_active]; and without an active input device the
    handler does nothing at all, whatever the event. *)
Theorem slider_release_unblocks e code slider px py s :
  indev_point e = Some (px, py) ->
  let released := ds_custom_slider_drag_cb e LV_EVENT_RELEASED slider s in
  let pressed := ds_custom_slider_drag_cb e LV_EVENT_PRESSED slider s in
  ui_interaction_active (fst released) = false
  /\ active_slider (fst released) = None
  /\ drag_cancelled (fst released) = false
  /\ value_changed_sent (snd released)
     = (if is_obj (active_slider s) slider && negb (drag_cancelled s) then 1 else 0)%nat
  /\ slider_values slider (snd released)
     = (if is_obj (active_slider s) slider then [current_value s] else [])
  /\ ui_interaction_active (fst pressed) = true
  /\ active_slider (fst pressed) = Some slider
  /\ (forall e', indev_point e' = None ->
                 ds_custom_slider_drag_cb e' code slider s = (s, [])).
Proof.
  intros Hp. cbv zeta. unfold ds_custom_slider_drag_cb. rewrite Hp.
  unfold drag_released, drag_pressed, slider_values, value_changed_sent.
  destruct (is_obj (active_slider s) slider), (drag_cancelled s);
    cbn; rewrite ?Nat.eqb_refl; repeat split; intros e' ->; reflexivity.
Qed.

Lemma slider_release_unblocks_witness :
  value_changed_sent
    (snd (ds_custom_slider_drag_cb (touch_at 160 62) LV_EVENT_RELEASED 40%nat dragging))
  = 1%nat.
Proof.
  destruct (slider_release_unblocks (touch_at 160 62) LV_EVENT_RELEASED 40%nat 160 62
              dragging eq_refl) as (_ & _ & _ & H & _).
  exact H.
Defined.

End SliderProperties.

(** ** Status rows *)

Section StatusProperties.
Import Status.

Lemma mod_text_every_byte : all_from 256 0 mod_text_by_kind = true.
Proof. vm_compute. reflexivity. Qed.

(** X23: the modifier label shows one symbol for each kind of modifier
    held.  For every byte [mods], [display_update_modifiers] caches it
    and leaves on the label the symbols of Control, Shift, Alt and GUI,
    in that order, one for each kind whose left or right flag is set:
    left and right variants show alike, the text has four bytes for each
    kind held (so it never fills the 64-byte buffer), and it is empty
    exactly when no flag is set. *)
Theorem modifier_text_by_kind mods s o :
  0 <= mods <= 255 -> modifier_label s = Some o ->
  let r := display_update_modifiers mods s in
  let text := symbol_if_held mods 0 +++ symbol_if_held mods 1
              +++ symbol_if_held mods 2 +++ symbol_if_held mods 3 in
  rendered_text o (snd r) = Some text
  /\ cached_modifiers (fst r) = mods
  /\ (String.length text <= 16)%nat
  /\ (text = "" <-> mods = 0).
Proof.
  intros Hm Ho. cbv zeta.
  pose proof (all_from_spec _ _ _ mod_text_every_byte mods ltac:(lia)) as Hok.
  apply String.eqb_eq in Hok.
  unfold display_update_modifiers. cbn [fst snd modifier_label set_cached_modifiers
    cached_modifiers]. rewrite Ho. cbn [when_obj].
  rewrite rendered_text_single, Hok.
  split; [reflexivity|]. split; [reflexivity|].
  unfold symbol_if_held.
  split.
  - rewrite !length_append.
    destruct (held mods (Z.of_nat 0)), (held mods (Z.of_nat 1)),
      (held mods (Z.of_nat 2)), (held mods (Z.of_nat 3)); cbn; lia.
  - split.
    + intros Hempty.
      assert (Hnone : held mods 0 = false /\ held mods 1 = false
                      /\ held mods 2 = false /\ held mods 3 = false).
      { change 0 with (Z.of_nat 0). change 1 with (Z.of_nat 1).
        change 2 with (Z.of_nat 2). change 3 with (Z.of_nat 3).
        destruct (held mods (Z.of_nat 0)), (held mods (Z.of_nat 1)),
          (held mods (Z.of_nat 2)), (held mods (Z.of_nat 3));
          try discriminate Hempty; auto. }
      unfold held in Hnone. cbn in Hnone.
      destruct Hnone as (H0 & H1 & H2 & H3).
      apply orb_false_iff in H0 as [B0 B4], H1 as [B1 B5], H2 as [B2 B6], H3 as [B3 B7].
      apply Z.bits_inj'. intros n Hn. rewrite Z.bits_0.
      destruct (Z_lt_le_dec n 8) as [Hlt|Hge].
      * assert (n = 0 \/ n = 1 \/ n = 2 \/ n = 3 \/ n = 4 \/ n = 5 \/ n = 6 \/ n = 7)
          as Hcases by lia.
        destruct Hcases as [->|[->|[->|[->|[->|[->|[->| ->]]]]]]]; assumption.
      * apply (Z.bits_above_log2 mods n); [lia|].
        destruct (Z.eq_dec mods 0) as [->|Hnz]; [cbn; lia|].
        apply Z.lt_le_trans with 8; [|exact Hge].
        apply Z.log2_lt_pow2; [lia | change (2 ^ 8) with 256; lia].
    + intros ->. reflexivity.
Qed.

Lemma modifier_text_by_kind_witness :
  rendered_text 7%nat (snd (display_update_modifiers 34 status_widgets))
  = Some (bytes [243; 176; 152; 182]%nat).
Proof.
  destruct (modifier_text_by_kind 34 status_widgets 7%nat ltac:(lia) eq_refl) as [H _].
  exact H.
Defined.

(** X24: the scanner battery row.  When the widget is switched off in
    the settings, [display_update_scanner_battery] caches the level,
    makes the icon and the percentage transparent and writes no text;
    when it is on, the percentage label shows the level in full (for
    levels of up to seven characters), and the colour is the charging
    blue when USB power is present and the colour of the level's band
    otherwise.  The bands of the icon, of the scanner colour and of the
    keyboard battery colour are the same: two levels get the same icon
    exactly when they get the same colour. *)
Theorem scanner_battery_row is_charging level s p :
  scanner_bat_pct s = Some p -> scanner_bat_icon s <> Some p ->
  let r := display_update_scanner_battery is_charging level s in
  scanner_battery (fst r) = level
  /\ (ds_battery_visible s = false ->
      rendered_text p (snd r) = None
      /\ forall o, In o [scanner_bat_icon s; scanner_bat_pct s] ->
                   forall w, o = Some w -> In (lv_obj_set_style_opa w 0 0) (snd r))
  /\ (ds_battery_visible s = true -> - 999999 <= level <= 9999999 ->
      rendered_text p (snd r) = Some (fmt_d level)
      /\ In (lv_obj_set_style_text_color p
               (if is_charging then lv_color_hex 32767
                else get_scanner_battery_color level) 0) (snd r))
  /\ (forall l1 l2,
        (get_battery_icon l1 = get_battery_icon l2
         <-> get_scanner_battery_color l1 = get_scanner_battery_color l2)
        /\ (get_battery_icon l1 = get_battery_icon l2
            <-> Battery.get_keyboard_battery_color l1
                = Battery.get_keyboard_battery_color l2)).
Proof.
  intros Hp Hne. cbv zeta.
  split; [unfold display_update_scanner_battery;
          cbn [ds_battery_visible set_scanner_battery];
          destruct (negb (ds_battery_visible s)); reflexivity|].
  unfold display_update_scanner_battery.
  cbn [ds_battery_visible set_scanner_battery scanner_bat_icon scanner_bat_pct].
  split; [|split].
  - intros ->. cbn [negb fst snd]. rewrite Hp. split.
    + unfold rendered_text. destruct (scanner_bat_icon s); reflexivity.
    + intros o Ho w ->. apply in_or_app.
      destruct Ho as [Ho|[Ho|[]]].
      * left. rewrite Ho. now left.
      * right. injection Ho as ->. now left.
  - intros -> Hl. cbn [negb fst snd]. rewrite Hp. cbn [when_obj].
    assert (Hfit : snprintf 8 (fmt_d level) = fmt_d level).
    { apply snprintf_fits.
      pose proof (fmt_d_length_signed 6 level ltac:(lia)) as H6.
      destruct (Z_lt_le_dec level 0) as [Hneg|Hpos].
      - specialize (H6 ltac:(change (10 ^ Z.of_nat 6) with 1000000; lia)). lia.
      - pose proof (fmt_d_length 7 level ltac:(lia)
                      ltac:(change (10 ^ Z.of_nat 7) with 10000000; lia)). lia. }
    rewrite Hfit. split.
    + unfold rendered_text. rewrite omap_app.
      assert (Hicon : omap (text_set p)
                (when_obj (scanner_bat_icon s) (fun o =>
                   lv_obj_set_style_opa o 255 0 ::
                   (if is_charging then
                      [lv_label_set_text o
                         (snprintf 16 (LV_SYMBOL_CHARGE +++ get_battery_icon level));
                       lv_obj_set_pos o 213 4]
                    else
                      [lv_label_set_text o (get_battery_icon level);
                       lv_obj_set_pos o 216 4])
                   ++ [lv_obj_set_style_text_color o
                         (if is_charging then lv_color_hex 32767
                          else get_scanner_battery_color level) 0])) = []).
      { destruct (scanner_bat_icon s) as [o|]; [|reflexivity].
        cbn [when_obj]. destruct is_charging; cbn;
          destruct (Nat.eqb_spec o p) as [->|_]; try reflexivity; now contradiction Hne. }
      rewrite Hicon. cbn. rewrite Nat.eqb_refl. reflexivity.
    + apply in_or_app. right. right. right. now left.
  - intros l1 l2.
    unfold get_battery_icon, get_scanner_battery_color, Battery.get_keyboard_battery_color.
    destruct (80 <=? l1), (60 <=? l1), (40 <=? l1), (20 <=? l1),
      (80 <=? l2), (60 <=? l2), (40 <=? l2), (20 <=? l2);
      repeat split; intros H; try reflexivity; try discriminate H;
      vm_compute in H; discriminate H.
Qed.

Lemma scanner_battery_row_witness :
  rendered_text 3%nat (snd (display_update_scanner_battery false 87 status_widgets))
  = Some "87".
Proof.
  destruct (scanner_battery_row false 87 status_widgets 3%nat eq_refl ltac:(discriminate))
    as (_ & _ & H & _).
  destruct (H eq_refl ltac:(lia)) as [Ht _]. exact Ht.
Defined.

(** X25: the transport label shows one link.  With USB ready the text
    is the USB tag whatever the BLE state; otherwise it is the BLE tag in
    green when connected, else blue when bonded, else white, followed on
    a second line by the profile number in full (for profiles of up to
    nine digits, the text fits its 32-byte buffer); the separate profile
    label is emptied, and the four values are cached. *)
Theorem transport_shows_one_link usb_rdy ble_conn ble_bond profile s o :
  transport_label s = Some o -> ble_profile_label s <> Some o ->
  0 <= profile <= 999999999 ->
  let r := display_update_connection usb_rdy ble_conn ble_bond profile s in
  rendered_text o (snd r)
  = Some (if usb_rdy then "#ffffff USB#"
          else "#" +++ (if ble_conn then "00ff00"
                        else if ble_bond then "4A90E2" else "ffffff")
               +++ " BLE#" +++ newline +++ "#ffffff " +++ fmt_d profile +++ "#")
  /\ (forall p, ble_profile_label s = Some p -> rendered_text p (snd r) = Some "")
  /\ usb_ready (fst r) = usb_rdy /\ ble_connected (fst r) = ble_conn
  /\ ble_bonded (fst r) = ble_bond /\ ble_profile (fst r) = profile.
Proof.
  intros Ho Hne Hp. cbv zeta. unfold display_update_connection.
  cbn [fst snd transport_label ble_profile_label usb_ready ble_connected ble_bonded
       ble_profile set_connection].
  rewrite Ho. cbn [when_obj].
  split; [|split; [|repeat split]].
  - assert (Hfit : forall c, String.length c = 6%nat ->
              snprintf 32 ("#" +++ c +++ " BLE#" +++ newline +++ "#ffffff "
                           +++ fmt_d profile +++ "#")
              = "#" +++ c +++ " BLE#" +++ newline +++ "#ffffff " +++ fmt_d profile +++ "#").
    { intros c Hc. apply snprintf_fits. rewrite !length_append, Hc. cbn [String.length newline].
      pose proof (fmt_d_length 9 profile ltac:(lia)
                    ltac:(change (10 ^ Z.of_nat 9) with 1000000000; lia)). lia. }
    unfold rendered_text. rewrite omap_app.
    assert (Hprof : omap (text_set o)
              (when_obj (ble_profile_label s) (fun w => [lv_label_set_text w ""])) = []).
    { destruct (ble_profile_label s) as [w|]; [|reflexivity]. cbn.
      destruct (Nat.eqb_spec w o) as [->|_]; [now contradiction Hne | reflexivity]. }
    rewrite Hprof, app_nil_r.
    destruct usb_rdy; [cbn; now rewrite Nat.eqb_refl|].
    destruct ble_conn, ble_bond; rewrite Hfit by reflexivity;
      cbn [omap text_set]; cbn; rewrite Nat.eqb_refl; reflexivity.
  - intros p Hpl. rewrite Hpl. cbn [when_obj].
    rewrite rendered_text_last. reflexivity.
Qed.

Lemma transport_shows_one_link_witness :
  rendered_text 5%nat (snd (display_update_connection true true true 2 status_widgets))
  = Some "#ffffff USB#".
Proof.
  destruct (transport_shows_one_link true true true 2 status_widgets 5%nat
              eq_refl ltac:(discriminate) ltac:(lia)) as [H _].
  exact H.
Defined.

Lemma substring_prefix (n : nat) : forall s,
  (String.length (substring 0 n s) <= n)%nat /\ prefix (substring 0 n s) s = true.
Proof.
  induction n as [|n IH]; intros [|c s]; cbn; try (split; [lia | reflexivity]).
  destruct (IH s) as [Hl Hp]. split; [lia|].
  destruct (ascii_dec c c); [exact Hp | congruence].
Qed.

(** X26: the cached device name never overflows its buffer.  After
    [display_update_device_name] the cache holds at most 31 characters,
    a prefix of the name given (the whole name when it has at most 31),
    while the label shows the name in full; a NULL name changes nothing
    and draws nothing. *)
Theorem device_name_cache_bounded name s :
  let r := display_update_device_name (Some name) s in
  (String.length (cached_device_name (fst r)) <= 31)%nat
  /\ prefix (cached_device_name (fst r)) name = true
  /\ ((String.length name <= 31)%nat -> cached_device_name (fst r) = name)
  /\ (forall o, device_name_label s = Some o -> rendered_text o (snd r) = Some name)
  /\ display_update_device_name None s = (s, []).
Proof.
  cbv zeta. unfold display_update_device_name.
  cbn [fst snd cached_device_name set_cached_device_name].
  destruct (substring_prefix 31 name) as [Hl Hp].
  split; [exact Hl|]. split; [exact Hp|].
  split; [intros Hn; now apply substring_all|].
  split; [|reflexivity].
  intros o ->. apply rendered_text_single.
Qed.

Lemma device_name_cache_bounded_witness :
  cached_device_name (fst (display_update_device_name (Some "Corne") status_widgets))
  = "Corne".
Proof.
  destruct (device_name_cache_bounded "Corne" status_widgets) as (_ & _ & H & _).
  apply H. cbn. lia.
Defined.

End StatusProperties.

(** ** Sliders: drags and value changes *)

Section SettingsProperties.
Import Slider Settings.

Lemma pwm_textless o dev ret b :
  omap (text_set o) (Backlight.set_pwm_brightness dev ret b) = [].
Proof.
  unfold Backlight.set_pwm_brightness.
  destruct dev as [dev|]; [|reflexivity].
  destruct (negb (Backlight.device_is_ready dev)); [reflexivity|].
  cbv zeta. destruct (ret <? 0); reflexivity.
Qed.

Lemma omap_lvgl_app a b :
  omap lvgl_call (a ++ b) = omap lvgl_call a ++ omap lvgl_call b.
Proof. apply omap_app. Qed.

Lemma driver_values_app a b :
  Backlight.driver_values (a ++ b)
  = Backlight.driver_values a ++ Backlight.driver_values b.
Proof.
  induction a as [|c a IH]; [reflexivity|].
  destruct c; cbn; rewrite ?IH; reflexivity.
Qed.

Lemma driver_values_text o t cs :
  Backlight.driver_values (lv_label_set_text o t :: cs) = Backlight.driver_values cs.
Proof. reflexivity. Qed.

Lemma percent_fits v : 0 <= v <= 100 -> snprintf 8 (fmt_d v +++ "%") = fmt_d v +++ "%".
Proof.
  intros Hv. apply snprintf_fits. rewrite length_append.
  pose proof (fmt_d_length 3 v ltac:(lia) ltac:(lia)). cbn [String.length]. lia.
Qed.

(** X28: a value change is applied once the drag is over, not before.
    While a slider is being dragged, [LV_EVENT_VALUE_CHANGED] on it is
    ignored by [ds_brightness_slider_event_cb] and
    [ds_layer_slider_event_cb]: the stored settings stay, no label is
    written and the LED driver is not called.  After the release of the
    drag the same event is taken: the brightness handler stores the
    slider's value, shows it as a percentage and, unless auto brightness
    is on, hands the duty [100 - max(value, 1)] to the LED driver; the
    layer handler stores the value as the maximum of layers. *)
Theorem value_change_waits_for_release e e' slider p s :
  indev_point e = Some p ->
  active_slider (drag s) = Some slider ->
  let v := lv_slider_get_value e' in
  let released := fst (drag_event e LV_EVENT_RELEASED slider s) in
  let during_b := ds_brightness_slider_event_cb e' LV_EVENT_VALUE_CHANGED slider s in
  let during_l := ds_layer_slider_event_cb e' LV_EVENT_VALUE_CHANGED slider s in
  let after_b := ds_brightness_slider_event_cb e' LV_EVENT_VALUE_CHANGED slider released in
  let after_l := ds_layer_slider_event_cb e' LV_EVENT_VALUE_CHANGED slider released in
  (fst during_b = s /\ duties (snd during_b) = []
   /\ forall o, label_text o (snd during_b) = None)
  /\ (fst during_l = s /\ forall o, label_text o (snd during_l) = None)
  /\ (0 <= v <= 100 ->
      ds_manual_brightness (fst after_b) = v
      /\ (forall o, ds_brightness_value (drag s) = Some o ->
                    label_text o (snd after_b) = Some (fmt_d v +++ "%"))
      /\ (forall dev, backlight_dev e' = Some dev ->
            Backlight.device_is_ready dev = true ->
            duties (snd after_b)
            = if ds_auto_brightness_enabled s then [] else [100 - Z.max v 1])
      /\ ds_max_layers (fst after_l) = v
      /\ ds_manual_brightness (fst after_l) = ds_manual_brightness s).
Proof.
  intros Hp Ha. cbv zeta.
  assert (Hd : is_obj (active_slider (drag s)) slider = true)
    by (rewrite Ha; apply is_obj_refl).
  assert (Hr : fst (drag_event e LV_EVENT_RELEASED slider s)
               = set_settings_drag
                   (set_drag None (current_value (drag s)) false false (drag s)) s).
  { unfold drag_event, ds_custom_slider_drag_cb. rewrite Hp. destruct p as [px py].
    unfold drag_released. rewrite Hd. reflexivity. }
  rewrite Hr.
  unfold ds_brightness_slider_event_cb, ds_layer_slider_event_cb. rewrite Hd.
  unfold set_settings_drag, set_drag, set_ds_manual_brightness, set_ds_max_layers.
  cbn [fst snd drag active_slider is_obj ds_manual_brightness ds_max_layers
       ds_auto_brightness_enabled ds_brightness_value ds_layer_value].
  split; [|split].
  - repeat split.
  - repeat split.
  - intros Hv.
    rewrite to_uint8_id by lia. rewrite percent_fits by lia.
    split; [reflexivity|]. split; [|split; [|split; reflexivity]].
    + intros o Ho. rewrite Ho. unfold label_text, when_label.
      rewrite !omap_lvgl_app. unfold rendered_text. rewrite !omap_app.
      destruct (negb (ds_auto_brightness_enabled s)).
      * rewrite omap_lvgl, pwm_textless. cbn. now rewrite Nat.eqb_refl.
      * cbn. now rewrite Nat.eqb_refl.
    + intros dev Hdev Hready. unfold duties, when_label.
      destruct (ds_auto_brightness_enabled s); cbn [negb].
      * destruct (ds_brightness_value (drag s)); reflexivity.
      * rewrite !omap_lvgl_app, omap_lvgl, Hdev.
        pose proof (set_pwm_brightness_duty dev (led_ret e') _ Hready Hv) as Hduty.
        destruct (ds_brightness_value (drag s)); cbn [omap list_omap lvgl_call app];
          rewrite ?driver_values_text, driver_values_app, Hduty; reflexivity.
Qed.

Lemma value_change_waits_for_release_witness :
  duties (snd (ds_brightness_slider_event_cb (touch_at 100 60) LV_EVENT_VALUE_CHANGED
                 40%nat settings_dragging)) = []
  /\ duties (snd (ds_brightness_slider_event_cb (touch_at 100 60) LV_EVENT_VALUE_CHANGED
                    40%nat
                    (fst (drag_event (touch_at 100 60) LV_EVENT_RELEASED 40%nat
                            settings_dragging)))) = [35].
Proof.
  pose proof (value_change_waits_for_release (touch_at 100 60) (touch_at 100 60)
                40%nat (100, 60) settings_dragging eq_refl eq_refl) as H.
  cbv zeta in H. destruct H as ((_ & H1 & _) & _ & H2).
  split; [exact H1|].
  destruct (H2 ltac:(cbn; lia)) as (_ & _ & H3 & _).
  exact (H3 _ eq_refl eq_refl).
Defined.

End SettingsProperties.

(** ** The scanner battery switch *)

Section BatterySwitchProperties.
Import Status BatterySwitch.

Lemma level_fits level :
  - 999999 <= level <= 9999999 -> snprintf 8 (fmt_d level) = fmt_d level.
Proof.
  intros Hl. apply snprintf_fits.
  pose proof (fmt_d_length_signed 6 level ltac:(lia)) as H6.
  destruct (Z_lt_le_dec level 0) as [Hneg|Hpos].
  - specialize (H6 ltac:(change (10 ^ Z.of_nat 6) with 1000000; lia)). lia.
  - pose proof (fmt_d_length 7 level ltac:(lia)
                  ltac:(change (10 ^ Z.of_nat 7) with 10000000; lia)). lia.
Qed.

Lemma scanner_battery_cached is_charging level s :
  let r := display_update_scanner_battery is_charging level s in
  scanner_battery (fst r) = level
  /\ ds_battery_visible (fst r) = ds_battery_visible s
  /\ scanner_bat_pct (fst r) = scanner_bat_pct s
  /\ scanner_bat_icon (fst r) = scanner_bat_icon s.
Proof.
  cbv zeta. unfold display_update_scanner_battery.
  cbn [ds_battery_visible set_scanner_battery].
  destruct (negb (ds_battery_visible s)); repeat split.
Qed.

Lemma scanner_battery_shown is_charging level s p :
  scanner_bat_pct s = Some p -> scanner_bat_icon s <> Some p ->
  ds_battery_visible s = true -> - 999999 <= level <= 9999999 ->
  let r := display_update_scanner_battery is_charging level s in
  rendered_text p (snd r) = Some (fmt_d level)
  /\ In (lv_obj_set_style_opa p 255 0) (snd r).
Proof.
  intros Hp Hne Hv Hl. cbv zeta. unfold display_update_scanner_battery.
  cbn [ds_battery_visible set_scanner_battery scanner_bat_icon scanner_bat_pct].
  rewrite Hv, Hp. cbn [negb fst snd when_obj]. rewrite (level_fits level Hl). split.
  - unfold rendered_text. rewrite omap_app.
    assert (Hicon : omap (text_set p)
              (when_obj (scanner_bat_icon s) (fun o =>
                 lv_obj_set_style_opa o 255 0 ::
                 (if is_charging then
                    [lv_label_set_text o
                       (snprintf 16 (LV_SYMBOL_CHARGE +++ get_battery_icon level));
                     lv_obj_set_pos o 213 4]
                  else
                    [lv_label_set_text o (get_battery_icon level);
                     lv_obj_set_pos o 216 4])
                 ++ [lv_obj_set_style_text_color o
                       (if is_charging then lv_color_hex 32767
                        else get_scanner_battery_color level) 0])) = []).
    { destruct (scanner_bat_icon s) as [o|]; [|reflexivity].
      cbn [when_obj]. destruct is_charging; cbn;
        destruct (Nat.eqb_spec o p) as [->|_]; try reflexivity; now contradiction Hne. }
    rewrite Hicon. cbn. rewrite Nat.eqb_refl. reflexivity.
  - apply in_or_app. right. now left.
Qed.

End BatterySwitchProperties.

(** ** The scanner battery switch, from the settings screen back to Main *)

Section BatteryRowProperties.
Import Status BatterySwitch BatteryRow.

(** X29: the battery switch decides how the row comes back.  The
    switch lives on the settings screen, where the main screen's labels
    are deleted: there [ds_battery_switch_event_cb] records the switch
    position, keeps the cached level and draws nothing (it only logs).
    When the main screen is built again and restores the cache by
    [display_update_scanner_battery(scanner_battery)], the percentage
    label shows the level that arrived before the visit, in full and
    opaque, if the switch was left on; if it was left off the row is
    created transparent and the restore makes both labels transparent
    and writes no text. *)
Theorem battery_switch_decides_row c0 c1 c2 checked level s screen_obj icon pct :
  icon <> pct -> - 999999 <= level <= 9999999 ->
  let cached := fst (display_update_scanner_battery c0 level s) in
  let away := fst (destroy_scanner_battery cached) in
  let switched := ds_battery_switch_event_cb Slider.LV_EVENT_VALUE_CHANGED checked c1
                    away in
  let rebuilt := create_scanner_battery screen_obj icon pct (fst switched) in
  let restored := display_update_scanner_battery c2 (scanner_battery (fst rebuilt))
                    (fst rebuilt) in
  (snd switched
   = [LOG_INF ("Scanner battery widget: " +++ (if checked then "visible" else "hidden"))]
   /\ ds_battery_visible (fst switched) = checked
   /\ scanner_battery (fst switched) = level
   /\ scanner_bat_pct (fst switched) = None /\ scanner_bat_icon (fst switched) = None)
  /\ (checked = true ->
      rendered_text pct (snd restored) = Some (fmt_d level)
      /\ In (lv_obj_set_style_opa pct 255 0) (snd restored)
      /\ ~ In (built (lv_obj_set_style_opa pct 0 0)) (snd rebuilt))
  /\ (checked = false ->
      In (built (lv_obj_set_style_opa pct 0 0)) (snd rebuilt)
      /\ In (built (lv_obj_set_style_opa icon 0 0)) (snd rebuilt)
      /\ snd restored
         = [lv_obj_set_style_opa icon 0 0; lv_obj_set_style_opa pct 0 0]).
Proof.
  intros Hne Hl. cbv zeta.
  destruct (scanner_battery_cached c0 level s) as (Hc & _).
  cbv zeta in Hc.
  generalize dependent (fst (display_update_scanner_battery c0 level s)).
  intros s1 Hc.
  assert (Hsw : ds_battery_switch_event_cb Slider.LV_EVENT_VALUE_CHANGED checked c1
                  (fst (destroy_scanner_battery s1))
                = (set_ds_battery_visible checked (set_scanner_widgets None None s1),
                   [LOG_INF ("Scanner battery widget: "
                             +++ (if checked then "visible" else "hidden"))])).
  { unfold ds_battery_switch_event_cb, destroy_scanner_battery,
      display_update_scanner_battery.
    cbn [fst ds_battery_visible set_ds_battery_visible set_scanner_widgets
           set_scanner_battery scanner_bat_icon scanner_bat_pct scanner_battery].
    destruct checked; cbn [negb when_obj app]; destruct s1; reflexivity. }
  rewrite Hsw. cbn [fst snd].
  split; [repeat split; exact Hc|].
  unfold create_scanner_battery. cbv zeta. cbn [fst snd].
  set (s2 := set_scanner_widgets (Some icon) (Some pct)
               (set_ds_battery_visible checked (set_scanner_widgets None None s1))).
  assert (H2 : scanner_battery s2 = level /\ ds_battery_visible s2 = checked
               /\ scanner_bat_pct s2 = Some pct /\ scanner_bat_icon s2 = Some icon).
  { repeat split. exact Hc. }
  destruct H2 as (H2l & H2v & H2p & H2i). rewrite H2l, H2v.
  split.
  - intros ->.
    destruct (scanner_battery_shown c2 level s2 pct H2p
                ltac:(rewrite H2i; congruence) H2v Hl) as [Ht Ho].
    split; [exact Ht|]. split; [exact Ho|].
    cbn [negb app]. intros Hin. cbn [In] in Hin.
    repeat (destruct Hin as [Hin|Hin]; [discriminate Hin|]). exact Hin.
  - intros ->. cbn [negb]. split; [|split].
    + apply in_or_app. right. right. now left.
    + apply in_or_app. right. now left.
    + unfold display_update_scanner_battery.
      cbn [ds_battery_visible set_scanner_battery scanner_bat_icon scanner_bat_pct].
      rewrite H2v, H2p, H2i. reflexivity.
Qed.

Lemma battery_switch_decides_row_witness :
  rendered_text 3%nat
    (snd (display_update_scanner_battery false 87
            (fst (create_scanner_battery 0%nat 2%nat 3%nat
                    (fst (ds_battery_switch_event_cb Slider.LV_EVENT_VALUE_CHANGED true
                            false
                            (fst (destroy_scanner_battery
                                    (fst (display_update_scanner_battery false 87
                                            status_widgets))))))))))
  = Some "87".
Proof.
  destruct (battery_switch_decides_row false false false true 87 status_widgets
              0%nat 2%nat 3%nat ltac:(discriminate) ltac:(lia)) as (_ & H & _).
  destruct (H eq_refl) as [Ht _]. exact Ht.
Defined.

End BatteryRowProperties.

(** ** The brightness engine and the adapter *)

Section BacklightEngineProperties.
Import Slider Settings BacklightEngine.

Lemma led_values_app a b : led_values (a ++ b) = led_values a ++ led_values b.
Proof. unfold led_values. now rewrite omap_app, driver_values_app. Qed.

Lemma issued_app a b : issued (a ++ b) = issued a ++ issued b.
Proof. apply omap_app. Qed.

Lemma led_values_ui cs : led_values (map (fun c => ui (lvgl c)) cs) = Backlight.driver_values cs.
Proof.
  unfold led_values. f_equal. induction cs as [|c cs IH]; [reflexivity|].
  cbn. now rewrite IH.
Qed.

Lemma led_values_map_ui cs : led_values (map ui cs) = duties cs.
Proof.
  unfold led_values, duties. f_equal.
  induction cs as [|c cs IH]; [reflexivity|].
  destruct c; cbn; now rewrite ?IH.
Qed.

Lemma issued_map_ui cs : issued (map ui cs) = [].
Proof. induction cs as [|c cs IH]; [reflexivity|exact IH]. Qed.

(** None of the six call sites calls the LED driver itself. *)
Lemma site_calls_no_led x : led_values (site_calls x) = [].
Proof.
  destruct x as [cfg|cfg|e code slider s|env s|env code checked nt s|e code slider s];
    cbn [site_calls].
  - unfold timeout_brightness. destruct cfg as [v|]; [|reflexivity].
    destruct (0 <? v); reflexivity.
  - unfold fixed_brightness. destruct cfg as [v|]; reflexivity.
  - unfold ds_custom_slider_drag_cb. destruct (indev_point e) as [[px py]|]; [|reflexivity].
    destruct code; try reflexivity.
    + unfold drag_pressing.
      destruct (negb (is_obj (active_slider s) slider)); [reflexivity|].
      destruct (drag_cancelled s); [reflexivity|]. cbv zeta.
      destruct ((SLIDER_SWIPE_THRESHOLD <? abs32 (to_int (py - start_y s)))
                && (to_int (abs32 (to_int (px - start_x s)) * 2)
                    <? abs32 (to_int (py - start_y s)))); [reflexivity|].
      cbn [snd set_drag ds_brightness_slider ds_brightness_value ds_layer_slider
             ds_layer_value].
      destruct (label_of (ds_brightness_slider s) (ds_brightness_value s) slider);
        [reflexivity|].
      destruct (label_of (ds_layer_slider s) (ds_layer_value s) slider); reflexivity.
    + unfold drag_released.
      destruct (is_obj (active_slider s) slider); [|reflexivity].
      destruct (drag_cancelled s); reflexivity.
  - unfold auto_brightness_timer_cb.
    destruct (negb (ds_auto_brightness_enabled (settings s))
              || negb (brightness_control_sensor_available env)); [reflexivity|].
    destruct (brightness_control_read_sensor env) as [ret light].
    destruct (negb (ret =? 0)); reflexivity.
  - unfold ds_auto_switch_event_cb. destruct code; try reflexivity.
    unfold auto_brightness_timer_cb. destruct s as [[d mb ab ml] tm].
    destruct checked, (brightness_control_sensor_available env), tm as [t|],
      (brightness_control_read_sensor env) as [ret light];
      cbn [andb negb orb settings set_ds_auto_brightness_enabled auto_brightness_timer
             set_auto_brightness_timer ds_auto_brightness_enabled drag
             ds_manual_brightness snd];
      try destruct (negb (ret =? 0));
      destruct (ds_brightness_slider d); reflexivity.
  - unfold ds_brightness_slider_event_cb. destruct code; try reflexivity.
    destruct (is_obj (active_slider (drag s)) slider); [reflexivity|].
    cbn [snd set_ds_manual_brightness drag ds_auto_brightness_enabled].
    destruct (ds_brightness_value (drag s)), (negb (ds_auto_brightness_enabled s));
      reflexivity.
Qed.

(** With a ready device the adapter turns each percentage handed to it
    into the inverted duty; the other calls pass through. *)
Lemma lower_led dev ret cs :
  Backlight.device_is_ready dev = true ->
  Forall (fun b => 0 <= b <= 100) (issued cs) ->
  led_values cs = [] ->
  led_values (lower (Some dev) ret cs) = map (fun b => 100 - Z.max b 1) (issued cs).
Proof.
  intros Hready. induction cs as [|c cs IH]; intros Hrange Hled; [reflexivity|].
  change (c :: cs) with ([c] ++ cs) in Hled. rewrite led_values_app in Hled.
  apply app_eq_nil in Hled as [Hc Hcs].
  unfold lower. cbn [flat_map]. fold (lower (Some dev) ret cs).
  rewrite led_values_app.
  destruct c as [b| | | |c]; cbn [issued omap list_omap issue] in Hrange |- *.
  - apply Forall_cons in Hrange as [Hb Hrange].
    cbn [run_adapter]. rewrite led_values_ui.
    rewrite (set_pwm_brightness_duty dev ret b Hready Hb).
    cbn [map app]. f_equal. now apply IH.
  - apply (IH Hrange Hcs).
  - apply (IH Hrange Hcs).
  - apply (IH Hrange Hcs).
  - cbn [run_adapter]. rewrite Hc. apply (IH Hrange Hcs).
Qed.

(** Without a ready device the adapter never calls the LED driver. *)
Lemma lower_not_ready dev ret cs :
  match dev with Some d => Backlight.device_is_ready d = false | None => True end ->
  led_values (lower dev ret cs) = led_values cs.
Proof.
  intros Hdev. induction cs as [|c cs IH]; [reflexivity|].
  unfold lower. cbn [flat_map]. fold (lower dev ret cs).
  change (c :: cs) with ([c] ++ cs). rewrite !led_values_app, IH. f_equal.
  destruct c as [b| | | |c]; try reflexivity.
  cbn [run_adapter]. rewrite led_values_ui. unfold Backlight.set_pwm_brightness.
  destruct dev as [d|]; [|reflexivity]. now rewrite Hdev.
Qed.

Lemma lower_map_ui dev ret cs : lower dev ret (map ui cs) = map ui cs.
Proof.
  unfold lower. induction cs as [|c cs IH]; [reflexivity|].
  cbn [map flat_map run_adapter app]. now rewrite IH.
Qed.

(** The drag handler written over the adapter agrees with the handler
    written over the LED driver. *)
Lemma drag_cb_lowers e code slider s :
  fst (BacklightEngine.ds_custom_slider_drag_cb e code slider s)
  = fst (Slider.ds_custom_slider_drag_cb e code slider s)
  /\ lower (backlight_dev e) (led_ret e)
       (snd (BacklightEngine.ds_custom_slider_drag_cb e code slider s))
     = map ui (snd (Slider.ds_custom_slider_drag_cb e code slider s)).
Proof.
  unfold BacklightEngine.ds_custom_slider_drag_cb, Slider.ds_custom_slider_drag_cb.
  destruct (indev_point e) as [[px py]|]; [|now split].
  destruct code; [ | | | now split ..].
  - destruct (drag_pressed e slider px py s) as [s1 c1] eqn:E. cbn [fst snd].
    split; [reflexivity|apply lower_map_ui].
  - unfold BacklightEngine.drag_pressing, Slider.drag_pressing.
    destruct (negb (is_obj (active_slider s) slider)); [now split|].
    destruct (drag_cancelled s); [now split|]. cbv zeta.
    destruct ((SLIDER_SWIPE_THRESHOLD <? abs32 (to_int (py - start_y s)))
              && (to_int (abs32 (to_int (px - start_x s)) * 2)
                  <? abs32 (to_int (py - start_y s)))); [now split|].
    cbn [fst snd set_drag ds_brightness_slider ds_brightness_value ds_layer_slider
           ds_layer_value].
    split; [reflexivity|].
    destruct (label_of (ds_brightness_slider s) (ds_brightness_value s) slider).
    + unfold lower. cbn [flat_map run_adapter app map].
      rewrite app_nil_r, map_map. reflexivity.
    + destruct (label_of (ds_layer_slider s) (ds_layer_value s) slider); reflexivity.
  - destruct (drag_released slider s) as [s1 c1] eqn:E. cbn [fst snd].
    split; [reflexivity|apply lower_map_ui].
Qed.

(** The same for the value-changed handler of the brightness slider. *)
Lemma slider_changed_lowers e code slider s :
  fst (BacklightEngine.ds_brightness_slider_event_cb e code slider s)
  = fst (Settings.ds_brightness_slider_event_cb e code slider s)
  /\ lower (backlight_dev e) (led_ret e)
       (snd (BacklightEngine.ds_brightness_slider_event_cb e code slider s))
     = map ui (snd (Settings.ds_brightness_slider_event_cb e code slider s)).
Proof.
  unfold BacklightEngine.ds_brightness_slider_event_cb,
    Settings.ds_brightness_slider_event_cb.
  destruct code; try (now split).
  destruct (is_obj (active_slider (drag s)) slider); [now split|].
  cbn [fst snd set_ds_manual_brightness drag ds_auto_brightness_enabled].
  split; [reflexivity|]. unfold when_label, lower.
  destruct (ds_brightness_value (drag s)), (negb (ds_auto_brightness_enabled s));
    cbn [flat_map run_adapter app map]; rewrite ?app_nil_r, ?map_app, ?map_map;
    reflexivity.
Qed.

(** What the drag hands to the adapter is the value it puts on the
    slider and, as a percentage, on the label. *)
Lemma drag_issues e slider px py s label :
  indev_point e = Some (px, py) ->
  active_slider s = Some slider -> drag_cancelled s = false ->
  ds_brightness_slider s = Some slider -> ds_brightness_value s = Some label ->
  0 < slider_width s ->
  let r := BacklightEngine.ds_custom_slider_drag_cb e LV_EVENT_PRESSING slider s in
  drag_cancelled (fst r) = false ->
  0 <= current_value (fst r) <= 100 ->
  issued (snd r) = [current_value (fst r)]
  /\ shown label (snd r) = Some (fmt_d (current_value (fst r)) +++ "%")
  /\ omap (fun c => match c with ui c => slider_value_set slider c | _ => None end)
       (snd r) = [current_value (fst r)].
Proof.
  intros Hp Ha Hc Hs Hl Hw. cbv zeta.
  unfold BacklightEngine.ds_custom_slider_drag_cb. rewrite Hp.
  unfold BacklightEngine.drag_pressing. rewrite Ha, is_obj_refl, Hc. cbn [negb]. cbv zeta.
  destruct ((SLIDER_SWIPE_THRESHOLD <? abs32 (to_int (py - start_y s)))
            && (to_int (abs32 (to_int (px - start_x s)) * 2)
                <? abs32 (to_int (py - start_y s)))); [discriminate|].
  cbn [fst snd set_drag current_value ds_brightness_slider ds_brightness_value
         ds_layer_slider ds_layer_value].
  intros _ Hv. unfold label_of. rewrite Hs, is_obj_refl, Hl.
  split; [|split].
  - cbn. rewrite to_uint8_id by lia. reflexivity.
  - unfold shown, rendered_text. cbn. now rewrite Nat.eqb_refl.
  - cbn. now rewrite Nat.eqb_refl.
Qed.

Lemma auto_timer_issues env s light :
  ds_auto_brightness_enabled (settings s) = true ->
  brightness_control_sensor_available env = true ->
  brightness_control_read_sensor env = (0, light) ->
  0 <= brightness_control_map_light_to_brightness env (to_uint16 light) <= 100 ->
  issued (auto_brightness_timer_cb env s)
  = [brightness_control_map_light_to_brightness env (to_uint16 light)].
Proof.
  intros He Ha Hr Hb. unfold auto_brightness_timer_cb. rewrite He, Ha, Hr.
  cbn [negb orb]. cbv zeta. change (negb (0 =? 0)) with false. cbv iota.
  cbn [issued omap list_omap issue log_dbg]. now rewrite to_uint8_id by lia.
Qed.

(** C8: the engine issues logical percentages and the adapter handles
    the polarity.  The engine is the code that decides the brightness,
    with its six calls of [set_pwm_brightness]: the timeout and the
    restore block of [pending_update_timer_cb], the slider drag, the
    automatic brightness timer, the automatic brightness switch and the
    value-changed handler of the slider.  The adapter is
    [set_pwm_brightness], the one function that calls the LED driver.
    - No call site calls the LED driver itself.
    - Every percentage [b] in 0..100 reaches the adapter as it is: the
      configured percentage, the percentage mapped from the light
      sensor, the stored manual percentage, the slider's value, which
      is also the number written with a percent sign on the value
      label.
    - The inversion is the adapter's: with a ready device the LED
      driver receives, for each percentage [b] handed over, the duty
      [100 - max b 1]; with no device or a device that is not ready it
      is not called.  (The drag is taken with a track of positive
      width, by which it divides.)
    - The two handlers written over the adapter agree with the same
      handlers written over the LED driver. *)
Theorem engine_issues_logical_percentage :
  (forall x, led_values (site_calls x) = [])
  /\ (forall x dev ret,
        divides_safely x ->
        Forall (fun b => 0 <= b <= 100) (issued (site_calls x)) ->
        (Backlight.device_is_ready dev = true ->
         led_values (lower (Some dev) ret (site_calls x))
         = map (fun b => 100 - Z.max b 1) (issued (site_calls x)))
        /\ (Backlight.device_is_ready dev = false ->
            led_values (lower (Some dev) ret (site_calls x)) = [])
        /\ led_values (lower None ret (site_calls x)) = [])
  /\ (forall b, 0 <= b <= 100 ->
        issued (site_calls (timeout_brightness_site (Some b)))
        = (if 0 <? b then [b] else [])
        /\ issued (site_calls (fixed_brightness_site (Some b))) = [b]
        /\ (forall env s light,
              ds_auto_brightness_enabled (settings s) = true ->
              brightness_control_sensor_available env = true ->
              brightness_control_read_sensor env = (0, light) ->
              brightness_control_map_light_to_brightness env (to_uint16 light) = b ->
              issued (site_calls (auto_timer_site env s)) = [b])
        /\ (forall env new_timer s light,
              brightness_control_sensor_available env = true ->
              brightness_control_read_sensor env = (0, light) ->
              brightness_control_map_light_to_brightness env (to_uint16 light) = b ->
              issued (site_calls (auto_switch_site env LV_EVENT_VALUE_CHANGED true
                                    new_timer s)) = [b])
        /\ (forall env new_timer s slider,
              ds_manual_brightness (settings s) = b ->
              ds_brightness_slider (drag (settings s)) = Some slider ->
              issued (site_calls (auto_switch_site env LV_EVENT_VALUE_CHANGED false
                                    new_timer s)) = [b])
        /\ (forall e slider s,
              lv_slider_get_value e = b ->
              is_obj (active_slider (drag s)) slider = false ->
              let r := BacklightEngine.ds_brightness_slider_event_cb
                         e LV_EVENT_VALUE_CHANGED slider s in
              issued (snd r) = (if ds_auto_brightness_enabled s then [] else [b])
              /\ ds_manual_brightness (fst r) = b
              /\ forall label, ds_brightness_value (drag s) = Some label ->
                               shown label (snd r) = Some (fmt_d b +++ "%"))
        /\ (forall e slider px py s label,
              indev_point e = Some (px, py) ->
              active_slider s = Some slider -> drag_cancelled s = false ->
              ds_brightness_slider s = Some slider ->
              ds_brightness_value s = Some label ->
              0 < slider_width s ->
              let r := BacklightEngine.ds_custom_slider_drag_cb
                         e LV_EVENT_PRESSING slider s in
              drag_cancelled (fst r) = false -> current_value (fst r) = b ->
              issued (snd r) = [b]
              /\ shown label (snd r) = Some (fmt_d b +++ "%")
              /\ omap (fun c => match c with
                                | ui c => slider_value_set slider c
                                | _ => None
                                end) (snd r) = [b]))
  /\ (forall e code slider s,
        fst (BacklightEngine.ds_custom_slider_drag_cb e code slider s)
        = fst (Slider.ds_custom_slider_drag_cb e code slider s)
        /\ lower (backlight_dev e) (led_ret e)
             (snd (BacklightEngine.ds_custom_slider_drag_cb e code slider s))
           = map ui (snd (Slider.ds_custom_slider_drag_cb e code slider s)))
  /\ (forall e code slider s,
        fst (BacklightEngine.ds_brightness_slider_event_cb e code slider s)
        = fst (Settings.ds_brightness_slider_event_cb e code slider s)
        /\ lower (backlight_dev e) (led_ret e)
             (snd (BacklightEngine.ds_brightness_slider_event_cb e code slider s))
           = map ui (snd (Settings.ds_brightness_slider_event_cb e code slider s))).
Proof.
  split; [exact site_calls_no_led|].
  split; [|split; [|split; [exact drag_cb_lowers | exact slider_changed_lowers]]].
  - intros x dev ret _ Hrange. split; [|split].
    + intros Hready. apply lower_led; [assumption..|apply site_calls_no_led].
    + intros Hoff. rewrite (lower_not_ready (Some dev)) by exact Hoff.
      apply site_calls_no_led.
    + rewrite (lower_not_ready None) by exact I. apply site_calls_no_led.
  - intros b Hb. split; [|split; [|split; [|split; [|split; [|split]]]]].
    + cbn [site_calls timeout_brightness]. rewrite to_uint8_id by lia.
      destruct (0 <? b); reflexivity.
    + cbn [site_calls fixed_brightness]. rewrite to_uint8_id by lia. reflexivity.
    + intros env s light He Ha Hr Hm. cbn [site_calls]. rewrite <- Hm.
      apply auto_timer_issues; try assumption. now rewrite Hm.
    + intros env nt s light Ha Hr Hm. cbn [site_calls].
      unfold ds_auto_switch_event_cb. rewrite Ha. cbn [andb]. cbv zeta.
      destruct s as [[d mb ab ml] tm].
      pose proof (fun s' He => auto_timer_issues env s' light He Ha Hr
                                 ltac:(rewrite Hm; exact Hb)) as Hcb.
      rewrite Hm in Hcb.
      destruct tm as [t|];
        cbn [set_ds_auto_brightness_enabled settings auto_brightness_timer
               set_auto_brightness_timer drag snd];
        rewrite !issued_app, Hcb by reflexivity;
        destruct (ds_brightness_slider d); reflexivity.
    + intros env nt s slider Hm Hs. cbn [site_calls].
      unfold ds_auto_switch_event_cb. cbn [andb]. cbv zeta.
      destruct s as [[d mb ab ml] tm]. cbn [settings drag ds_manual_brightness] in Hm, Hs.
      destruct tm as [t|];
        cbn [set_ds_auto_brightness_enabled settings auto_brightness_timer
               set_auto_brightness_timer drag snd ds_manual_brightness];
        rewrite Hs, Hm, !issued_app; cbn; rewrite to_uint8_id by lia; reflexivity.
    + intros e slider s Hv Hd. cbv zeta.
      unfold BacklightEngine.ds_brightness_slider_event_cb. rewrite Hd, Hv.
      cbn [fst snd set_ds_manual_brightness drag ds_auto_brightness_enabled
             ds_manual_brightness].
      rewrite to_uint8_id by lia. rewrite percent_fits by lia.
      split; [|split; [reflexivity|]].
      * destruct (ds_brightness_value (drag s)), (ds_auto_brightness_enabled s);
          reflexivity.
      * intros label ->. unfold shown, rendered_text.
        destruct (ds_auto_brightness_enabled s); cbn; now rewrite Nat.eqb_refl.
    + intros e slider px py s label Hp Ha Hc Hs Hl Hw r Hnc Hcur.
      destruct (drag_issues e slider px py s label Hp Ha Hc Hs Hl Hw Hnc
                  ltac:(fold r; rewrite Hcur; exact Hb)) as (H1 & H2 & H3).
      fold r in H1, H2, H3. rewrite Hcur in H1, H2, H3. now repeat split.
Qed.

Lemma engine_issues_logical_percentage_witness :
  issued (site_calls (slider_drag_site (touch_at 160 60) LV_EVENT_PRESSING 40%nat
                        dragging)) = [95]
  /\ led_values (lower ready 0
                   (site_calls (slider_drag_site (touch_at 160 60) LV_EVENT_PRESSING
                                  40%nat dragging))) = [5]
  /\ issued (site_calls (auto_timer_site sensor_sample engine_auto)) = [80].
Proof.
  destruct engine_issues_logical_percentage as (_ & Hadapter & Hsites & _).
  destruct (Hsites 95 ltac:(lia)) as (_ & _ & _ & _ & _ & _ & Hdrag).
  destruct (Hdrag (touch_at 160 60) 40%nat 160 60 dragging 41%nat
              eq_refl eq_refl eq_refl eq_refl eq_refl ltac:(cbn; lia) eq_refl eq_refl)
    as (Hi & _).
  destruct (Hsites 80 ltac:(lia)) as (_ & _ & Hauto & _).
  split; [exact Hi|]. split.
  - destruct (Hadapter (slider_drag_site (touch_at 160 60) LV_EVENT_PRESSING 40%nat
                          dragging) {| Backlight.device_is_ready := true |} 0) as [Hd _].
    + cbn; lia.
    + cbn [site_calls]. rewrite Hi. repeat constructor; lia.
    + etransitivity; [exact (Hd eq_refl)|]. cbn [site_calls]. rewrite Hi. reflexivity.
  - exact (Hauto sensor_sample engine_auto 300 eq_refl eq_refl eq_refl eq_refl).
Defined.

End BacklightEngineProperties.
